(* ===== verification/_CoqProject ===== *)
-Q . S2P
Spec2Rocq.v
SessionGuard.v
Js.v
TaskStorage.v
TaskPoller.v
Navigation.v
Pagination.v
AuthSession.v
Alerts.v
PaginatedFetch.v
DateHelpers.v
Camera.v
Formatters.v
Direction.v
Routing.v
Widgets.v
Views.v
Composition.v
