(* ===== verification/Spec2Rocq.v ===== *)
(** * Billing-system web client: session guard, task poller, routing and display

    This development models the browser client under [src/frontend/src]
    and proves it correct where it is, and exhibits where it is not. The
    client is a React application; its parts, and how they interact, are:

    - the session guard, the response interceptor of
      [services/axiosInstance.ts]: on a 401 it refreshes the credentials
      once for all concurrent callers, queues the callers that fail while
      the refresh is in flight, then reissues or rejects them; on 403 and
      on refresh failure it dispatches [authError] window events;
    - the authentication context, [context/AuthContext.tsx], which listens
      to those events (log out on [sessionExpired], access-denied modal on
      [unauthorized]), keeps the user in [localStorage] and reloads it on
      start; the header's logout button calls it;
    - the task poller, [context/TaskContext.tsx], which tracks one
      background PDF job: it persists the job id through
      [utils/taskStorage.ts] (the same [localStorage]), checks its status
      on mount and every 15 seconds, and stops on SUCCESS, FAILURE, RETRY
      or a failed check;
    - the route table of [routes/AppRoutes.tsx], which reads the
      authentication context, and the role-gated sidebar links of
      [components/layout/AppSidebar.tsx];
    - the text direction: [App.tsx], [Layout.tsx] and [Header.tsx] set the
      document's direction from the i18next language, [App.tsx] loads the
      matching Bootstrap stylesheet, the sidebar and [LanguageSwitcher.tsx]
      place and label themselves by it;
    - the paginated fetch hook and the pagination control, the alert
      provider of [context/AlertContext.tsx] and its [useErrorHandler],
      the camera hook, the report month helper, the display formatters,
      two form widgets and what the page chrome renders.

    ** Files, in dependency order

    - [Spec2Rocq.v] (this file): the prelude. The [billing_scope] notation
      [xs ⊲ x] for [Array.prototype.push]; [countb] for counting events in
      a trace; JavaScript's string methods [includes], [indexOf],
      [toLowerCase], [split] and [trim]; list lemmas on distinct keys
      ([NoDup_map_filter], [NoDup_map_eq]); the reflexive-transitive
      closure [star] of a step relation with [star_invariant], the rule
      induction every invariant uses; the hint databases [billing] and
      [billing_rw]; the tactics [bool_facts], [case_if] and [count_simpl].
    - [SessionGuard.v], [Module SessionGuard]: the module variables
      [isRefreshing] and [failedQueue], the [onError] frame suspended on
      [refreshToken()] and the microtask queue of the queued callers'
      continuations form [GuardState]; [onError], [processQueue],
      [refreshSucceeded], [refreshFailed] and [runMicrotask] are the
      synchronous segments of the interceptor; every observable effect
      (refresh call, reissue, rejection, window event) is appended to a
      trace. [step] is the event loop: a new failure ([onError]) or a
      [turn] (the refresh settling either way, a microtask running), in
      any order (more interleavings than JavaScript allows, so the
      theorems hold a fortiori). Theorems C1-C8: the invariant (at most
      one refresh in flight, empty queue when idle), the N-caller success
      and failure scenarios, the early returns, a refinement of the
      specification's [Idle | Refreshing(queue)] coordinator, a finding,
      and liveness: once the refresh settles every waiting caller is
      answered, and every turn decreases the pending work ([pending]).
    - [Js.v], [Module Js]: JavaScript values (with arrays), the [&&],
      [||], [??], [?.], [===], [ToNumber] and [ToString] the code applies
      to values of unknown shape; the texts of [localStorage] (a stored
      text is represented by what [JSON.parse] returns for it, or by
      itself when [JSON.parse] throws); and the TypeScript types the code
      declares ([TsType], the judgment [has_type] and its checker
      [has_type_b], proved equivalent).
    - [TaskStorage.v]: the interface [TaskStore] / [TaskStoreLaws] (save,
      read with expiry, clear, and their laws), and [Module TaskStorage]:
      [localStorage] as a [gmap] of stored texts, [saveTaskId],
      [getTaskId] (parse, the [expiry] comparison, the [catch]) and
      [clearTaskId], with [Date.now()] passed in; [client_step] is what
      the client does to the storage. Theorems C9-C12 (round trip,
      eviction, frame on the other keys, and the declared result type
      [string | null] on every storage the client reaches); the instance
      [local_task_store_laws] discharges the laws.
    - [TaskPoller.v], [Module TaskPoller]: the provider's state, the
      storage, the live interval, the checks awaiting the backend and the
      toasts form [Poller], generic in any [TaskStore]; [commit] is React's
      commit phase re-running the polling effect; [mount], [startTask],
      [clearTask], [checkTaskStatus_start]/[_settle], [timerFires] and
      [rerender] are the handlers, [poller_step] their interleavings, and
      [taskContextValue] the record of them [useTask] hands out.
      Theorems C13-C20: the interval runs only for a held, non-terminal
      task; the behaviour for PENDING, SUCCESS, RETRY, FAILURE and a failed
      check; reload; two findings.
    - [Navigation.v], [Module Navigation]: [NAV_ITEMS] and [allowedLinks],
      [appRoutesConfig] with its page components, and [resolve_child].
      Theorems C27-C28.
    - [Pagination.v], [Module Pagination]: the controls the component
      renders and the page each asks for. Theorem C32.
    - [AuthSession.v], [Module AuthSession]: [login], [logout] (split at
      its [await]: [logout_resume] navigates after the backend answers),
      the header's [logoutClicked], [handleAuthError], the modal's close, the
      initial load, the context value and [useAuth], and [listen], which
      feeds the guard's trace to the listener. Theorems C21-C24 connect
      the components: a failed refresh signs the user out once, a 403
      opens the modal, logout keeps the task, a reload restores the user
      (and a finding).
    - [Alerts.v], [Module Alerts]: the provider's value, a record of its
      operations [success], [error] and [handleError] (the message chosen
      by the runtime shape of the error, a JavaScript value, with the
      suppression of the token messages and the [TypeError] of a null
      first field error), and [useErrorHandler]. Theorem C33.
    - [PaginatedFetch.v], [Module PaginatedFetch]: [usePaginatedFetch]
      as a state machine whose requests settle in any order, its errors
      going through [Alerts.handleError]; [fetchData] is rebuilt on every
      render, so every render re-runs the fetching effect
      ([render_effect], [hook_step]), and the segment-by-segment
      [fetch_step] over-approximates the hook. Theorems C29-C31: the
      loading flag, the request loop (a finding), and the path of a
      transport failure from the interceptor to the toast.
    - [DateHelpers.v], [Module DateHelpers]: [getDefaultMonth] with the
      month carry of [new Date] and [padStart]. Theorem C40.
    - [Camera.v], [Module Camera]: [useCamera]'s stream lifecycle, with the
      acquired-and-not-stopped streams made explicit, and [capturePhoto].
      Theorems C38-C39.
    - [Formatters.v], [Module Formatters]: [formatNumber],
      [formatCurrency], [formatDate] and [formatBoolean] of
      [utils/formatters.ts], in a section whose variables are the
      platform's [Number], [Date.parse] and [Intl] formatters.
    - [Direction.v], [Module Direction]: i18next's [dir] and resolved
      language, the document ([dir], [lang], the body class, the
      stylesheets of the head), [loadBootstrap] and the three direction
      effects run children first; [shell_step] is language and page
      changes; [main_head] is the head [main.tsx] leaves, with the
      bundled left-to-right Bootstrap. Theorems C34-C37: the exact head
      (the page's own, then one [#bootstrap-css] of [App]'s direction),
      the early return of [loadBootstrap] equivalent to the plain reload,
      the effects agreeing on one direction for [en] and [ar] while the
      bundled LTR stylesheet stays, and a characterisation of the
      language codes for which they disagree.
    - [Routing.v], [Module Routing]: [AppRoutes] with its public routes,
      protected tree, fallback and modal overlays, and [follow], the
      chain of [<Navigate>]s. [ProtectedRoute] is a section variable with
      two hypotheses. Theorems C25-C26: every location settles, and
      [/login] sends a signed-in user to a home page the role may open.
    - [Widgets.v], [Module Widgets]: [QRScanner]'s field, submit guard and
      events, and [ConfirmationModal]'s disabled buttons.
    - [Views.v], [Module Views]: what [AppSidebar], [Header], [Layout],
      [LanguageSwitcher], [SkeletonTable] and [Input] compute for the
      page: keyed menu entries with their active flag, the welcome values,
      the active language item, the skeleton's keyed cells with
      [Array.from]'s length conversion and [RangeError], the input's
      validity flags. Lemmas only: distinct keys, at most one active
      entry, and a finding.
    - [Composition.v], [Module Composition]: the component tree of
      [main.tsx] and [App], each component with the context it provides
      and the contexts its hooks read; a lemma shows that every hook finds
      its provider, so no missing-provider error can be thrown.

    ** Bounds and fuel

    [SessionGuard.drain] runs the microtask queue for as many turns as it
    has jobs; each turn removes one job, so the queue is empty afterwards
    ([drain_jobs]); [pending] counts the queued jobs plus the pending
    refresh and its queued callers, and bounds every run of turns (C8).
    [Routing.follow] renders at most [fuel] locations; the longest chain
    of redirects is [/login] to [/] to the home page, so four renders
    reach a settled screen from any path (C25). Times are integers of
    milliseconds; [TASK_EXPIRY_MS] is the source's [2.5 * 60 * 60 * 1000],
    exactly 9000000. Numbers in [Js.jsval] are integers, which holds for
    every number the code writes; a numeric string is read by [Number]
    only when it is a decimal integer. Array lengths in [Views] are
    integers: [ToLength] clamps them to [0 .. 2^53 - 1] and [Array.from]
    rejects those above [2^32 - 1]. Strings are byte strings;
    [toLowerCase] acts on ASCII letters.

    ** What the modelling showed

    - A caller queued during a refresh is reissued without the [_retry]
      mark, so a second 401 on it starts a second refresh (C7).
    - [getTaskId] returns whatever [storedTask.id] holds: its declared
      [string | null] is kept only on storages the client wrote (C12).
    - A status response is applied to whatever task is current: a stale
      FAILURE for an earlier task clears a newly started one (C19).
    - Expiry of the persisted record does not stop polling (C20).
    - [isLoading] is one flag for all checks: a slow answer lets the next
      check start, and the first answer clears the flag while the second
      is pending ([TaskPoller.overlapping_checks_clear_loading]).
    - Logging out leaves the background task's record in storage (C23).
    - A login that resolves with [undefined] stores the text
      ["undefined"], and the next reload's unguarded [JSON.parse] leaves
      the application loading (C24).
    - The sidebar shows [/fixes] to the role [user], which the route
      table forbids; it is the only such pair of role and link (C28).
    - [usePaginatedFetch] never stops fetching: [useErrorHandler]
      returns a new object each render, so [fetchData] changes and its
      effect re-runs after every render; every response brings new
      requests and the loading flag stays on (C30).
    - The interceptor rejects timeouts and network failures with plain
      objects, which [handleError] does not read: the toast shows the
      generic message (C31).
    - A response whose first field error is [null] makes [handleError]
      throw instead of returning a message (C33).
    - With zero pages the Last control is enabled and asks for page 0
      ([Pagination.empty_result_last_targets_page_zero]).
    - [App] decides the direction with [language === "ar"] and the menus
      the label with [language === "en"], while i18next compares language
      parts: exactly the codes that are right to left for i18next but not
      [ar] mix directions, and those that are not [en] and do not resolve
      to Arabic are labelled Arabic (C37).
    - [main.tsx] imports the left-to-right Bootstrap statically, so on
      right-to-left pages both Bootstrap stylesheets are in force (C34,
      C36).
    - Two overlapping [startCamera] calls leave a camera stream running
      after [stopCamera] (C39).
    - [formatDate] shows the timestamp [0] as missing
      ([Formatters.formatDate_epoch_shown_missing]).
    - The sidebar marks its active entry with [===] while the router
      ignores case and trailing slashes ([Views.sidebar_misses_router_paths]).

    ** Not modelled, and why

    The HTTP transport and the backend ([authService], [billsService],
    [getTaskStatus] are not under [src/]); [ProtectedRoute.tsx] (not
    under [src/]: a hypothesis of the routing theorems); the text of JSON
    itself (stored texts are represented by their [JSON.parse] result);
    React's StrictMode double invocation of effects, the identity of
    memoised values (except [fetchData]'s, which drives an effect) and
    [Suspense]'s lazy loading; markup and styling, and the parts with
    no state or decision of their own ([Button], [UnauthorizedModal]'s
    markup, the i18n detector's
    configuration, whose only effect is the initial language, a parameter
    of [Direction.boot]).

    ** Plan for the next sittings

    The [authError] listener's registration across re-renders (its
    effect depends on [logout], whose identity follows [navigate]); the
    pages that connect [Pagination] to [usePaginatedFetch] are not under
    [src/], so that connection is left to them. *)


From stdpp Require Import base list strings.
From Stdlib Require Import ZArith Lia.

(** ** Notations of the development *)

Declare Scope billing_scope.
Delimit Scope billing_scope with billing.
Open Scope billing_scope.

(** [xs ⊲ x] is [Array.prototype.push]: the element goes to the back. *)
Notation "xs ⊲ x" := (xs ++ [x]) (at level 50, left associativity) : billing_scope.

(** ** Counting the elements of a list that satisfy a test *)

Definition countb {A} (p : A -> bool) (l : list A) : nat :=
  length (List.filter p l).

Lemma countb_nil {A} (p : A -> bool) : countb p [] = 0.
Proof. reflexivity. Qed.

Lemma countb_app {A} (p : A -> bool) l1 l2 :
  countb p (l1 ++ l2) = countb p l1 + countb p l2.
Proof. unfold countb. rewrite List.filter_app, length_app. reflexivity. Qed.

Lemma countb_cons {A} (p : A -> bool) x l :
  countb p (x :: l) = (if p x then 1 else 0) + countb p l.
Proof. unfold countb. simpl. destruct (p x); reflexivity. Qed.

Lemma countb_map_false {A B} (p : B -> bool) (f : A -> B) l :
  (forall x, p (f x) = false) -> countb p (map f l) = 0.
Proof.
  intros Hf. induction l as [|x l IH]; [reflexivity|].
  simpl. rewrite countb_cons, Hf, IH. reflexivity.
Qed.

(** ** JavaScript's [String.prototype.includes] *)

Fixpoint str_includes (hay needle : string) : bool :=
  match hay with
  | EmptyString => String.prefix needle hay
  | String _ rest => String.prefix needle hay || str_includes rest needle
  end.

Lemma prefix_app (s t : string) : String.prefix s (s +:+ t) = true.
Proof.
  induction s as [|c s IH]; simpl; [destruct t; reflexivity|].
  destruct (Ascii.ascii_dec c c); [exact IH | congruence].
Qed.

Lemma str_includes_prefix (hay needle : string) :
  String.prefix needle hay = true -> str_includes hay needle = true.
Proof. destruct hay; simpl; intros ->; reflexivity. Qed.

Lemma str_includes_app (a needle b : string) :
  str_includes (a +:+ needle +:+ b) needle = true.
Proof.
  induction a as [|c a IH].
  - exact (str_includes_prefix _ _ (prefix_app needle b)).
  - simpl. rewrite IH. apply orb_true_r.
Qed.

(** [Array.prototype.includes] on a list of strings is membership. *)
Lemma existsb_eqb_In (m : string) (l : list string) :
  existsb (String.eqb m) l = true <-> In m l.
Proof.
  rewrite existsb_exists. split.
  - intros (x & Hin & Heq). apply String.eqb_eq in Heq. subst. exact Hin.
  - intros H. exists m. split; [exact H | apply String.eqb_refl].
Qed.

(** ** More of JavaScript's string methods

    Strings are byte strings; [toLowerCase] is modelled on ASCII letters,
    the only ones the development's inputs (paths, language codes) hold. *)

(** [s.indexOf(needle)], [None] for [-1]. *)
Fixpoint str_indexOf (hay needle : string) : option nat :=
  if String.prefix needle hay then Some 0
  else match hay with
       | EmptyString => None
       | String _ rest => option_map S (str_indexOf rest needle)
       end.

Definition ascii_lower (c : Ascii.ascii) : Ascii.ascii :=
  let n := Ascii.nat_of_ascii c in
  if (65 <=? n)%nat && (n <=? 90)%nat then Ascii.ascii_of_nat (n + 32) else c.

(** [s.toLowerCase()]. *)
Fixpoint str_toLowerCase (s : string) : string :=
  match s with
  | EmptyString => EmptyString
  | String c rest => String (ascii_lower c) (str_toLowerCase rest)
  end.

(** [s.split(sep)] for a one-character separator: the pieces between the
    separators, empty ones included, so that [""] gives [[""]]. *)
Fixpoint str_split (sep : Ascii.ascii) (s : string) : list string :=
  match s with
  | EmptyString => [EmptyString]
  | String c rest =>
      if Ascii.eqb c sep then EmptyString :: str_split sep rest
      else match str_split sep rest with
           | w :: ws => String c w :: ws
           | [] => [String c EmptyString]
           end
  end.

(** [s.trim()]: the JavaScript white space of ASCII (tab, line feed,
    vertical tab, form feed, carriage return, space) at both ends. *)
Definition is_js_space (c : Ascii.ascii) : bool :=
  let n := Ascii.nat_of_ascii c in (n =? 32)%nat || ((9 <=? n)%nat && (n <=? 13)%nat).

Fixpoint str_trim_start (s : string) : string :=
  match s with
  | String c rest => if is_js_space c then str_trim_start rest else s
  | EmptyString => EmptyString
  end.

Fixpoint str_rev (s : string) : string :=
  match s with
  | EmptyString => EmptyString
  | String c rest => str_rev rest +:+ String c EmptyString
  end.

Definition str_trim (s : string) : string := str_rev (str_trim_start (str_rev (str_trim_start s))).

Lemma str_split_nonempty sep s : str_split sep s <> [].
Proof.
  destruct s as [|c rest]; simpl; [discriminate|].
  destruct (Ascii.eqb c sep); [discriminate|]. destruct (str_split sep rest); discriminate.
Qed.

(** [List.find] is the head of [List.filter]. *)
Lemma find_filter_head {A} (p : A -> bool) (l : list A) : List.find p l = head (List.filter p l).
Proof. induction l as [|x l IH]; simpl; [reflexivity|]. destruct (p x); [reflexivity | exact IH]. Qed.

(** ** Reachability in a transition system *)

(** Keys that are distinct in a list stay distinct in a filtered list,
    and two elements of a list with distinct keys that share a key are
    the same element. *)
Lemma NoDup_map_filter {A B} (g : A -> B) (f : A -> bool) l :
  NoDup (map g l) -> NoDup (map g (List.filter f l)).
Proof.
  induction l as [|x l IH]; simpl; [auto|]. intros Hnd. inversion Hnd as [|? ? Hx Hl]; subst.
  destruct (f x); simpl; [|auto]. constructor; [|auto].
  rewrite list_elem_of_In. intros Hin. apply Hx, list_elem_of_In.
  apply in_map_iff in Hin as (y & Hy & Hin).
  apply in_map_iff. exists y. split; [exact Hy | apply (proj1 (filter_In _ _ _) Hin)].
Qed.

Lemma NoDup_map_eq {A B} (g : A -> B) l x y :
  NoDup (map g l) -> In x l -> In y l -> g x = g y -> x = y.
Proof.
  induction l as [|z l IH]; simpl; [tauto|]. intros Hnd Hx Hy Hg. inversion Hnd as [|? ? Hz Hl]; subst.
  destruct Hx as [<- | Hx], Hy as [<- | Hy]; auto.
  - exfalso. apply Hz, list_elem_of_In. rewrite Hg. apply in_map, Hy.
  - exfalso. apply Hz, list_elem_of_In. rewrite <- Hg. apply in_map, Hx.
Qed.

Lemma NoDup_map_seq_Z s n : NoDup (map Z.of_nat (seq s n)).
Proof.
  revert s. induction n as [|n IH]; intros s; simpl; constructor; [|apply IH].
  rewrite list_elem_of_In, in_map_iff. intros (y & Hy & Hin). apply in_seq in Hin. lia.
Qed.

Section Reachability.
Context {S : Type} (step : S -> S -> Prop).

Inductive star : S -> S -> Prop :=
| star_refl s : star s s
| star_step s1 s2 s3 : step s1 s2 -> star s2 s3 -> star s1 s3.

Lemma star_one s1 s2 : step s1 s2 -> star s1 s2.
Proof. intros H. eapply star_step; [exact H | apply star_refl]. Qed.

Lemma star_trans s1 s2 s3 : star s1 s2 -> star s2 s3 -> star s1 s3.
Proof. induction 1; intros; [assumption | eapply star_step; eauto]. Qed.

(** An invariant established at the start and kept by every step holds
    in every reachable state: the rule induction used for each
    component's invariant. *)
Lemma star_invariant (I : S -> Prop) :
  (forall s1 s2, I s1 -> step s1 s2 -> I s2) ->
  forall s1 s2, star s1 s2 -> I s1 -> I s2.
Proof. intros Hstep s1 s2 Hs. induction Hs; eauto. Qed.
End Reachability.

Arguments star_refl {S step} s.

(** ** Automation shared by the components *)

Create HintDb billing discriminated.
#[export] Hint Resolve star_refl star_one : billing.
Create Rewrite HintDb billing_rw.
#[export] Hint Rewrite @countb_app @countb_cons @countb_nil : billing_rw.

(** [bool_facts] turns the boolean tests of the modelled code that sit in
    the hypotheses into propositions. *)
Ltac bool_facts :=
  repeat match goal with
  | H : (_ || _)%bool = false |- _ => apply orb_false_iff in H as [? ?]
  | H : (_ && _)%bool = true |- _ => apply andb_true_iff in H as [? ?]
  | H : negb _ = false |- _ => apply negb_false_iff in H
  | H : negb _ = true |- _ => apply negb_true_iff in H
  | H : Z.eqb _ _ = true |- _ => apply Z.eqb_eq in H
  | H : String.eqb _ _ = true |- _ => apply String.eqb_eq in H
  end.

(** [case_if] splits on the first [if] of the goal, remembering the test. *)
Ltac case_if :=
  match goal with
  | |- context [if ?b then _ else _] =>
      let E := fresh "E" in destruct b eqn:E
  end.

(** [count_simpl] distributes [countb] over the traces built by the
    models and evaluates it on their concrete heads. *)
Ltac count_simpl := autorewrite with billing_rw in *; cbn -[countb] in *.
