(* ===== verification/SessionGuard.v ===== *)
(** * The session guard: the response interceptor of [src/frontend/src/services/axiosInstance.ts]

    The module-level variables [isRefreshing] and [failedQueue] of the
    source, together with the suspended [onError] frame that awaits
    [authService.refreshToken()] and the microtasks that [processQueue]
    schedules, form the record [GuardState]. Each synchronous segment of
    the interceptor is one function on that record: [onError] (lines
    39-83, up to the [await]), [refreshSucceeded] and [refreshFailed]
    (lines 85-110, after the [await] settles) and [runMicrotask] (the
    [.then]/[.catch] continuations of lines 77-78). Everything the code
    does that another component can observe is appended to [trace].
    The event loop [step] delivers a new failure or takes a [turn] (the
    refresh settling, a microtask running); the liveness theorem shows
    that turns alone answer every waiting caller. *)

From stdpp Require Import base list strings.
From Stdlib Require Import ZArith Lia.
From S2P Require Import Spec2Rocq.

Open Scope Z_scope.

Module SessionGuard.

(** ** Data *)

(** The fields of [InternalAxiosRequestConfig & { _retry?: boolean }] the
    interceptor reads; [req_id] names the caller whose promise the
    interceptor settles. An absent [_retry] is [false]. *)
Record Req := mkReq {
  req_id : nat;
  url : option string;
  retry : bool
}.

(** [AxiosError]: [code], [response?.status] and [config]. *)
Record AxiosError := mkAxiosError {
  code : option string;
  response : option Z;
  config : Req
}.

(** The object literals the interceptor rejects with for timeouts and
    network failures: [{ message, code, originalError }]. *)
Record ClassifiedError := mkClassified {
  ce_message : string;
  ce_code : string;
  ce_original : AxiosError
}.

(** The value a caller's promise is rejected with. The refresh error is
    whatever [authService.refreshToken()] threw, kept opaque. *)
Definition RefreshError := nat.

Inductive Rejection :=
| RejClassified (ce : ClassifiedError)
| RejAxios (e : AxiosError)
| RejRefresh (err : RefreshError).

(** [detail.reason] of the [authError] window event. *)
Inductive AuthReason := SessionExpired | Unauthorized.

(** What the interceptor does that the rest of the program observes. *)
Inductive Action :=
| Dispatch (reason : AuthReason)          (** [window.dispatchEvent(authError)] *)
| RefreshCall                             (** [await authService.refreshToken()] *)
| RefreshSucceededLog                     (** The refresh promise resolved *)
| RefreshFailedLog (err : RefreshError)   (** The refresh promise rejected *)
| Reissue (r : Req)                       (** [instance(originalRequest)] *)
| Reject (caller : nat) (why : Rejection).  (** The caller's promise rejects *)

(** The continuations [processQueue] resolves or rejects: the queued
    caller's [.then(() => instance(originalRequest))] or its [.catch]. *)
Inductive Job :=
| ResumeQueued (r : Req)
| FailQueued (r : Req) (err : RefreshError).

Record GuardState := mkGuard {
  isRefreshing : bool;
  failedQueue : list Req;
  refreshing_req : option Req;  (** The frame suspended on [refreshToken] *)
  microtasks : list Job;
  trace : list Action
}.

Definition initial_guard : GuardState := mkGuard false [] None [] [].

(** ** Helpers *)

Definition emit (a : Action) (s : GuardState) : GuardState :=
  mkGuard (isRefreshing s) (failedQueue s) (refreshing_req s) (microtasks s) (trace s ⊲ a).

(** [error.code === "ECONNABORTED"] *)
Definition is_timeout (e : AxiosError) : bool :=
  match code e with Some c => String.eqb c "ECONNABORTED" | None => false end.

(** [originalRequest.url?.includes('/auth/refresh')] *)
Definition targets_refresh (r : Req) : bool :=
  match url r with Some u => str_includes u "/auth/refresh" | None => false end.

(** [originalRequest._retry = true] *)
Definition mark_retry (r : Req) : Req := mkReq (req_id r) (url r) true.

Definition timeout_error (e : AxiosError) : ClassifiedError :=
  mkClassified "Request timed out. Please try again later." "ECONNABORTED" e.

Definition network_error (e : AxiosError) : ClassifiedError :=
  mkClassified "Network error. Please check your internet connection." "NETWORK_ERROR" e.

(** ** Operations *)

(** [processQueue(error)]: every queued caller is resolved (or rejected
    with [error]) in queue order, which schedules its continuation as a
    microtask; then [failedQueue = []]. *)
Definition processQueue (error : option RefreshError) (s : GuardState) : GuardState :=
  let job q := match error with Some err => FailQueued q err | None => ResumeQueued q end in
  mkGuard (isRefreshing s) [] (refreshing_req s)
          (microtasks s ++ map job (failedQueue s)) (trace s).

(** The error handler of the response interceptor, up to its first
    suspension point. *)
Definition onError (e : AxiosError) (s : GuardState) : GuardState :=
  let originalRequest := config e in
  if is_timeout e then
    emit (Reject (req_id originalRequest) (RejClassified (timeout_error e))) s
  else
    match response e with
    | None =>
        emit (Reject (req_id originalRequest) (RejClassified (network_error e))) s
    | Some status =>
        if negb (status =? 401) || targets_refresh originalRequest || retry originalRequest then
          let s1 := if status =? 403 then emit (Dispatch Unauthorized) s else s in
          emit (Reject (req_id originalRequest) (RejAxios e)) s1
        else if isRefreshing s then
          mkGuard (isRefreshing s) (failedQueue s ⊲ originalRequest) (refreshing_req s)
                  (microtasks s) (trace s)
        else
          mkGuard true (failedQueue s) (Some (mark_retry originalRequest))
                  (microtasks s) (trace s ⊲ RefreshCall)
    end.

(** The [try] block after [refreshToken()] resolved, then [finally]. *)
Definition refreshSucceeded (s : GuardState) : GuardState :=
  match refreshing_req s with
  | None => s
  | Some r =>
      let s1 := processQueue None (emit RefreshSucceededLog s) in
      let s2 := emit (Reissue r) s1 in
      mkGuard false (failedQueue s2) None (microtasks s2) (trace s2)
  end.

(** The [catch] block after [refreshToken()] rejected, then [finally]. *)
Definition refreshFailed (err : RefreshError) (s : GuardState) : GuardState :=
  match refreshing_req s with
  | None => s
  | Some r =>
      let s1 := processQueue (Some err) (emit (RefreshFailedLog err) s) in
      let s2 := emit (Reject (req_id r) (RejRefresh err)) (emit (Dispatch SessionExpired) s1) in
      mkGuard false (failedQueue s2) None (microtasks s2) (trace s2)
  end.

(** What a queued caller's continuation does when it runs:
    [.then(() => instance(originalRequest))] reissues the request, and
    [.catch(err => Promise.reject(err))] rejects the caller. *)
Definition job_action (j : Job) : Action :=
  match j with
  | ResumeQueued q => Reissue q
  | FailQueued q err => Reject (req_id q) (RejRefresh err)
  end.

(** One turn of the microtask queue. *)
Definition runMicrotask (s : GuardState) : GuardState :=
  match microtasks s with
  | [] => s
  | j :: js =>
      mkGuard (isRefreshing s) (failedQueue s) (refreshing_req s) js (trace s ⊲ job_action j)
  end.

(** Running the microtask queue to exhaustion: each turn removes one job,
    so [length (microtasks s)] turns suffice. *)
Fixpoint run_microtasks (fuel : nat) (s : GuardState) : GuardState :=
  match fuel with
  | O => s
  | S n => run_microtasks n (runMicrotask s)
  end.

Definition drain (s : GuardState) : GuardState :=
  run_microtasks (length (microtasks s)) s.

(** ** The event loop

    Any failed HTTP exchange may reach the interceptor at any time, the
    pending refresh may settle either way, and a pending microtask may
    run. This allows more interleavings than the JavaScript event loop
    (which drains microtasks before the next response is handled), so
    what holds of every run of [step] holds of every run of the code. A
    [turn] is a step that takes no new failure: the refresh settling or a
    microtask running. *)
Inductive turn : GuardState -> GuardState -> Prop :=
| turn_refresh_ok s : isRefreshing s = true -> turn s (refreshSucceeded s)
| turn_refresh_fail err s : isRefreshing s = true -> turn s (refreshFailed err s)
| turn_microtask s : microtasks s <> [] -> turn s (runMicrotask s).

Inductive step : GuardState -> GuardState -> Prop :=
| step_error e s : step s (onError e s)
| step_turn s s' : turn s s' -> step s s'.

Definition reachable (s : GuardState) : Prop := star step initial_guard s.

(** ** Specification vocabulary *)

(** A failed exchange the interceptor tries to recover: a 401 that is not
    a timeout, not on the refresh endpoint, not already retried. *)
Definition eligible (e : AxiosError) : bool :=
  negb (is_timeout e) &&
  match response e with
  | Some st => (st =? 401) && negb (targets_refresh (config e)) && negb (retry (config e))
  | None => false
  end.

(** What the interceptor reports on every path that does not recover. *)
Definition reject_actions (e : AxiosError) : list Action :=
  let id := req_id (config e) in
  if is_timeout e then [Reject id (RejClassified (timeout_error e))]
  else match response e with
       | None => [Reject id (RejClassified (network_error e))]
       | Some st => (if st =? 403 then [Dispatch Unauthorized] else []) ++ [Reject id (RejAxios e)]
       end.

Definition append_trace (acts : list Action) (s : GuardState) : GuardState :=
  mkGuard (isRefreshing s) (failedQueue s) (refreshing_req s) (microtasks s) (trace s ++ acts).

Definition is_refresh_call (a : Action) : bool :=
  match a with RefreshCall => true | _ => false end.

Definition is_refresh_settled (a : Action) : bool :=
  match a with RefreshSucceededLog | RefreshFailedLog _ => true | _ => false end.

Definition is_session_expired (a : Action) : bool :=
  match a with Dispatch SessionExpired => true | _ => false end.

(** The two ways the pending refresh call can settle: [None] when
    [refreshToken()] resolves, [Some err] when it rejects with [err]. *)
Definition settle (outcome : option RefreshError) (s : GuardState) : GuardState :=
  match outcome with
  | None => refreshSucceeded s
  | Some err => refreshFailed err s
  end.

(** The continuation [processQueue(outcome)] schedules for a queued caller. *)
Definition settle_job (outcome : option RefreshError) (q : Req) : Job :=
  match outcome with Some err => FailQueued q err | None => ResumeQueued q end.

(** What the settling frame reports about the request it awaited for. *)
Definition settle_actions (outcome : option RefreshError) (r : Req) : list Action :=
  match outcome with
  | None => [RefreshSucceededLog; Reissue r]
  | Some err => [RefreshFailedLog err; Dispatch SessionExpired; Reject (req_id r) (RejRefresh err)]
  end.

Definition job_req (j : Job) : Req := match j with ResumeQueued q | FailQueued q _ => q end.

(** The work left before the interceptor is quiet: the pending
    microtasks, and the pending refresh with every caller queued on it. *)
Definition pending (s : GuardState) : nat :=
  length (microtasks s) + if isRefreshing s then S (length (failedQueue s)) else 0.

Definition settled (s : GuardState) : bool :=
  negb (isRefreshing s) && match failedQueue s, microtasks s with [], [] => true | _, _ => false end.

(** A caller has been answered: its request reissued, or its promise
    rejected. *)
Definition answered (r : Req) (t : list Action) : Prop :=
  In (Reissue r) t \/ exists why, In (Reject (req_id r) why) t.

(** The invariant of the coordination state. The last conjunct says that
    at most one refresh call is in flight: every call but the current one
    has settled. *)
Definition guard_inv (s : GuardState) : Prop :=
  (isRefreshing s = false <-> refreshing_req s = None) /\
  (isRefreshing s = false -> failedQueue s = []) /\
  (forall r, refreshing_req s = Some r -> retry r = true) /\
  (countb is_refresh_call (trace s)
    = countb is_refresh_settled (trace s) + if isRefreshing s then 1 else 0)%nat.

(** ** Lemmas on the operations *)

Lemma emit_append a s : emit a s = append_trace [a] s.
Proof. reflexivity. Qed.

Lemma append_trace_app acts1 acts2 s :
  append_trace acts2 (append_trace acts1 s) = append_trace (acts1 ++ acts2) s.
Proof. unfold append_trace. simpl. rewrite app_assoc. reflexivity. Qed.

Lemma onError_not_eligible e s :
  eligible e = false -> onError e s = append_trace (reject_actions e) s.
Proof.
  unfold eligible, onError, reject_actions. intros H.
  destruct (is_timeout e); [reflexivity|]. simpl in H.
  destruct (response e) as [st|]; [|reflexivity].
  destruct (st =? 401) eqn:E401; simpl in *.
  - assert ((st =? 403) = false) as -> by (apply Z.eqb_eq in E401; subst; reflexivity).
    destruct (targets_refresh (config e)), (retry (config e)); simpl in *;
      try discriminate; reflexivity.
  - destruct (st =? 403); [|reflexivity].
    rewrite !emit_append, append_trace_app. reflexivity.
Qed.

Lemma onError_eligible e s :
  eligible e = true ->
  onError e s =
    if isRefreshing s
    then mkGuard true (failedQueue s ⊲ config e) (refreshing_req s) (microtasks s) (trace s)
    else mkGuard true (failedQueue s) (Some (mark_retry (config e))) (microtasks s)
                 (trace s ⊲ RefreshCall).
Proof.
  unfold eligible, onError. intros H.
  destruct (is_timeout e); [discriminate|]. simpl in H.
  destruct (response e) as [st|]; [|discriminate]. bool_facts.
  rewrite H, H1, H0. simpl. destruct (isRefreshing s) eqn:R; [|reflexivity].
  destruct s; simpl in *; subst; reflexivity.
Qed.

Lemma reject_actions_no_refresh e :
  countb is_refresh_call (reject_actions e) = 0%nat /\
  countb is_refresh_settled (reject_actions e) = 0%nat.
Proof.
  unfold reject_actions.
  destruct (is_timeout e); [split; reflexivity|].
  destruct (response e) as [st|]; [|split; reflexivity].
  destruct (st =? 403); split; reflexivity.
Qed.

Lemma run_microtasks_jobs fuel b q o js t :
  length js = fuel ->
  run_microtasks fuel (mkGuard b q o js t) = mkGuard b q o [] (t ++ map job_action js).
Proof.
  revert js t. induction fuel as [|n IH]; intros js t Hlen.
  - destruct js; [|discriminate]. simpl. rewrite app_nil_r. reflexivity.
  - destruct js as [|j js]; [discriminate|]. simpl in *. unfold runMicrotask; simpl.
    rewrite IH by lia. rewrite <- app_assoc. reflexivity.
Qed.

Lemma drain_jobs b q o js t :
  drain (mkGuard b q o js t) = mkGuard b q o [] (t ++ map job_action js).
Proof. apply run_microtasks_jobs. reflexivity. Qed.

Lemma job_action_no_refresh j :
  is_refresh_call (job_action j) = false /\ is_refresh_settled (job_action j) = false.
Proof. destruct j; split; reflexivity. Qed.

Lemma refreshSucceeded_some s r :
  refreshing_req s = Some r ->
  refreshSucceeded s =
    mkGuard false [] None (microtasks s ++ map ResumeQueued (failedQueue s))
            (trace s ++ [RefreshSucceededLog; Reissue r]).
Proof.
  intros H. unfold refreshSucceeded. rewrite H. destruct s; simpl.
  rewrite <- app_assoc. reflexivity.
Qed.

Lemma refreshFailed_some err s r :
  refreshing_req s = Some r ->
  refreshFailed err s =
    mkGuard false [] None (microtasks s ++ map (fun q => FailQueued q err) (failedQueue s))
            (trace s ++ [RefreshFailedLog err; Dispatch SessionExpired; Reject (req_id r) (RejRefresh err)]).
Proof.
  intros H. unfold refreshFailed. rewrite H. destruct s; simpl.
  rewrite <- !app_assoc. reflexivity.
Qed.

Lemma eligible_not_retried e : eligible e = true -> retry (config e) = false.
Proof.
  unfold eligible. destruct (is_timeout e), (response e); simpl; try discriminate.
  intros H. bool_facts. assumption.
Qed.

(** The callers that reach the interceptor one after the other. *)
Definition run_errors (es : list AxiosError) (s : GuardState) : GuardState :=
  fold_left (fun st e => onError e st) es s.

Lemma run_errors_refreshing es s :
  isRefreshing s = true -> Forall (fun e => eligible e = true) es ->
  run_errors es s =
    mkGuard true (failedQueue s ++ map config es) (refreshing_req s) (microtasks s) (trace s).
Proof.
  revert s. induction es as [|e es IH]; intros s Hr Hes; simpl.
  - destruct s; simpl in *; subst. rewrite app_nil_r. reflexivity.
  - inversion Hes as [|? ? He Hes']; subst.
    unfold run_errors in IH. rewrite onError_eligible, Hr by assumption.
    rewrite IH by (simpl; auto). simpl. rewrite <- app_assoc. reflexivity.
Qed.

Lemma guard_inv_append acts s :
  guard_inv s ->
  countb is_refresh_call acts = 0%nat -> countb is_refresh_settled acts = 0%nat ->
  guard_inv (append_trace acts s).
Proof.
  unfold guard_inv, append_trace. simpl. rewrite !countb_app. intros (H1 & H2 & H3 & H4) -> ->.
  repeat split; auto; try tauto. lia.
Qed.

Lemma onError_preserves e s : guard_inv s -> guard_inv (onError e s).
Proof.
  intros Hinv. destruct (eligible e) eqn:E.
  - rewrite onError_eligible by assumption.
    destruct Hinv as (H1 & H2 & H3 & H4).
    destruct (isRefreshing s) eqn:R; unfold guard_inv; simpl.
    + repeat split; auto; try discriminate; try tauto.
    + rewrite !countb_app. repeat split; try discriminate.
      * intros r' [= <-]. reflexivity.
      * count_simpl. lia.
  - rewrite onError_not_eligible by assumption.
    apply guard_inv_append; [assumption | apply reject_actions_no_refresh ..].
Qed.

Lemma settle_preserves s s' :
  guard_inv s -> isRefreshing s = true ->
  (s' = refreshSucceeded s \/ exists err, s' = refreshFailed err s) ->
  guard_inv s'.
Proof.
  intros (H1 & H2 & H3 & H4) Hr Hs'.
  destruct (refreshing_req s) as [r|] eqn:Er;
    [|rewrite (proj2 H1 eq_refl) in Hr; discriminate].
  rewrite Hr in H4.
  destruct Hs' as [-> | [err ->]];
    [rewrite (refreshSucceeded_some s r Er) | rewrite (refreshFailed_some err s r Er)];
    unfold guard_inv; simpl; repeat split; auto; try discriminate; count_simpl; lia.
Qed.

Lemma runMicrotask_preserves s : guard_inv s -> guard_inv (runMicrotask s).
Proof.
  intros Hinv. unfold runMicrotask. destruct (microtasks s) as [|j js] eqn:Ej; [assumption|].
  destruct Hinv as (H1 & H2 & H3 & H4). unfold guard_inv; simpl.
  destruct (job_action_no_refresh j) as [Hc Hs].
  repeat split; auto; try tauto. count_simpl. rewrite Hc, Hs. lia.
Qed.

Lemma step_preserves s s' : guard_inv s -> step s s' -> guard_inv s'.
Proof.
  intros Hinv Hstep. destruct Hstep as [e s | ? ? [s Hr | err s Hr | s Hm]].
  - apply onError_preserves, Hinv.
  - eapply settle_preserves; eauto.
  - eapply settle_preserves; eauto.
  - apply runMicrotask_preserves, Hinv.
Qed.

Lemma retried_not_eligible e : retry (config e) = true -> eligible e = false.
Proof.
  intros H. unfold eligible. rewrite H. destruct (is_timeout e), (response e); simpl; try reflexivity.
  rewrite !andb_false_r. reflexivity.
Qed.

(** ** Lemmas on settling *)

Lemma inv_refreshing_owner s :
  guard_inv s -> isRefreshing s = true -> exists r, refreshing_req s = Some r.
Proof.
  intros [H1 _] Hr. destruct (refreshing_req s) as [r|]; [exists r; reflexivity|].
  rewrite (proj2 H1 eq_refl) in Hr. discriminate.
Qed.

(** Every turn does some of the pending work. *)
Lemma turn_decreases s s' : guard_inv s -> turn s s' -> (pending s' < pending s)%nat.
Proof.
  intros Hinv Ht. destruct Ht as [s Hr | err s Hr | s Hm];
    try (destruct (inv_refreshing_owner s Hinv Hr) as [r Er]).
  - rewrite (refreshSucceeded_some s r Er). unfold pending. simpl. rewrite Hr, length_app, length_map. lia.
  - rewrite (refreshFailed_some err s r Er). unfold pending. simpl. rewrite Hr, length_app, length_map. lia.
  - unfold runMicrotask, pending. destruct (microtasks s) as [|j js]; [congruence|]. simpl. lia.
Qed.

Lemma run_microtasks_turns n s : length (microtasks s) = n -> star turn s (run_microtasks n s).
Proof.
  revert s. induction n as [|n IH]; intros s Hn; simpl; [apply star_refl|].
  destruct s as [b q o [|j js] t]; simpl in Hn; [discriminate|].
  eapply star_step; [apply turn_microtask; discriminate|]. apply IH. simpl. lia.
Qed.

Lemma settle_turns s outcome : guard_inv s -> star turn s (settle outcome s).
Proof.
  intros Hinv. destruct (isRefreshing s) eqn:Hr.
  - apply star_one. destruct outcome; constructor; exact Hr.
  - destruct Hinv as [H1 _]. unfold settle, refreshSucceeded, refreshFailed.
    rewrite (proj1 H1 Hr). destruct outcome; apply star_refl.
Qed.

(** Settling the refresh and draining the microtasks, in closed form. *)
Lemma drain_settle s outcome :
  guard_inv s ->
  drain (settle outcome s) =
    mkGuard false [] None []
      (trace s ++ match refreshing_req s with Some r => settle_actions outcome r | None => [] end
               ++ map job_action (microtasks s ++ map (settle_job outcome) (failedQueue s))).
Proof.
  intros (H1 & H2 & _ & _). destruct s as [b q o js t]; simpl in *. destruct o as [r|].
  - destruct outcome as [err|]; unfold settle;
      [rewrite (refreshFailed_some err _ r) | rewrite (refreshSucceeded_some _ r)]; try reflexivity;
      rewrite drain_jobs; rewrite <- app_assoc; reflexivity.
  - assert (b = false) as -> by (destruct b; [discriminate (proj2 H1 eq_refl) | reflexivity]).
    rewrite (H2 eq_refl). destruct outcome; cbn [settle refreshSucceeded refreshFailed refreshing_req];
      rewrite drain_jobs; simpl; rewrite !app_nil_r; reflexivity.
Qed.

Lemma answered_app_l r t1 t2 : answered r t1 -> answered r (t1 ++ t2).
Proof. intros [H | [why H]]; [left | right; exists why]; apply in_or_app; left; exact H. Qed.

Lemma answered_app_r r t1 t2 : answered r t2 -> answered r (t1 ++ t2).
Proof. intros [H | [why H]]; [left | right; exists why]; apply in_or_app; right; exact H. Qed.

Lemma answered_jobs r js : In r (map job_req js) -> answered r (map job_action js).
Proof.
  rewrite in_map_iff. intros ([q | q err] & <- & Hj); simpl.
  - left. apply in_map_iff. exists (ResumeQueued q). auto.
  - right. exists (RejRefresh err). apply in_map_iff. exists (FailQueued q err). auto.
Qed.

Lemma settle_actions_answer outcome r : answered r (settle_actions outcome r).
Proof. destruct outcome; [right; eexists | left]; simpl; auto. Qed.

Lemma settle_job_req outcome q : job_req (settle_job outcome q) = q.
Proof. destruct outcome; reflexivity. Qed.

(** The path of a timeout or a network failure. *)
Lemma onError_transport e s :
  is_timeout e = true \/ response e = None ->
  onError e s =
    append_trace [Reject (req_id (config e))
                   (RejClassified (if is_timeout e then timeout_error e else network_error e))] s.
Proof.
  intros H. rewrite onError_not_eligible.
  - unfold reject_actions. destruct (is_timeout e); [reflexivity|].
    destruct H as [H | ->]; [discriminate|reflexivity].
  - unfold eligible. destruct H as [-> | ->]; [reflexivity|].
    apply andb_false_r.
Qed.

(** ** Properties *)

(** C1. In every reachable state of the interceptor, [isRefreshing] is set
    exactly when an [onError] frame awaits the refresh, the queue is empty
    whenever no refresh is pending, the awaiting request is marked
    [_retry], and at most one refresh call is in flight: every call but
    the pending one has settled. *)
Theorem guard_invariant s : reachable s -> guard_inv s.
Proof.
  intros Hr. eapply star_invariant; [exact step_preserves | exact Hr |].
  unfold guard_inv; simpl. repeat split; auto; discriminate.
Qed.

(** A successful refresh after [1 + length es] fresh 401s. *)
Lemma refresh_succeeded_trace s e0 es :
  isRefreshing s = false -> failedQueue s = [] -> microtasks s = [] ->
  Forall (fun e => eligible e = true) (e0 :: es) ->
  drain (refreshSucceeded (run_errors es (onError e0 s))) =
    mkGuard false [] None []
      (trace s ++ [RefreshCall; RefreshSucceededLog; Reissue (mark_retry (config e0))]
               ++ map (fun e => Reissue (config e)) es).
Proof.
  intros Hr Hq Hm Hall. inversion Hall as [|? ? He0 Hes]; subst.
  rewrite (onError_eligible e0 s He0), Hr.
  rewrite run_errors_refreshing by (simpl; auto). simpl.
  rewrite (refreshSucceeded_some _ (mark_retry (config e0))) by reflexivity. simpl.
  rewrite Hq, Hm, drain_jobs. simpl.
  rewrite <- !app_assoc, !List.map_map. reflexivity.
Qed.

(** C2. When a fresh 401 meets an idle guard and further fresh 401s
    arrive while the refresh is in flight, a successful refresh makes
    exactly one refresh call, reissues the triggering request (marked
    retried), then reissues every queued request in arrival order, and
    leaves the guard idle with an empty queue. *)
Theorem concurrent_401_single_refresh s e0 es :
  isRefreshing s = false -> failedQueue s = [] -> microtasks s = [] ->
  Forall (fun e => eligible e = true) (e0 :: es) ->
  let s' := drain (refreshSucceeded (run_errors es (onError e0 s))) in
  s' = mkGuard false [] None []
         (trace s ++ [RefreshCall; RefreshSucceededLog; Reissue (mark_retry (config e0))]
                  ++ map (fun e => Reissue (config e)) es) /\
  countb is_refresh_call (trace s') = S (countb is_refresh_call (trace s)).
Proof.
  intros Hr Hq Hm Hall s'.
  assert (Hs' := refresh_succeeded_trace s e0 es Hr Hq Hm Hall).
  split; [exact Hs'|]. subst s'. rewrite Hs'. cbn [trace]. rewrite !countb_app.
  rewrite countb_map_false by reflexivity. count_simpl. lia.
Qed.

(** A failed refresh after [1 + length es] fresh 401s. *)
Lemma refresh_failed_trace s e0 es err :
  isRefreshing s = false -> failedQueue s = [] -> microtasks s = [] ->
  Forall (fun e => eligible e = true) (e0 :: es) ->
  drain (refreshFailed err (run_errors es (onError e0 s))) =
    mkGuard false [] None []
      (trace s ++ [RefreshCall; RefreshFailedLog err; Dispatch SessionExpired;
                   Reject (req_id (config e0)) (RejRefresh err)]
               ++ map (fun e => Reject (req_id (config e)) (RejRefresh err)) es).
Proof.
  intros Hr Hq Hm Hall. inversion Hall as [|? ? He0 Hes]; subst.
  rewrite (onError_eligible e0 s He0), Hr.
  rewrite run_errors_refreshing by (simpl; auto). simpl.
  rewrite (refreshFailed_some _ _ (mark_retry (config e0))) by reflexivity. simpl.
  rewrite Hq, Hm, drain_jobs. simpl.
  rewrite <- !app_assoc, !List.map_map. reflexivity.
Qed.

(** C3. When the refresh fails, the triggering caller and every queued
    caller are rejected with the same refresh error, queued callers in
    arrival order, and exactly one [sessionExpired] event is dispatched,
    whatever the number of queued callers. *)
Theorem refresh_failure_rejects_all s e0 es err :
  isRefreshing s = false -> failedQueue s = [] -> microtasks s = [] ->
  Forall (fun e => eligible e = true) (e0 :: es) ->
  let s' := drain (refreshFailed err (run_errors es (onError e0 s))) in
  s' = mkGuard false [] None []
         (trace s ++ [RefreshCall; RefreshFailedLog err; Dispatch SessionExpired;
                      Reject (req_id (config e0)) (RejRefresh err)]
                  ++ map (fun e => Reject (req_id (config e)) (RejRefresh err)) es) /\
  countb is_session_expired (trace s') = S (countb is_session_expired (trace s)).
Proof.
  intros Hr Hq Hm Hall s'.
  assert (Hs' := refresh_failed_trace s e0 es err Hr Hq Hm Hall).
  split; [exact Hs'|]. subst s'. rewrite Hs'. cbn [trace]. rewrite !countb_app.
  rewrite countb_map_false by reflexivity. count_simpl. lia.
Qed.

(** C4. A request already marked [_retry] that fails again is propagated
    unchanged: the caller is rejected with the Axios error itself (after
    an [unauthorized] event when the status is 403), no refresh is
    started and the refresh state and queue are untouched. *)
Theorem retried_request_propagated e s :
  retry (config e) = true ->
  onError e s = append_trace (reject_actions e) s.
Proof.
  intros H. apply onError_not_eligible, retried_not_eligible, H.
Qed.

(** C5. Timeouts and network failures are classified and reported to the
    caller, never retried: the caller is rejected with the timeout object
    (code [ECONNABORTED]) or the network object (code [NETWORK_ERROR]) and
    nothing else changes. *)
Theorem transport_errors_not_retried e s :
  is_timeout e = true \/ response e = None ->
  onError e s =
    append_trace [Reject (req_id (config e))
                   (RejClassified (if is_timeout e then timeout_error e else network_error e))] s.
Proof. apply onError_transport. Qed.

(** A 403 response raises the [unauthorized] event and then rejects
    the caller with the error, whether or not the request was retried or
    targets the refresh endpoint. *)
Theorem forbidden_dispatches_unauthorized e s :
  is_timeout e = false -> response e = Some 403 ->
  onError e s =
    append_trace [Dispatch Unauthorized; Reject (req_id (config e)) (RejAxios e)] s.
Proof.
  intros Ht Hr. rewrite onError_not_eligible.
  - unfold reject_actions. rewrite Ht, Hr. reflexivity.
  - unfold eligible. rewrite Ht, Hr. reflexivity.
Qed.

(** ** Refinement of the coordinator the specification describes

    The specification's Session Coordinator is a state machine
    [{Idle, Refreshing(queue)}]: a fresh 401 moves [Idle] to
    [Refreshing] with an empty queue, further 401s join the queue, and
    the settlement of the refresh returns to [Idle]. *)
Inductive Coord := Idle | Refreshing (owner : Req) (waiting : list Req).

Inductive coord_step : Coord -> Coord -> Prop :=
| coord_start r : retry r = true -> coord_step Idle (Refreshing r [])
| coord_join o w r : coord_step (Refreshing o w) (Refreshing o (w ⊲ r))
| coord_settle o w : coord_step (Refreshing o w) Idle.

Definition abs_guard (s : GuardState) : Coord :=
  match refreshing_req s with
  | Some r => Refreshing r (failedQueue s)
  | None => Idle
  end.

Lemma abs_append acts s : abs_guard (append_trace acts s) = abs_guard s.
Proof. reflexivity. Qed.

(** C6. Every step of the interceptor from a state satisfying the
    invariant is either invisible to the coordinator (it stutters) or is
    one of the coordinator's transitions. *)
Theorem guard_refines_coordinator s s' :
  guard_inv s -> step s s' ->
  abs_guard s' = abs_guard s \/ coord_step (abs_guard s) (abs_guard s').
Proof.
  intros (H1 & H2 & H3 & H4) Hstep. destruct Hstep as [e s | ? ? [s Hr | err s Hr | s Hm]].
  - destruct (eligible e) eqn:E.
    + rewrite onError_eligible by assumption. unfold abs_guard. simpl.
      destruct (isRefreshing s) eqn:R.
      * right. destruct (refreshing_req s) as [o|];
          [constructor | discriminate (proj2 H1 eq_refl)].
      * right. rewrite (proj1 H1 eq_refl), (H2 eq_refl). constructor. reflexivity.
    + rewrite onError_not_eligible by assumption. left. reflexivity.
  - destruct (refreshing_req s) as [r|] eqn:Er;
      [|rewrite (proj2 H1 eq_refl) in Hr; discriminate].
    right. rewrite (refreshSucceeded_some s r Er). unfold abs_guard. rewrite Er. constructor.
  - destruct (refreshing_req s) as [r|] eqn:Er;
      [|rewrite (proj2 H1 eq_refl) in Hr; discriminate].
    right. rewrite (refreshFailed_some err s r Er). unfold abs_guard. rewrite Er. constructor.
  - left. unfold runMicrotask. destruct (microtasks s); reflexivity.
Qed.

(** ** What modelling showed: queued requests are not marked retried *)

(** C7. Only the request that starts a refresh is marked [_retry]. A
    request that waited in the queue is reissued with its own, unmarked,
    configuration, so when that reissued request fails with 401 again the
    interceptor starts a second refresh on its behalf, while the same
    failure of the triggering request is propagated. *)
Theorem queued_replay_refreshes_again s e0 e1 :
  isRefreshing s = false -> failedQueue s = [] -> microtasks s = [] ->
  eligible e0 = true -> eligible e1 = true ->
  let s1 := drain (refreshSucceeded (onError e1 (onError e0 s))) in
  In (Reissue (config e1)) (trace s1) /\
  onError e1 s1 = mkGuard true [] (Some (mark_retry (config e1))) [] (trace s1 ⊲ RefreshCall) /\
  onError (mkAxiosError (code e0) (response e0) (mark_retry (config e0))) s1
    = append_trace (reject_actions (mkAxiosError (code e0) (response e0) (mark_retry (config e0)))) s1.
Proof.
  intros Hr Hq Hm H0 H1 s1.
  assert (Hs1 : s1 = mkGuard false [] None []
     (trace s ++ [RefreshCall; RefreshSucceededLog; Reissue (mark_retry (config e0))]
              ++ map (fun e => Reissue (config e)) [e1])).
  { apply (refresh_succeeded_trace s e0 [e1]); auto. }
  split; [|split].
  - rewrite Hs1. simpl. rewrite !in_app_iff. right. simpl. auto.
  - rewrite onError_eligible by assumption. rewrite Hs1. reflexivity.
  - apply onError_not_eligible, retried_not_eligible. reflexivity.
Qed.

(** ** Liveness: every waiting caller is answered *)

(** C8. Once the pending refresh settles, whichever way it settles, every
    caller that waits is answered: from any state satisfying the
    invariant, the event loop's turns lead to a settled interceptor (idle,
    queue empty, no microtask left) in which the request awaiting the
    refresh, every queued request and every scheduled continuation has
    been reissued or rejected. Every turn decreases [pending], so the
    turns cannot go on forever, in whatever order they come. *)
Theorem waiting_callers_answered s outcome :
  guard_inv s ->
  (forall s2, turn s s2 -> (pending s2 < pending s)%nat) /\
  star turn s (drain (settle outcome s)) /\
  settled (drain (settle outcome s)) = true /\
  (forall r, refreshing_req s = Some r \/ In r (failedQueue s) \/ In r (map job_req (microtasks s)) ->
             answered r (trace (drain (settle outcome s)))).
Proof.
  intros Hinv. split; [intros s2; apply turn_decreases, Hinv|]. split.
  - eapply star_trans; [apply settle_turns, Hinv | apply run_microtasks_turns; reflexivity].
  - rewrite drain_settle by exact Hinv. split; [reflexivity|]. cbn [trace].
    intros r [Hr | [Hq | Hm]]; apply answered_app_r.
    + rewrite Hr. apply answered_app_l, settle_actions_answer.
    + apply answered_app_r, answered_jobs. rewrite map_app, in_app_iff. right.
      apply in_map_iff. exists (settle_job outcome r). split; [apply settle_job_req | apply in_map, Hq].
    + apply answered_app_r, answered_jobs. rewrite map_app, in_app_iff. left. exact Hm.
Qed.

(** ** Concrete runs *)

Definition req_bills : Req := mkReq 1 (Some "/bills") false.
Definition req_meters : Req := mkReq 2 (Some "/meters") false.
Definition req_users : Req := mkReq 3 (Some "/users?page=2") false.
Definition unauthorized_error (r : Req) : AxiosError := mkAxiosError None (Some 401) r.

Lemma guard_invariant_witness :
  guard_inv (onError (unauthorized_error req_meters)
               (onError (unauthorized_error req_bills) initial_guard)).
Proof.
  apply guard_invariant. eapply star_step; [apply step_error|].
  eapply star_step; [apply step_error|]. apply star_refl.
Defined.

Lemma concurrent_401_single_refresh_witness :
  let s' := drain (refreshSucceeded
              (run_errors [unauthorized_error req_meters; unauthorized_error req_users]
                 (onError (unauthorized_error req_bills) initial_guard))) in
  s' = mkGuard false [] None []
         (trace initial_guard ++ [RefreshCall; RefreshSucceededLog;
                                  Reissue (mark_retry (config (unauthorized_error req_bills)))]
                  ++ map (fun e => Reissue (config e))
                       [unauthorized_error req_meters; unauthorized_error req_users]) /\
  countb is_refresh_call (trace s') = S (countb is_refresh_call (trace initial_guard)).
Proof.
  apply (concurrent_401_single_refresh initial_guard (unauthorized_error req_bills)
           [unauthorized_error req_meters; unauthorized_error req_users]);
    [reflexivity | reflexivity | reflexivity | repeat constructor].
Defined.

Lemma refresh_failure_rejects_all_witness :
  countb is_session_expired
    (trace (drain (refreshFailed 7%nat
       (run_errors [unauthorized_error req_meters; unauthorized_error req_users]
          (onError (unauthorized_error req_bills) initial_guard))))) = 1%nat.
Proof.
  apply (refresh_failure_rejects_all initial_guard (unauthorized_error req_bills)
           [unauthorized_error req_meters; unauthorized_error req_users] 7%nat);
    [reflexivity | reflexivity | reflexivity | repeat constructor].
Defined.

Lemma retried_request_propagated_witness :
  onError (unauthorized_error (mark_retry req_bills)) initial_guard
  = append_trace (reject_actions (unauthorized_error (mark_retry req_bills))) initial_guard.
Proof. apply (retried_request_propagated _ initial_guard). reflexivity. Defined.

Lemma transport_errors_not_retried_witness :
  onError (mkAxiosError (Some "ECONNABORTED") None req_bills) initial_guard
  = append_trace [Reject 1 (RejClassified
                   (timeout_error (mkAxiosError (Some "ECONNABORTED") None req_bills)))] initial_guard.
Proof.
  apply (transport_errors_not_retried (mkAxiosError (Some "ECONNABORTED") None req_bills)).
  left. reflexivity.
Defined.

Lemma forbidden_dispatches_unauthorized_witness :
  onError (mkAxiosError None (Some 403) req_users) initial_guard
  = append_trace [Dispatch Unauthorized;
                  Reject 3 (RejAxios (mkAxiosError None (Some 403) req_users))] initial_guard.
Proof.
  apply (forbidden_dispatches_unauthorized (mkAxiosError None (Some 403) req_users));
    reflexivity.
Defined.

Lemma guard_refines_coordinator_witness :
  coord_step (abs_guard initial_guard)
             (abs_guard (onError (unauthorized_error req_bills) initial_guard)).
Proof.
  destruct (guard_refines_coordinator initial_guard
              (onError (unauthorized_error req_bills) initial_guard)) as [H | H].
  - repeat split; simpl; auto; discriminate.
  - apply step_error.
  - discriminate H.
  - exact H.
Defined.

Lemma queued_replay_refreshes_again_witness :
  In (Reissue req_meters)
     (trace (drain (refreshSucceeded (onError (unauthorized_error req_meters)
                      (onError (unauthorized_error req_bills) initial_guard))))).
Proof.
  apply (queued_replay_refreshes_again initial_guard (unauthorized_error req_bills)
           (unauthorized_error req_meters)); reflexivity.
Defined.

(** Two callers wait on a refresh that then fails. *)
Lemma waiting_callers_answered_witness :
  settled (drain (settle (Some 7%nat)
     (onError (unauthorized_error req_meters) (onError (unauthorized_error req_bills) initial_guard))))
  = true.
Proof.
  destruct (waiting_callers_answered
              (onError (unauthorized_error req_meters) (onError (unauthorized_error req_bills) initial_guard))
              (Some 7%nat)) as (_ & _ & H & _).
  - unfold guard_inv. cbn. repeat split; try discriminate; try (intros ? [= <-]); reflexivity.
  - exact H.
Defined.

End SessionGuard.
