(* ===== verification/Js.v ===== *)
(** * JavaScript values and the operators the client code applies to them

    The task poller normalises a response of unknown shape with [&&], [??]
    and optional chaining ([src/frontend/src/context/TaskContext.tsx],
    lines 56-64); this file gives those operators their JavaScript
    meaning on a model of JSON-like values. Numbers are integers: the
    values the code inspects are strings, objects and the integer
    timestamps it writes itself.

    It also gives the texts kept in [localStorage] their meaning. The code
    reads a stored text only through [JSON.parse] and through its
    truthiness, so a text is represented by what [JSON.parse] makes of it
    ([Parsed]) or, when [JSON.parse] throws, by the text itself
    ([Unparsable]). [JSON_stringify] is what [localStorage.setItem(k,
    JSON.stringify(v))] stores. *)

From stdpp Require Import base list strings pretty.
From Stdlib Require Import ZArith Ascii.
From S2P Require Import Spec2Rocq.

Set Warnings "-register-all".

Module Js.

Inductive jsval :=
| JUndefined
| JNull
| JBool (b : bool)
| JNum (n : Z)
| JStr (s : string)
| JObj (fields : list (string * jsval))
| JArr (elems : list jsval).

(** ToBoolean. *)
Definition truthy (v : jsval) : bool :=
  match v with
  | JUndefined | JNull => false
  | JBool b => b
  | JNum n => negb (Z.eqb n 0)
  | JStr s => negb (String.eqb s "")
  | JObj _ | JArr _ => true
  end.

Definition nullish (v : jsval) : bool :=
  match v with JUndefined | JNull => true | _ => false end.

(** [a && b] evaluates to [a] when [a] is falsy, to [b] otherwise. *)
Definition js_and (a b : jsval) : jsval := if truthy a then b else a.

(** [a ?? b] evaluates to [b] only when [a] is [null] or [undefined]. *)
Definition js_coalesce (a b : jsval) : jsval := if nullish a then b else a.

(** The value of a decimal digit. *)
Definition digit_value (c : Ascii.ascii) : option nat :=
  let n := Ascii.nat_of_ascii c in
  if (48 <=? n)%nat && (n <=? 57)%nat then Some (n - 48)%nat else None.

Fixpoint digits_value (s : string) (acc : nat) : option nat :=
  match s with
  | EmptyString => Some acc
  | String c rest =>
      match digit_value c with
      | Some d => digits_value rest (acc * 10 + d)%nat
      | None => None
      end
  end.

(** An array index key: ["0"] or digits without a leading zero. *)
Definition array_index (k : string) : option nat :=
  match k with
  | EmptyString => None
  | String c rest =>
      if Ascii.eqb c "0"%char then (if String.eqb rest "" then Some 0%nat else None)
      else digits_value k 0
  end.

(** [a || b] evaluates to [a] when [a] is truthy, to [b] otherwise. *)
Definition js_or (a b : jsval) : jsval := if truthy a then a else b.

(** ToString, as a template literal applies it: an object is
    ["[object Object]"], an array the join of its elements with [","],
    [null] and [undefined] elements giving [""]. *)
Fixpoint ToString (v : jsval) : string :=
  match v with
  | JUndefined => "undefined"
  | JNull => "null"
  | JBool b => if b then "true" else "false"
  | JNum n => pretty n
  | JStr s => s
  | JObj _ => "[object Object]"
  | JArr es =>
      (fix join (es : list jsval) : string :=
         match es with
         | [] => ""
         | [x] => match x with JUndefined | JNull => "" | _ => ToString x end
         | x :: rest => match x with JUndefined | JNull => "" | _ => ToString x end +:+ "," +:+ join rest
         end) es
  end.

(** Property read [v.k]: an own property of an object, an element or the
    [length] of an array; a missing property, or a property of a
    primitive, is [undefined] (the string methods and [length] of a
    string are not modelled: the code reads none). Reading a property of
    [null] or [undefined] throws; the callers guard it. *)
Definition get (v : jsval) (k : string) : jsval :=
  match v with
  | JObj fs =>
      match List.find (fun kv => String.eqb (fst kv) k) fs with
      | Some (_, x) => x
      | None => JUndefined
      end
  | JArr es =>
      if String.eqb k "length" then JNum (Z.of_nat (length es))
      else match array_index k with
           | Some i => default JUndefined (nth_error es i)
           | None => JUndefined
           end
  | _ => JUndefined
  end.

(** Optional chaining [v?.k]. *)
Definition opt_get (v : jsval) (k : string) : jsval :=
  if nullish v then JUndefined else get v k.

(** Strict equality with a string literal, [v === "lit"]. *)
Definition str_is (v : jsval) (lit : string) : bool :=
  match v with JStr s => String.eqb s lit | _ => false end.

(** ** TypeScript types *)

(** The types the sources declare for the values they store and
    return: primitives, unions and object types with their properties. *)
Inductive TsType :=
| TString | TNumber | TBoolean | TNull | TUndefined
| TUnion (a b : TsType)
| TObject (props : list (string * TsType)).

(** A value has a type: an object type asks each listed property to
    have its type. *)
Inductive has_type : jsval -> TsType -> Prop :=
| ht_string s : has_type (JStr s) TString
| ht_number n : has_type (JNum n) TNumber
| ht_boolean b : has_type (JBool b) TBoolean
| ht_null : has_type JNull TNull
| ht_undefined : has_type JUndefined TUndefined
| ht_union_l v a b : has_type v a -> has_type v (TUnion a b)
| ht_union_r v a b : has_type v b -> has_type v (TUnion a b)
| ht_object fs props :
    Forall (fun kt => has_type (get (JObj fs) (fst kt)) (snd kt)) props -> has_type (JObj fs) (TObject props).

Fixpoint has_type_b (v : jsval) (t : TsType) : bool :=
  match t with
  | TString => match v with JStr _ => true | _ => false end
  | TNumber => match v with JNum _ => true | _ => false end
  | TBoolean => match v with JBool _ => true | _ => false end
  | TNull => match v with JNull => true | _ => false end
  | TUndefined => match v with JUndefined => true | _ => false end
  | TUnion a b => has_type_b v a || has_type_b v b
  | TObject props =>
      match v with
      | JObj _ =>
          (fix all (props : list (string * TsType)) : bool :=
             match props with
             | [] => true
             | (k, t') :: rest => has_type_b (get v k) t' && all rest
             end) props
      | _ => false
      end
  end.

(** Induction on types, with the property types of an object type. *)
Section TsType_induction.
Variable P : TsType -> Prop.
Hypothesis P_prim : forall t, match t with TUnion _ _ | TObject _ => False | _ => True end -> P t.
Hypothesis P_union : forall a b, P a -> P b -> P (TUnion a b).
Hypothesis P_object : forall props, Forall (fun kt => P (snd kt)) props -> P (TObject props).

Fixpoint TsType_ind' (t : TsType) : P t :=
  match t with
  | TUnion a b => P_union a b (TsType_ind' a) (TsType_ind' b)
  | TObject props =>
      P_object props
        ((fix all (props : list (string * TsType)) : Forall (fun kt => P (snd kt)) props :=
            match props with
            | [] => @List.Forall_nil _ _
            | kt :: rest => @List.Forall_cons _ _ kt rest (TsType_ind' (snd kt)) (all rest)
            end) props)
  | t => P_prim t I
  end.
End TsType_induction.

Lemma has_type_b_spec v t : has_type_b v t = true <-> has_type v t.
Proof.
  revert v. induction t as [t Ht | a b IHa IHb | props IH] using TsType_ind'; intros v.
  - destruct t; try contradiction; destruct v; simpl; split; intros H;
      try discriminate; try (inversion H; fail); constructor.
  - simpl. rewrite orb_true_iff, IHa, IHb. split.
    + intros [H | H]; [apply ht_union_l | apply ht_union_r]; exact H.
    + intros H. inversion H; subst; auto.
  - split.
    + intros H. destruct v; try discriminate. constructor.
      induction IH as [|[k t'] rest Hkt _ IHrest]; [constructor|].
      simpl in H. apply andb_true_iff in H as [H1 H2].
      constructor; [apply Hkt, H1 | apply IHrest, H2].
    + intros H. inversion H as [| | | | | | | fs props' Hall]; subst. clear H. simpl.
      induction IH as [|[k t'] rest Hkt _ IHrest]; [reflexivity|].
      inversion Hall as [|? ? Hh Hr]; subst. simpl in *. apply andb_true_iff. split; [apply Hkt, Hh | apply IHrest, Hr].
Qed.

(** ** Conversion to number *)

(** A decimal digit string, not empty. *)
Definition decimal_digits (s : string) : option nat :=
  match s with EmptyString => None | _ => digits_value s 0 end.

(** [Number(s)] of a string, [None] for [NaN]: white space is trimmed,
    an empty text is [0], a signed decimal integer is its value. Literals
    with a fraction, an exponent, a radix prefix or [Infinity] denote
    numbers outside the integers of this model and are not accepted. *)
Definition StringToNumber (s : string) : option Z :=
  match str_trim s with
  | EmptyString => Some 0%Z
  | String c rest =>
      if Ascii.eqb c "+"%char then option_map Z.of_nat (decimal_digits rest)
      else if Ascii.eqb c "-"%char then option_map (fun n => (- Z.of_nat n)%Z) (decimal_digits rest)
      else option_map Z.of_nat (decimal_digits (String c rest))
  end.

(** ToNumber, [None] for [NaN]. An object converts through
    ["[object Object]"], an array through the join of its elements. *)
Fixpoint ToNumber (v : jsval) : option Z :=
  match v with
  | JUndefined => None
  | JNull => Some 0%Z
  | JBool b => Some (if b then 1%Z else 0%Z)
  | JNum n => Some n
  | JStr s => StringToNumber s
  | JObj _ => None
  | JArr [] => Some 0%Z
  | JArr [x] =>
      match x with
      | JUndefined | JNull => Some 0%Z
      | JBool _ | JObj _ => None
      | _ => ToNumber x
      end
  | JArr _ => None
  end.

(** [n > v] for a number [n]: false when [v] converts to [NaN]. *)
Definition num_gt (n : Z) (v : jsval) : bool :=
  match ToNumber v with Some m => (m <? n)%Z | None => false end.

(** ** JSON texts *)

(** [JSON.parse(JSON.stringify(v))] for a value other than [undefined]:
    object properties whose value is [undefined] are left out, array
    elements that are [undefined] become [null]. *)
Fixpoint json_value (v : jsval) : jsval :=
  match v with
  | JObj fs =>
      JObj ((fix fields (fs : list (string * jsval)) : list (string * jsval) :=
               match fs with
               | [] => []
               | (k, JUndefined) :: rest => fields rest
               | (k, x) :: rest => (k, json_value x) :: fields rest
               end) fs)
  | JArr es => JArr (map (fun x => match x with JUndefined => JNull | _ => json_value x end) es)
  | _ => v
  end.

(** A text held by [localStorage]: what [JSON.parse] returns for it, or
    the text itself when [JSON.parse] throws ([""] and ["undefined"]
    among them). *)
Inductive StoredText :=
| Parsed (v : jsval)
| Unparsable (s : string).

(** [JSON.stringify(v)] as [localStorage.setItem] stores it:
    [JSON.stringify(undefined)] is [undefined], which [setItem] turns
    into the text ["undefined"]. *)
Definition JSON_stringify (v : jsval) : StoredText :=
  match v with
  | JUndefined => Unparsable "undefined"
  | _ => Parsed (json_value v)
  end.

(** A stored text is truthy unless it is empty; every JSON text is
    non-empty. *)
Definition text_truthy (t : StoredText) : bool :=
  match t with
  | Parsed _ => true
  | Unparsable s => negb (String.eqb s "")
  end.

Lemma js_and_truthy a b : truthy a = true -> js_and a b = b.
Proof. unfold js_and. intros ->. reflexivity. Qed.

Lemma js_and_falsy a b : truthy a = false -> js_and a b = a.
Proof. unfold js_and. intros ->. reflexivity. Qed.

Lemma js_coalesce_nullish a b : nullish a = true -> js_coalesce a b = b.
Proof. unfold js_coalesce. intros ->. reflexivity. Qed.

Lemma js_coalesce_present a b : nullish a = false -> js_coalesce a b = a.
Proof. unfold js_coalesce. intros ->. reflexivity. Qed.

Lemma str_is_eq v lit : str_is v lit = true -> v = JStr lit.
Proof. destruct v; simpl; try discriminate. intros H%String.eqb_eq. subst. reflexivity. Qed.

Lemma get_cons_eq k x fs : get (JObj ((k, x) :: fs)) k = x.
Proof. simpl. rewrite String.eqb_refl. reflexivity. Qed.

Lemma get_cons_ne k k' x fs : k <> k' -> get (JObj ((k', x) :: fs)) k = get (JObj fs) k.
Proof.
  intros Hne. simpl. destruct (String.eqb_spec k' k); [congruence|reflexivity].
Qed.

End Js.

#[export] Hint Rewrite Js.get_cons_eq : billing_rw.
