(* ===== verification/TaskStorage.v ===== *)
(** * Persistence of the task id: [src/frontend/src/utils/taskStorage.ts]

    [localStorage] is a map from keys to stored texts ([Js.StoredText]),
    shared by every part of the client (the task id here, the signed-in
    user in the authentication context). [saveTaskId], [getTaskId] and
    [clearTaskId] are functions on that map, with [Date.now()] passed in
    as [now]. [getTaskId] returns whatever [storedTask.id] holds, [null]
    being [JNull].

    The class [TaskStore] is the interface the task poller relies on: save,
    read-with-expiry, clear, and the laws that relate them. The
    [localStorage] implementation is an instance of it, and its laws are
    the round-trip and expiry theorems of this file. The interface carries
    ids as strings: the instance passes on the id [getTaskId] returns when
    it is a string, which is what [saveTaskId] writes; a record edited
    outside the client to hold an id of another type is modelled by
    [getTaskId] but not by the poller.

    The declared types of the file ([interface StoredTask], the result
    [string | null] of [getTaskId]) are [Js.TsType]s; [client_step] is
    everything the client does to [localStorage], and the type theorem
    shows that the declared result type holds on every storage it
    reaches from one whose task key is typed. *)

From stdpp Require Import base list strings gmap.
From Stdlib Require Import ZArith Lia.
From S2P Require Import Spec2Rocq Js.

Import Js.

Open Scope Z_scope.

(** ** The interface the poller is proved against *)

Class TaskStore (St : Type) := {
  store_save : Z -> string -> St -> St;
  store_get : Z -> St -> option string * St;
  store_clear : St -> St;
  store_ttl : Z
}.

Class TaskStoreLaws (St : Type) `{TaskStore St} := {
  (** A saved id reads back until its expiry instant, inclusive *)
  store_get_save now t id st :
    now <= t <= now + store_ttl ->
    store_get t (store_save now id st) = (Some id, store_save now id st);
  (** After expiry the read finds nothing and evicts the record *)
  store_get_save_expired now t id st :
    now + store_ttl < t ->
    store_get t (store_save now id st) = (None, store_clear (store_save now id st));
  (** A cleared store holds no task *)
  store_get_clear t st : store_get t (store_clear st) = (None, store_clear st);
  (** Clearing forgets what was saved *)
  store_clear_save now id st : store_clear (store_save now id st) = store_clear st
}.

Module TaskStorage.

(** ** Data *)

Definition TASK_ID_KEY : string := "billsDownloadTaskId".

(** [2.5 * 60 * 60 * 1000] milliseconds: two and a half hours. *)
Definition TASK_EXPIRY_MS : Z := 9000000.

(** [const storedTask: StoredTask = { id: taskId, expiry }]. *)
Definition StoredTask (taskId : string) (expiry : Z) : jsval :=
  JObj [("id", JStr taskId); ("expiry", JNum expiry)].

Abbreviation Storage := (gmap string StoredText).

(** ** Operations *)

Definition saveTaskId (now : Z) (taskId : string) (ls : Storage) : Storage :=
  <[TASK_ID_KEY := JSON_stringify (StoredTask taskId (now + TASK_EXPIRY_MS))]> ls.

Definition clearTaskId (ls : Storage) : Storage := delete TASK_ID_KEY ls.

(** Returns [storedTask.id] (or [null]) together with the storage after
    the call. The [catch] block clears the record when [JSON.parse]
    throws, and when reading [expiry] of a parsed [null] throws. *)
Definition getTaskId (now : Z) (ls : Storage) : jsval * Storage :=
  match ls !! TASK_ID_KEY with
  | None => (JNull, ls)
  | Some text =>
      if negb (text_truthy text) then (JNull, ls)
      else match text with
           | Unparsable _ => (JNull, clearTaskId ls)
           | Parsed storedTask =>
               if nullish storedTask then (JNull, clearTaskId ls)
               else if num_gt now (get storedTask "expiry") then (JNull, clearTaskId ls)
               else (get storedTask "id", ls)
           end
  end.

(** The id handed to the poller. *)
Definition id_text (v : jsval) : option string := match v with JStr s => Some s | _ => None end.

#[export] Instance local_task_store : TaskStore Storage := {
  store_save := saveTaskId;
  store_get now ls := let '(v, ls') := getTaskId now ls in (id_text v, ls');
  store_clear := clearTaskId;
  store_ttl := TASK_EXPIRY_MS
}.

(** ** The declared types *)

(** [interface StoredTask { id: string; expiry: number }]. *)
Definition StoredTask_t : TsType := TObject [("id", TString); ("expiry", TNumber)].

(** The declared result of [getTaskId]: [string | null]. *)
Definition getTaskId_t : TsType := TUnion TString TNull.

(** [JSON.parse(storedTaskString)] is annotated [StoredTask]; a text the
    parse accepts is of that type when the key holds no other value. *)
Definition typed_storage (ls : Storage) : bool :=
  match ls !! TASK_ID_KEY with
  | Some (Parsed v) => has_type_b v StoredTask_t
  | _ => true
  end.

(** What the client does to [localStorage]: the three task functions,
    and writes of other keys (the user key of the authentication
    context). *)
Inductive client_step : Storage -> Storage -> Prop :=
| cs_save now taskId ls : client_step ls (saveTaskId now taskId ls)
| cs_clear ls : client_step ls (clearTaskId ls)
| cs_get now ls : client_step ls (snd (getTaskId now ls))
| cs_set_other k text ls : k <> TASK_ID_KEY -> client_step ls (<[k := text]> ls)
| cs_remove_other k ls : k <> TASK_ID_KEY -> client_step ls (delete k ls).

(** A typed record's [id] is a string. *)
Lemma StoredTask_t_id v : has_type_b v StoredTask_t = true -> exists s, get v "id" = JStr s.
Proof.
  destruct v as [| | | | | fs |]; try discriminate. intros H.
  cbn [has_type_b StoredTask_t] in H. destruct (get (JObj fs) "id"); try discriminate. eexists. reflexivity.
Qed.

Lemma typed_storage_cleared ls : typed_storage (clearTaskId ls) = true.
Proof. unfold typed_storage, clearTaskId. rewrite lookup_delete_eq. reflexivity. Qed.

(** Every step of the client keeps the task key typed. *)
Lemma client_step_typed ls ls' : client_step ls ls' -> typed_storage ls = true -> typed_storage ls' = true.
Proof.
  intros [now taskId ls0 | ls0 | now ls0 | k text ls0 Hk | k ls0 Hk] Ht.
  - unfold typed_storage, saveTaskId. rewrite lookup_insert_eq. reflexivity.
  - apply typed_storage_cleared.
  - unfold getTaskId. destruct (ls0 !! TASK_ID_KEY) as [[v|txt]|]; simpl; repeat case_if;
      simpl; first [exact Ht | apply typed_storage_cleared].
  - unfold typed_storage in *. rewrite lookup_insert_ne by congruence. exact Ht.
  - unfold typed_storage in *. rewrite lookup_delete_ne by congruence. exact Ht.
Qed.

(** On a typed storage [getTaskId] returns a string or [null]. *)
Lemma getTaskId_typed now ls : typed_storage ls = true -> has_type (fst (getTaskId now ls)) getTaskId_t.
Proof.
  unfold typed_storage, getTaskId. intros Ht.
  destruct (ls !! TASK_ID_KEY) as [[v|txt]|]; simpl; repeat case_if; simpl;
    try (apply ht_union_r; constructor).
  destruct (StoredTask_t_id v Ht) as [s ->]. apply ht_union_l. constructor.
Qed.

(** ** Lemmas *)

Lemma clearTaskId_saveTaskId now taskId ls :
  clearTaskId (saveTaskId now taskId ls) = clearTaskId ls.
Proof. unfold clearTaskId, saveTaskId. apply delete_insert_eq. Qed.

Lemma getTaskId_cleared now ls :
  ls !! TASK_ID_KEY = None -> getTaskId now ls = (JNull, ls).
Proof. unfold getTaskId. intros ->. reflexivity. Qed.

Lemma getTaskId_saved now t taskId ls :
  getTaskId t (saveTaskId now taskId ls) =
  if (now + TASK_EXPIRY_MS <? t) then (JNull, clearTaskId (saveTaskId now taskId ls))
  else (JStr taskId, saveTaskId now taskId ls).
Proof. unfold getTaskId, saveTaskId at 1. rewrite lookup_insert_eq. reflexivity. Qed.

(** ** Properties *)

(** C9. Round trip: an id saved at [now] reads back unchanged, and the
    storage is left as it is, at every instant up to and including
    [now + TASK_EXPIRY_MS] (the comparison in [getTaskId] is strict). *)
Theorem getTaskId_saveTaskId now t taskId ls :
  t <= now + TASK_EXPIRY_MS ->
  getTaskId t (saveTaskId now taskId ls) = (JStr taskId, saveTaskId now taskId ls).
Proof.
  intros Ht. rewrite getTaskId_saved. destruct (Z.ltb_spec (now + TASK_EXPIRY_MS) t); [lia | reflexivity].
Qed.

(** C10. A stored record whose expiry lies in the past reads as no task
    and is evicted from storage, and so is a text [JSON.parse] rejects or
    a record that parses to [null]; the other keys are untouched. *)
Theorem getTaskId_expired now ls v e :
  ls !! TASK_ID_KEY = Some (Parsed v) -> ToNumber (get v "expiry") = Some e -> e < now ->
  getTaskId now ls = (JNull, delete TASK_ID_KEY ls) /\
  (forall s, s <> "" -> getTaskId now (<[TASK_ID_KEY := Unparsable s]> ls) = (JNull, delete TASK_ID_KEY ls)) /\
  getTaskId now (<[TASK_ID_KEY := Parsed JNull]> ls) = (JNull, delete TASK_ID_KEY ls).
Proof.
  intros Hl He Hlt. unfold getTaskId, clearTaskId. rewrite Hl, !lookup_insert_eq, !delete_insert_eq.
  cbn [text_truthy negb nullish]. split; [|split; [|reflexivity]].
  - assert (Hn : nullish v = false) by (destruct v; simpl in He; try discriminate; reflexivity).
    rewrite Hn. unfold num_gt. rewrite He. destruct (Z.ltb_spec e now); [reflexivity | lia].
  - intros s Hs. rewrite lookup_insert_eq, delete_insert_eq. cbn [text_truthy].
    destruct (String.eqb_spec s ""); [contradiction | reflexivity].
Qed.

(** C11. The task functions touch only their own key of the shared
    [localStorage]: every other entry (the signed-in user among them) is
    the same after [saveTaskId], [clearTaskId] or [getTaskId]. *)
Theorem task_storage_frame k now taskId ls :
  k <> TASK_ID_KEY ->
  saveTaskId now taskId ls !! k = ls !! k /\
  clearTaskId ls !! k = ls !! k /\
  snd (getTaskId now ls) !! k = ls !! k.
Proof.
  intros Hk. unfold saveTaskId, clearTaskId.
  rewrite lookup_insert_ne, lookup_delete_ne by congruence.
  repeat split. unfold getTaskId, clearTaskId.
  destruct (ls !! TASK_ID_KEY) as [[v|txt]|]; simpl; repeat case_if;
    simpl; rewrite ?lookup_delete_ne by congruence; reflexivity.
Qed.

(** C12. [getTaskId] returns what its signature declares, a string or
    [null], on every storage the client reaches from one whose task key is
    typed (absent, unparsable, or a [StoredTask]), whatever it writes to
    other keys; the annotation on [JSON.parse] is not checked, so a record
    edited outside the client to hold a numeric id is returned as that
    number. *)
Theorem getTaskId_returns_declared_type ls0 ls now :
  typed_storage ls0 = true -> star client_step ls0 ls ->
  has_type (fst (getTaskId now ls)) getTaskId_t /\
  ~ has_type (fst (getTaskId now {[TASK_ID_KEY := Parsed (JObj [("id", JNum 5); ("expiry", JNum now)])]}))
             getTaskId_t.
Proof.
  intros Ht Hrun. split.
  - apply getTaskId_typed.
    apply (star_invariant client_step (fun l => typed_storage l = true)
             (fun a b Ha Hab => client_step_typed a b Hab Ha) ls0 ls Hrun Ht).
  - rewrite <- has_type_b_spec. unfold getTaskId. rewrite lookup_singleton_eq.
    cbn -[num_gt]. unfold num_gt. cbn. rewrite Z.ltb_irrefl. discriminate.
Qed.

(** Reading is idempotent: reading again at the same instant gives
    the same answer and changes nothing more. *)
Theorem getTaskId_idempotent now ls o ls' :
  getTaskId now ls = (o, ls') -> getTaskId now ls' = (o, ls').
Proof.
  unfold getTaskId. destruct (ls !! TASK_ID_KEY) as [text|] eqn:E; [|intros [= <- <-]; rewrite E; reflexivity].
  destruct (text_truthy text) eqn:Ht; simpl;
    [|intros [= <- <-]; rewrite E, Ht; reflexivity].
  destruct text as [v|txt]; repeat case_if; intros [= <- <-];
    try (rewrite E; simpl; repeat case_if; congruence);
    apply getTaskId_cleared, lookup_delete_eq.
Qed.

#[export] Instance local_task_store_laws : TaskStoreLaws Storage.
Proof.
  split; simpl.
  - intros now t taskId st [_ Ht]. rewrite getTaskId_saved.
    destruct (Z.ltb_spec (now + TASK_EXPIRY_MS) t); [lia | reflexivity].
  - intros now t taskId st Ht. rewrite getTaskId_saved.
    destruct (Z.ltb_spec (now + TASK_EXPIRY_MS) t); [reflexivity | lia].
  - intros t st. rewrite getTaskId_cleared by apply lookup_delete_eq. reflexivity.
  - apply clearTaskId_saveTaskId.
Qed.

(** ** Concrete runs *)

Lemma getTaskId_saveTaskId_witness :
  getTaskId (1000 + TASK_EXPIRY_MS) (saveTaskId 1000 "T1" ∅)
  = (JStr "T1", saveTaskId 1000 "T1" ∅).
Proof. apply getTaskId_saveTaskId. lia. Defined.

Lemma getTaskId_expired_witness :
  getTaskId 5000 {[TASK_ID_KEY := Parsed (StoredTask "T1" 4000)]}
  = (JNull, delete TASK_ID_KEY {[TASK_ID_KEY := Parsed (StoredTask "T1" 4000)]}).
Proof. apply (getTaskId_expired _ _ (StoredTask "T1" 4000) 4000); [reflexivity | reflexivity | lia]. Defined.

Lemma task_storage_frame_witness :
  saveTaskId 0 "T1" {["user" := Parsed (JObj [])]} !! "user" = Some (Parsed (JObj [])).
Proof.
  destruct (task_storage_frame "user" 0 "T1" {["user" := Parsed (JObj [])]}) as [H _];
    [discriminate | exact H].
Defined.

Lemma getTaskId_idempotent_witness :
  getTaskId 10 (delete TASK_ID_KEY {[TASK_ID_KEY := Unparsable "not json"]})
  = (JNull, delete TASK_ID_KEY {[TASK_ID_KEY := Unparsable "not json"]}).
Proof.
  apply (getTaskId_idempotent 10 {[TASK_ID_KEY := Unparsable "not json"]}). reflexivity.
Defined.

Lemma getTaskId_returns_declared_type_witness :
  has_type (fst (getTaskId 5 (saveTaskId 0 "T1" ∅))) getTaskId_t /\
  ~ has_type (fst (getTaskId 5 {[TASK_ID_KEY := Parsed (JObj [("id", JNum 5); ("expiry", JNum 5)])]}))
             getTaskId_t.
Proof.
  apply (getTaskId_returns_declared_type ∅ (saveTaskId 0 "T1" ∅) 5);
    [reflexivity | apply star_one, cs_save].
Defined.

End TaskStorage.
