(* ===== verification/TaskPoller.v ===== *)
(** * The task poller: [TaskProvider] of [src/frontend/src/context/TaskContext.tsx]

    The provider's React state ([taskId], [taskStatus], [isLoading]), the
    persisted record it reads through [getTaskId], the interval its
    polling effect keeps, the [checkTaskStatus] calls awaiting the backend
    and the toasts it shows form the record [Poller]. Each handler is a
    function on it; [commit] is React's commit phase, which re-runs the
    polling effect (lines 95-108) after a state change, clearing the old
    interval and starting a new one when its condition holds.

    The model is generic in the storage: it uses [TaskStorage]'s
    [TaskStore] interface, and the theorems that need the storage laws
    take [TaskStoreLaws] as an assumption. The [localStorage] instance of
    [TaskStorage.v] discharges them. [taskContextValue] is the value the
    provider passes down, [useTask] the hook that reads it. *)

From stdpp Require Import base list strings gmap.
From Stdlib Require Import ZArith Lia.
From S2P Require Import Spec2Rocq Js TaskStorage.

Import Js.
Open Scope Z_scope.

Module TaskPoller.

Inductive Toast := ToastSuccess (msg : string) | ToastError (msg : string).

Definition SUCCESS_MSG : string := "Your bills PDF is ready for download!".
Definition FAILURE_MSG : string := "Failed to generate bills. Please try again.".
Definition RETRY_MSG : string :=
  "Something went wrong during generation. Please try again or contact support.".
Definition CHECK_ERROR_MSG : string := "Unable to check task status. Please try again.".

(** [raw.data.data ?? raw.data ?? raw], each read guarded by [&&]. *)
Definition normalize (raw : jsval) : jsval :=
  js_coalesce (js_and (js_and raw (get raw "data")) (get (get raw "data") "data"))
    (js_coalesce (js_and raw (get raw "data")) raw).

(** The condition of the polling effect, and the id its interval polls:
    [taskId && taskStatus?.status !== "SUCCESS" && taskStatus?.status !== "RETRY"]. *)
Definition poll_target (taskId : option string) (taskStatus : jsval) : option string :=
  match taskId with
  | Some id =>
      if negb (String.eqb id "")
         && negb (str_is (opt_get taskStatus "status") "SUCCESS")
         && negb (str_is (opt_get taskStatus "status") "RETRY")
      then Some id else None
  | None => None
  end.

Fixpoint remove_first (x : string) (l : list string) : list string :=
  match l with
  | [] => []
  | y :: l' => if String.eqb y x then l' else y :: remove_first x l'
  end.

Section Poller.
Context {St : Type} `{TaskStore St}.

Record Poller := mkPoller {
  taskId : option string;
  taskStatus : jsval;          (** [null] is [JNull] *)
  isLoading : bool;
  store : St;
  interval : option string;    (** The id the live [setInterval] polls *)
  pending : list string;       (** [checkTaskStatus] calls awaiting [getTaskStatus] *)
  toasts : list Toast
}.

Definition set_status (v : jsval) (p : Poller) : Poller :=
  mkPoller (taskId p) v (isLoading p) (store p) (interval p) (pending p) (toasts p).

Definition set_loading (b : bool) (p : Poller) : Poller :=
  mkPoller (taskId p) (taskStatus p) b (store p) (interval p) (pending p) (toasts p).

Definition set_store (st : St) (p : Poller) : Poller :=
  mkPoller (taskId p) (taskStatus p) (isLoading p) st (interval p) (pending p) (toasts p).

Definition toast (t : Toast) (p : Poller) : Poller :=
  mkPoller (taskId p) (taskStatus p) (isLoading p) (store p) (interval p) (pending p) (toasts p ⊲ t).

(** React's commit phase: the polling effect's cleanup clears the old
    interval and the effect starts one for the current id if its
    condition holds. *)
Definition commit (p : Poller) : Poller :=
  mkPoller (taskId p) (taskStatus p) (isLoading p) (store p)
           (poll_target (taskId p) (taskStatus p)) (pending p) (toasts p).

(** [clearTask]: [clearTaskId(); setTaskId(null); setTaskStatus(null)]. *)
Definition clearTask (p : Poller) : Poller :=
  mkPoller None JNull (isLoading p) (store_clear (store p)) (interval p) (pending p) (toasts p).

(** [checkTaskStatus(id)] up to [await getTaskStatus(id)]. *)
Definition checkTaskStatus_start (id : string) (p : Poller) : Poller :=
  mkPoller (taskId p) (taskStatus p) true (store p) (interval p) (pending p ⊲ id) (toasts p).

(** [checkTaskStatus(id)] after the status request settled: [Some raw]
    is the response, [None] a thrown error. Note that [id] is not
    consulted: the response is applied to whatever the state is now. *)
Definition checkTaskStatus_settle (id : string) (resp : option jsval) (p : Poller) : Poller :=
  let p0 := mkPoller (taskId p) (taskStatus p) (isLoading p) (store p) (interval p)
                     (remove_first id (pending p)) (toasts p) in
  let p1 :=
    match resp with
    | Some raw =>
        let normalized := normalize raw in
        let p1 := set_status normalized p0 in
        let status := opt_get normalized "status" in
        if str_is status "SUCCESS" then toast (ToastSuccess SUCCESS_MSG) p1
        else if str_is status "FAILURE" then clearTask (toast (ToastError FAILURE_MSG) p1)
        else if str_is status "RETRY" then clearTask (toast (ToastError RETRY_MSG) p1)
        else p1
    | None => clearTask (toast (ToastError CHECK_ERROR_MSG) p0)
    end in
  set_loading false p1.

(** [startTask(newTaskId)] followed by the commit. *)
Definition startTask (now : Z) (newTaskId : string) (p : Poller) : Poller :=
  commit (mkPoller (Some newTaskId)
            (JObj [("task_id", JStr newTaskId); ("status", JStr "PENDING"); ("result", JNull)])
            (isLoading p) (store_save now newTaskId (store p)) (interval p) (pending p) (toasts p)).

(** The interval's callback: [checkTaskStatus(taskId)]. *)
Definition timerFires (p : Poller) : Poller :=
  match interval p with
  | Some id => checkTaskStatus_start id p
  | None => p
  end.

(** Every render evaluates [useState(getTaskId())]'s argument: the value is
    discarded after the first render, the eviction of an expired record
    is not. *)
Definition rerender (now : Z) (p : Poller) : Poller :=
  set_store (snd (store_get now (store p))) p.

(** The first render and its effects: the polling effect, then the initial
    check of a persisted id (lines 111-117). *)
Definition mount (now : Z) (st0 : St) : Poller :=
  let '(tid, st1) := store_get now st0 in
  let p0 := commit (mkPoller tid JNull false st1 None [] []) in
  let '(existing, st2) := store_get now st1 in
  match existing with
  | Some eid =>
      if String.eqb eid "" then set_store st2 p0
      else commit (checkTaskStatus_start eid
             (mkPoller (Some eid) (taskStatus p0) (isLoading p0) st2 (interval p0)
                       (pending p0) (toasts p0)))
  | None => set_store st2 p0
  end.

(** The provider's life after mounting: renders, the UI's calls to
    [startTask], [clearTask] and [checkTaskStatus], the interval firing,
    and pending status requests settling, in any order. *)
Inductive poller_step : Poller -> Poller -> Prop :=
| ps_rerender now p : poller_step p (rerender now p)
| ps_start now id p : poller_step p (startTask now id p)
| ps_clear p : poller_step p (commit (clearTask p))
| ps_timer p : poller_step p (timerFires p)
| ps_check id p : poller_step p (checkTaskStatus_start id p)
| ps_settle id resp p : In id (pending p) -> poller_step p (commit (checkTaskStatus_settle id resp p)).

Definition poller_reachable (p : Poller) : Prop :=
  exists now st0, star poller_step (mount now st0) p.

(** [TaskContextType]: the [value] the provider passes down in a state,
    its operations followed by the commit they cause. *)
Record TaskContextType := mkTaskContext {
  ctx_taskId : option string;
  ctx_taskStatus : jsval;
  ctx_isLoading : bool;
  ctx_startTask : Z -> string -> Poller -> Poller;
  ctx_clearTask : Poller -> Poller;
  ctx_checkTaskStatus : string -> Poller -> Poller
}.

Definition taskContextValue (p : Poller) : TaskContextType :=
  mkTaskContext (taskId p) (taskStatus p) (isLoading p) startTask (fun q => commit (clearTask q))
                checkTaskStatus_start.

(** [useTask()]: the value of the nearest provider, a thrown [Error]
    ([None]) without one. *)
Definition useTask (provider : option Poller) : option TaskContextType :=
  match provider with
  | Some p => Some (taskContextValue p)
  | None => None
  end.

End Poller.

(** ** Lemmas *)

Section Facts.
Context {St : Type} `{TaskStore St}.

Definition interval_consistent (p : @Poller St) : Prop :=
  interval p = poll_target (taskId p) (taskStatus p).

Lemma commit_consistent (p : @Poller St) : interval_consistent (commit p).
Proof. reflexivity. Qed.

Lemma poll_target_some tid v id :
  poll_target tid v = Some id ->
  tid = Some id /\ id <> "" /\
  str_is (opt_get v "status") "SUCCESS" = false /\ str_is (opt_get v "status") "RETRY" = false.
Proof.
  destruct tid as [i|]; simpl; [|discriminate]. case_if; [|discriminate].
  intros [= <-]. bool_facts. repeat split; auto.
  intros ->. discriminate.
Qed.

Lemma timerFires_idle (p : @Poller St) : interval p = None -> timerFires p = p.
Proof. unfold timerFires. intros ->. reflexivity. Qed.

Lemma settle_success id raw (p : @Poller St) :
  str_is (opt_get (normalize raw) "status") "SUCCESS" = true ->
  checkTaskStatus_settle id (Some raw) p =
    mkPoller (taskId p) (normalize raw) false (store p) (interval p)
             (remove_first id (pending p)) (toasts p ⊲ ToastSuccess SUCCESS_MSG).
Proof. intros Hs. unfold checkTaskStatus_settle. simpl. rewrite Hs. reflexivity. Qed.

Lemma settle_cleared id resp (p : @Poller St) msg :
  (resp = None /\ msg = CHECK_ERROR_MSG) \/
  (exists raw, resp = Some raw /\
     ((str_is (opt_get (normalize raw) "status") "FAILURE" = true /\ msg = FAILURE_MSG) \/
      (str_is (opt_get (normalize raw) "status") "RETRY" = true /\ msg = RETRY_MSG))) ->
  checkTaskStatus_settle id resp p =
    mkPoller None JNull false (store_clear (store p)) (interval p)
             (remove_first id (pending p)) (toasts p ⊲ ToastError msg).
Proof.
  intros [[-> ->] | [raw [-> [[Hs ->] | [Hs ->]]]]]; unfold checkTaskStatus_settle; simpl;
    [reflexivity| |];
    destruct (opt_get (normalize raw) "status") as [| | | |st| |] eqn:E; try discriminate;
    apply String.eqb_eq in Hs; subst; reflexivity.
Qed.

Lemma settle_other id raw (p : @Poller St) :
  str_is (opt_get (normalize raw) "status") "SUCCESS" = false ->
  str_is (opt_get (normalize raw) "status") "FAILURE" = false ->
  str_is (opt_get (normalize raw) "status") "RETRY" = false ->
  checkTaskStatus_settle id (Some raw) p =
    mkPoller (taskId p) (normalize raw) false (store p) (interval p)
             (remove_first id (pending p)) (toasts p).
Proof. intros H1 H2 H3. unfold checkTaskStatus_settle. simpl. rewrite H1, H2, H3. reflexivity. Qed.

Lemma step_consistent (p p' : @Poller St) :
  interval_consistent p -> poller_step p p' -> interval_consistent p'.
Proof.
  intros Hc Hs. destruct Hs; try apply commit_consistent.
  - exact Hc.
  - unfold timerFires. destruct (interval p); exact Hc.
  - exact Hc.
Qed.

(** Whatever a consumer of [useTask] calls is a step of the poller. *)
Lemma context_calls_are_steps (p : @Poller St) now id :
  poller_step p (ctx_startTask (taskContextValue p) now id p) /\
  poller_step p (ctx_clearTask (taskContextValue p) p) /\
  poller_step p (ctx_checkTaskStatus (taskContextValue p) id p).
Proof. split; [|split]; constructor. Qed.

Lemma mount_consistent now (st0 : St) : interval_consistent (mount now st0).
Proof.
  unfold mount. destruct (store_get now st0) as [tid st1].
  destruct (store_get now st1) as [[eid|] st2]; [case_if|]; reflexivity.
Qed.

End Facts.

(** ** Properties *)

Section Properties.
Context {St : Type} `{TaskStore St}.

(** C13. In every state the provider reaches after mounting, the polling
    interval is live only for the task id the provider holds, that id is
    non-empty, and the last known status is neither SUCCESS nor RETRY:
    no timer runs while the poller is idle or terminal. *)
Theorem timer_only_while_pending (p : @Poller St) id :
  poller_reachable p -> interval p = Some id ->
  taskId p = Some id /\ id <> "" /\
  str_is (opt_get (taskStatus p) "status") "SUCCESS" = false /\
  str_is (opt_get (taskStatus p) "status") "RETRY" = false.
Proof.
  intros (now & st0 & Hrun) Hi. apply poll_target_some.
  assert (Hc : interval_consistent p).
  { eapply star_invariant; [apply step_consistent | exact Hrun | apply mount_consistent]. }
  rewrite <- Hc. exact Hi.
Qed.

(** C14. [startTask(id)] followed by a status check whose answer is a
    plain status object with a non-terminal status (PENDING, say) keeps
    the task, stores the answer, keeps the interval polling [id] and shows
    no toast. *)
Theorem start_then_nonterminal_keeps_polling now id st (p : @Poller St) :
  id <> "" -> st <> "SUCCESS" -> st <> "FAILURE" -> st <> "RETRY" ->
  let raw := JObj [("task_id", JStr id); ("status", JStr st); ("result", JNull)] in
  let p' := commit (checkTaskStatus_settle id (Some raw) (checkTaskStatus_start id (startTask now id p))) in
  taskId p' = Some id /\ taskStatus p' = raw /\ interval p' = Some id /\
  toasts p' = toasts p /\ store p' = store_save now id (store p) /\ isLoading p' = false.
Proof.
  intros Hid H1 H2 H3 raw p'.
  assert (Hn : normalize raw = raw) by reflexivity.
  assert (Hst : opt_get (normalize raw) "status" = JStr st) by reflexivity.
  subst p'. rewrite settle_other; rewrite ?Hst; simpl;
    try (apply String.eqb_neq; assumption).
  rewrite Hn. unfold poll_target. simpl.
  apply String.eqb_neq in Hid, H1, H3. rewrite Hid, H1, H3. simpl.
  repeat split; reflexivity.
Qed.

(** C15. A status check answering SUCCESS stores the answer (its result
    included), shows exactly one success toast, keeps the task id and the
    persisted record, and stops polling: the interval is cleared and
    firing the timer again does nothing. *)
Theorem success_stops_polling id raw (p : @Poller St) :
  str_is (opt_get (normalize raw) "status") "SUCCESS" = true ->
  let p' := commit (checkTaskStatus_settle id (Some raw) p) in
  taskStatus p' = normalize raw /\
  opt_get (taskStatus p') "result" = opt_get (normalize raw) "result" /\
  toasts p' = toasts p ⊲ ToastSuccess SUCCESS_MSG /\
  taskId p' = taskId p /\ store p' = store p /\
  interval p' = None /\ timerFires p' = p'.
Proof.
  intros Hs p'. subst p'. rewrite settle_success by exact Hs.
  assert (Hi : poll_target (taskId p) (normalize raw) = None).
  { unfold poll_target. destruct (taskId p); [|reflexivity]. rewrite Hs.
    rewrite !andb_false_r. reflexivity. }
  simpl. rewrite Hi. repeat split; try reflexivity.
  apply timerFires_idle. exact Hi.
Qed.

(** C16. A status check answering RETRY is treated as a failure: an error
    toast is shown, the task is cleared from state and from storage, and
    polling stops for good. *)
Theorem retry_clears_and_stops id raw (p : @Poller St) :
  str_is (opt_get (normalize raw) "status") "RETRY" = true ->
  let p' := commit (checkTaskStatus_settle id (Some raw) p) in
  taskId p' = None /\ taskStatus p' = JNull /\ store p' = store_clear (store p) /\
  toasts p' = toasts p ⊲ ToastError RETRY_MSG /\ interval p' = None /\ timerFires p' = p'.
Proof.
  intros Hs p'. subst p'. rewrite (settle_cleared _ _ _ RETRY_MSG) by (right; eauto).
  repeat split; reflexivity.
Qed.

(** C17. A status check answering FAILURE, or failing altogether, shows
    the corresponding error toast, clears the task from state and
    storage, and stops polling. *)
Theorem failure_or_error_clears id resp (p : @Poller St) :
  resp = None \/
  (exists raw, resp = Some raw /\ str_is (opt_get (normalize raw) "status") "FAILURE" = true) ->
  let p' := commit (checkTaskStatus_settle id resp p) in
  taskId p' = None /\ taskStatus p' = JNull /\ store p' = store_clear (store p) /\
  toasts p' = toasts p ⊲ ToastError (match resp with Some _ => FAILURE_MSG | None => CHECK_ERROR_MSG end) /\
  interval p' = None.
Proof.
  intros Hr p'. subst p'.
  rewrite (settle_cleared _ _ _ (match resp with Some _ => FAILURE_MSG | None => CHECK_ERROR_MSG end)).
  - repeat split; reflexivity.
  - destruct Hr as [-> | (raw & -> & Hs)]; [left | right; exists raw]; auto.
Qed.

Context `{!TaskStoreLaws St}.

(** C18. Reloading with a persisted, unexpired, non-empty task id performs
    exactly one immediate status check for it and starts the interval. *)
Theorem reload_checks_once now0 now id (st : St) :
  id <> "" -> now0 <= now <= now0 + store_ttl ->
  let p := mount now (store_save now0 id st) in
  pending p = [id] /\ taskId p = Some id /\ interval p = Some id /\ isLoading p = true /\
  store p = store_save now0 id st.
Proof.
  intros Hid Hnow p. subst p. unfold mount.
  rewrite !(store_get_save now0 now id st Hnow).
  apply String.eqb_neq in Hid. rewrite Hid.
  unfold poll_target. simpl. rewrite Hid. repeat split; reflexivity.
Qed.

(** Reloading after the persisted task expired starts nothing: no
    check, no interval, and the record is evicted from storage. *)
Theorem reload_after_expiry_idle now0 now id (st : St) :
  now0 + store_ttl < now ->
  let p := mount now (store_save now0 id st) in
  pending p = [] /\ taskId p = None /\ interval p = None /\ store p = store_clear st.
Proof.
  intros Hnow p. subst p. unfold mount.
  rewrite (store_get_save_expired now0 now id st Hnow), store_get_clear.
  rewrite store_clear_save. repeat split; reflexivity.
Qed.

(** ** What modelling showed *)

(** C19. A status response is applied to the current state whatever task
    it was requested for. If a check of an earlier task is still in flight
    when a new task is started and it answers FAILURE, the new task is
    cleared from state and storage and its polling stops. *)
Theorem stale_failure_clears_new_task now old new raw (p : @Poller St) :
  new <> "" ->
  str_is (opt_get (normalize raw) "status") "FAILURE" = true ->
  let p1 := startTask now new p in
  let p2 := commit (checkTaskStatus_settle old (Some raw) p1) in
  interval p1 = Some new /\ taskId p2 = None /\ interval p2 = None /\
  store p2 = store_clear (store p).
Proof.
  intros Hnew Hs p1 p2. subst p1 p2.
  rewrite (settle_cleared _ _ _ FAILURE_MSG) by (right; eauto). simpl.
  rewrite store_clear_save. apply String.eqb_neq in Hnew.
  unfold poll_target. simpl. rewrite Hnew. repeat split; reflexivity.
Qed.

(** C20. Expiry of the persisted record does not stop polling: once the
    record has expired and a render has evicted it, the interval still
    polls the task the provider holds. *)
Theorem polling_outlives_expiry now0 t id (p : @Poller St) :
  id <> "" -> now0 + store_ttl < t ->
  let p1 := rerender t (startTask now0 id p) in
  fst (store_get t (store p1)) = None /\ interval p1 = Some id /\
  pending (timerFires p1) = pending p ⊲ id.
Proof.
  intros Hid Ht p1. subst p1. unfold rerender, startTask. simpl.
  rewrite (store_get_save_expired now0 t id (store p) Ht). simpl.
  rewrite store_get_clear. apply String.eqb_neq in Hid.
  unfold poll_target, timerFires. simpl. rewrite Hid. repeat split; reflexivity.
Qed.

End Properties.

(** Response normalisation unwraps the backend's envelope
    [{message, data, status}] to its [data] object, and leaves a plain
    status object as it is, provided neither carries a [data] field of
    its own. *)
Theorem normalize_unwraps_envelope msg st inner :
  nullish (get (JObj inner) "data") = true ->
  normalize (JObj [("message", msg); ("data", JObj inner); ("status", st)]) = JObj inner /\
  normalize (JObj inner) = JObj inner.
Proof.
  intros Hd. unfold normalize.
  assert (Henv : get (JObj [("message", msg); ("data", JObj inner); ("status", st)]) "data"
                 = JObj inner) by reflexivity.
  rewrite Henv. destruct (get (JObj inner) "data"); try discriminate; split; reflexivity.
Qed.

(** ** Concrete runs, on the [localStorage] implementation *)

Import TaskStorage.

Definition LS := gmap string StoredText.

Definition pending_status : jsval :=
  JObj [("task_id", JStr "T1"); ("status", JStr "PENDING"); ("result", JNull)].
Definition success_status : jsval :=
  JObj [("message", JStr "ok");
        ("data", JObj [("task_id", JStr "T1"); ("status", JStr "SUCCESS"); ("result", JStr "bills.pdf")]);
        ("status", JStr "success")].
Definition retry_status : jsval := JObj [("task_id", JStr "T1"); ("status", JStr "RETRY")].
Definition failure_status : jsval := JObj [("task_id", JStr "T0"); ("status", JStr "FAILURE")].

Lemma timer_only_while_pending_witness :
  let p := startTask 5 "T1" (mount 0 (∅ : LS)) in
  taskId p = Some "T1" /\ "T1" <> "" /\
  str_is (opt_get (taskStatus p) "status") "SUCCESS" = false /\
  str_is (opt_get (taskStatus p) "status") "RETRY" = false.
Proof.
  apply (timer_only_while_pending (startTask 5 "T1" (mount 0 (∅ : LS))) "T1").
  - exists 0, ∅. apply star_one. apply ps_start.
  - reflexivity.
Defined.

Lemma start_then_nonterminal_keeps_polling_witness :
  let raw := JObj [("task_id", JStr "T1"); ("status", JStr "PENDING"); ("result", JNull)] in
  let p' := commit (checkTaskStatus_settle "T1" (Some raw)
              (checkTaskStatus_start "T1" (startTask 0 "T1" (mount 0 (∅ : LS))))) in
  taskId p' = Some "T1" /\ taskStatus p' = raw /\ interval p' = Some "T1" /\
  toasts p' = toasts (mount 0 (∅ : LS)) /\
  store p' = store_save 0 "T1" (store (mount 0 (∅ : LS))) /\ isLoading p' = false.
Proof.
  apply (start_then_nonterminal_keeps_polling 0 "T1" "PENDING" (mount 0 (∅ : LS)));
    discriminate.
Defined.

Definition after_start : @Poller LS := startTask 0 "T1" (mount 0 ∅).

Lemma success_stops_polling_witness :
  let p' := commit (checkTaskStatus_settle "T1" (Some success_status) after_start) in
  taskStatus p' = normalize success_status /\
  opt_get (taskStatus p') "result" = opt_get (normalize success_status) "result" /\
  toasts p' = toasts after_start ⊲ ToastSuccess SUCCESS_MSG /\
  taskId p' = taskId after_start /\ store p' = store after_start /\
  interval p' = None /\ timerFires p' = p'.
Proof. apply (success_stops_polling "T1" success_status after_start). reflexivity. Defined.

Lemma retry_clears_and_stops_witness :
  let p' := commit (checkTaskStatus_settle "T1" (Some retry_status) after_start) in
  taskId p' = None /\ taskStatus p' = JNull /\ store p' = store_clear (store after_start) /\
  toasts p' = toasts after_start ⊲ ToastError RETRY_MSG /\ interval p' = None /\ timerFires p' = p'.
Proof. apply (retry_clears_and_stops "T1" retry_status after_start). reflexivity. Defined.

Lemma failure_or_error_clears_witness :
  let p' := commit (checkTaskStatus_settle "T1" None after_start) in
  taskId p' = None /\ taskStatus p' = JNull /\ store p' = store_clear (store after_start) /\
  toasts p' = toasts after_start ⊲ ToastError CHECK_ERROR_MSG /\ interval p' = None.
Proof. apply (failure_or_error_clears "T1" None after_start). left. reflexivity. Defined.

Lemma reload_checks_once_witness :
  let p := mount (TASK_EXPIRY_MS + 100) (store_save 100 "T1" (∅ : LS)) in
  pending p = ["T1"] /\ taskId p = Some "T1" /\ interval p = Some "T1" /\ isLoading p = true /\
  store p = store_save 100 "T1" ∅.
Proof.
  apply (reload_checks_once 100 (TASK_EXPIRY_MS + 100) "T1" (∅ : LS)).
  - discriminate.
  - unfold store_ttl; simpl; unfold TASK_EXPIRY_MS; lia.
Defined.

Lemma reload_after_expiry_idle_witness :
  let p := mount (TASK_EXPIRY_MS + 101) (store_save 100 "T1" (∅ : LS)) in
  pending p = [] /\ taskId p = None /\ interval p = None /\ store p = store_clear ∅.
Proof.
  apply (reload_after_expiry_idle 100 (TASK_EXPIRY_MS + 101) "T1" (∅ : LS)).
  unfold store_ttl; simpl; unfold TASK_EXPIRY_MS; lia.
Defined.

Definition before_new_task : @Poller LS := checkTaskStatus_start "T0" (mount 0 ∅).

Lemma stale_failure_clears_new_task_witness :
  let p1 := startTask 50 "T1" before_new_task in
  let p2 := commit (checkTaskStatus_settle "T0" (Some failure_status) p1) in
  interval p1 = Some "T1" /\ taskId p2 = None /\ interval p2 = None /\
  store p2 = store_clear (store before_new_task).
Proof.
  apply (stale_failure_clears_new_task 50 "T0" "T1" failure_status before_new_task).
  - discriminate.
  - reflexivity.
Defined.

Lemma polling_outlives_expiry_witness :
  let p1 := rerender (TASK_EXPIRY_MS + 1) (startTask 0 "T1" (mount 0 (∅ : LS))) in
  fst (store_get (TASK_EXPIRY_MS + 1) (store p1)) = None /\ interval p1 = Some "T1" /\
  pending (timerFires p1) = pending (mount 0 (∅ : LS)) ⊲ "T1".
Proof.
  apply (polling_outlives_expiry 0 (TASK_EXPIRY_MS + 1) "T1" (mount 0 (∅ : LS))).
  - discriminate.
  - unfold store_ttl; simpl; unfold TASK_EXPIRY_MS; lia.
Defined.

Lemma normalize_unwraps_envelope_witness :
  let inner := [("task_id", JStr "T1"); ("status", JStr "SUCCESS"); ("result", JStr "bills.pdf")] in
  normalize (JObj [("message", JStr "ok"); ("data", JObj inner); ("status", JStr "success")])
    = JObj inner /\ normalize (JObj inner) = JObj inner.
Proof. apply (normalize_unwraps_envelope (JStr "ok") (JStr "success")). reflexivity. Defined.

(** What modelling showed: [isLoading] is one flag for every check in
    flight. When the backend answers more slowly than the interval, the
    timer starts a second check before the first settles, and the first
    answer clears [isLoading] while the second check is still pending. *)
Lemma overlapping_checks_clear_loading :
  let p := commit (checkTaskStatus_settle "T1" (Some pending_status) (timerFires (timerFires after_start))) in
  isLoading (timerFires (timerFires after_start)) = true /\ isLoading p = false /\ pending p = ["T1"].
Proof. vm_compute. repeat split. Qed.

End TaskPoller.
