(* ===== verification/Navigation.v ===== *)
(** * Role-gated navigation: the sidebar's links and the protected routes

    [NAV_ITEMS] and the [allowedLinks] filter of
    [src/frontend/src/components/layout/AppSidebar.tsx] decide which links
    a signed-in user sees; [appRoutesConfig] and the route table of
    [src/frontend/src/routes/AppRoutes.tsx] decide what each path below
    [/] renders for that user's role. Each link carries its target and
    the translation key of its label, each route its page component
    ([PageComponent], the lazily loaded modules); icons are left out. A
    role is [user?.role], [None] when nobody is signed in. *)

From stdpp Require Import base list strings.
From S2P Require Import Spec2Rocq.

Module Navigation.

(** ** The sidebar *)

Record NavItem := mkNav { to : string; labelKey : string; roles : list string }.

Definition NAV_ITEMS : list NavItem := [
  mkNav "/dashboard" "sidebar.dashboard" ["system"; "admin"];
  mkNav "/users" "sidebar.users" ["system"; "admin"];
  mkNav "/packages" "sidebar.packages" ["system"; "admin"];
  mkNav "/meters" "sidebar.meters" ["system"; "admin"; "user"];
  mkNav "/readings" "sidebar.readings" ["system"; "admin"; "user"];
  mkNav "/messages" "sidebar.messages" ["system"; "admin"];
  mkNav "/bills" "sidebar.bills" ["system"; "admin"; "user"];
  mkNav "/fixes" "sidebar.fixes" ["system"; "admin"; "user"];
  mkNav "/areas" "sidebar.areas" ["system"; "admin"]
].

(** [Array.prototype.includes] on strings. *)
Definition includes (l : list string) (x : string) : bool := existsb (String.eqb x) l.

(** [NAV_ITEMS.filter((link) => role && link.roles.includes(role))]: an
    absent or empty role is falsy and shows nothing. *)
Definition allowedLinks (role : option string) : list NavItem :=
  List.filter (fun link =>
    match role with
    | Some r => negb (String.eqb r "") && includes (roles link) r
    | None => false
    end) NAV_ITEMS.

(** ** The routes below [/] *)

(** The lazily loaded page components of the configured routes. *)
Inductive PageComponent :=
| DashboardPage | UsersPage | PackagesPage | MessagesPage | ReadingsPage
| AreasPage | FixesPage | MetersPage | BillsPage | ManagePhoneNumber.

#[export] Instance PageComponent_eq_dec : EqDecision PageComponent.
Proof. solve_decision. Defined.

Record RouteConfig := mkRoute { path : string; component : PageComponent; allowedRoles : list string }.

Definition appRoutesConfig : list RouteConfig := [
  mkRoute "dashboard" DashboardPage ["system"; "admin"];
  mkRoute "users" UsersPage ["system"; "admin"];
  mkRoute "packages" PackagesPage ["system"; "admin"];
  mkRoute "messages" MessagesPage ["system"; "admin"];
  mkRoute "readings" ReadingsPage ["system"; "admin"; "user"];
  mkRoute "areas" AreasPage ["system"; "admin"];
  mkRoute "fixes" FixesPage ["system"; "admin"];
  mkRoute "meters" MetersPage ["system"; "admin"; "user"];
  mkRoute "bills" BillsPage ["system"; "admin"; "user"];
  mkRoute "manage-phone-number" ManagePhoneNumber ["system"; "admin"]
].

Inductive Element :=
| Page (path : string)
| ForbiddenPage
| NotFoundPage
| Redirect (to : string).

(** The index route: [user?.role === "user" ? "meters" : "dashboard"]. *)
Definition default_redirect (role : option string) : string :=
  match role with
  | Some r => if String.eqb r "user" then "meters" else "dashboard"
  | None => "dashboard"
  end.

(** What the child route [seg] of [/] renders: the index redirect, a
    configured page if [allowedRoles.includes(user?.role ?? "")], the
    forbidden page otherwise, and the not-found page for any other path. *)
Definition resolve_child (role : option string) (seg : string) : Element :=
  if String.eqb seg "" then Redirect (default_redirect role)
  else match List.find (fun rc => String.eqb (path rc) seg) appRoutesConfig with
       | Some rc =>
           if includes (allowedRoles rc) (default "" role) then Page seg else ForbiddenPage
       | None => NotFoundPage
       end.

(** The component a configured path renders when the role is allowed. *)
Definition page_component (seg : string) : option PageComponent :=
  component <$> List.find (fun rc => String.eqb (path rc) seg) appRoutesConfig.

(** A sidebar link [to] is the child route [to] without its leading slash. *)
Definition link_segment (to : string) : string :=
  match to with String _ rest => rest | EmptyString => EmptyString end.

(** ** Properties *)

(** The routes' React keys ([key={path}]) are distinct, and each page
    component is rendered at one path only. *)
Lemma appRoutesConfig_distinct :
  NoDup (map path appRoutesConfig) /\ NoDup (map component appRoutesConfig).
Proof. split; apply (bool_decide_unpack _); vm_compute; reflexivity. Qed.

Lemma page_component_path seg1 seg2 c :
  page_component seg1 = Some c -> page_component seg2 = Some c -> seg1 = seg2.
Proof.
  unfold page_component.
  destruct (List.find (fun rc => String.eqb (path rc) seg1) appRoutesConfig) as [rc1|] eqn:E1; [|discriminate].
  destruct (List.find (fun rc => String.eqb (path rc) seg2) appRoutesConfig) as [rc2|] eqn:E2; [|discriminate].
  simpl.
  intros [= <-] [= Hc].
  apply find_some in E1 as [In1 Eq1%String.eqb_eq]. apply find_some in E2 as [In2 Eq2%String.eqb_eq].
  subst. f_equal. apply (NoDup_map_eq component appRoutesConfig _ _ (proj2 appRoutesConfig_distinct) In1 In2 (eq_sym Hc)).
Qed.


Lemma In_allowedLinks role item :
  In item (allowedLinks role) <->
  In item NAV_ITEMS /\
  match role with
  | Some r => negb (String.eqb r "") && includes (roles item) r = true
  | None => False
  end.
Proof.
  unfold allowedLinks. rewrite filter_In.
  destruct role; [reflexivity|]. split; [intros [_ H]; discriminate | intros [_ []]].
Qed.

Lemma agree_item role item rc :
  In item NAV_ITEMS ->
  List.find (fun rc => String.eqb (path rc) (link_segment (to item))) appRoutesConfig = Some rc ->
  allowedRoles rc = roles item ->
  String.eqb (link_segment (to item)) "" = false ->
  includes (roles item) "" = false ->
  In item (allowedLinks role) <->
  resolve_child role (link_segment (to item)) = Page (link_segment (to item)).
Proof.
  intros Hin Hfind Hroles Hseg Hempty. rewrite In_allowedLinks.
  unfold resolve_child. rewrite Hseg, Hfind, Hroles.
  destruct role as [r|]; simpl.
  - destruct (String.eqb_spec r "") as [->|Hr]; simpl.
    + rewrite Hempty. split; [intros [_ H]; discriminate | discriminate].
    + destruct (includes (roles item) r); split; try tauto; try discriminate.
      intros [_ H]; discriminate.
  - rewrite Hempty. split; [tauto | discriminate].
Qed.

(** C27. The sidebar and the route table agree for every link but one: a
    signed-in user sees a link exactly when following it renders the
    page (and not the forbidden page), except for [/fixes]. *)
Theorem sidebar_agrees_with_routes role item :
  In item NAV_ITEMS -> to item <> "/fixes" ->
  In item (allowedLinks role) <->
  resolve_child role (link_segment (to item)) = Page (link_segment (to item)).
Proof.
  intros Hin Hfix. pose proof Hin as Hin'.
  simpl in Hin; destruct_or! Hin; subst item; try (exfalso; apply Hfix; reflexivity);
    (eapply agree_item; [exact Hin' | reflexivity | reflexivity | reflexivity | reflexivity]).
Qed.

(** C28. What modelling showed: every link the sidebar offers leads to
    a configured route, which renders its page or the forbidden page,
    and the forbidden page is reached for exactly one pair of role and
    link: the role [user] and [/fixes] ([AppSidebar.tsx] lists [user]
    among the roles of [/fixes], [AppRoutes.tsx] does not). *)
Theorem sidebar_forbidden_links role item :
  In item (allowedLinks role) ->
  (resolve_child role (link_segment (to item)) = ForbiddenPage <->
     role = Some "user" /\ to item = "/fixes") /\
  (resolve_child role (link_segment (to item)) = Page (link_segment (to item)) \/
   resolve_child role (link_segment (to item)) = ForbiddenPage).
Proof.
  rewrite In_allowedLinks. destruct role as [r|]; [|intros [_ []]].
  intros [Hin Hr]. apply andb_true_iff in Hr as [_ Hr]. unfold includes in Hr.
  simpl in Hin; destruct_or! Hin; subst item; apply existsb_eqb_In in Hr; simpl in Hr;
    destruct_or! Hr; subst r; vm_compute; intuition congruence.
Qed.

(** For each of the three roles the application knows, the index
    route redirects to a page that role may open. *)
Theorem default_redirect_allowed r :
  In r ["system"; "admin"; "user"] ->
  resolve_child (Some r) (default_redirect (Some r)) = Page (default_redirect (Some r)).
Proof. intros Hr. simpl in Hr. destruct_or! Hr; subst r; reflexivity. Qed.

(** ** Concrete runs *)

Lemma sidebar_agrees_with_routes_witness :
  In (mkNav "/bills" "sidebar.bills" ["system"; "admin"; "user"]) (allowedLinks (Some "user")) <->
  resolve_child (Some "user") (link_segment "/bills") = Page (link_segment "/bills").
Proof.
  apply (sidebar_agrees_with_routes (Some "user") (mkNav "/bills" "sidebar.bills" ["system"; "admin"; "user"])).
  - simpl. tauto.
  - discriminate.
Defined.

Lemma default_redirect_allowed_witness :
  resolve_child (Some "user") (default_redirect (Some "user")) = Page "meters".
Proof. apply (default_redirect_allowed "user"). simpl. tauto. Defined.

Lemma sidebar_forbidden_links_witness :
  resolve_child (Some "user") (link_segment "/fixes") = ForbiddenPage.
Proof.
  apply (sidebar_forbidden_links (Some "user") (mkNav "/fixes" "sidebar.fixes" ["system"; "admin"; "user"]));
    [simpl; tauto | split; reflexivity].
Defined.

End Navigation.
