(* ===== verification/Pagination.v ===== *)
(** * The pagination control: [src/frontend/src/components/common/Pagination.tsx]

    The component renders, from the [Pagination] record of
    [src/frontend/src/hooks/usePaginatedFetch.ts], a row of controls: each
    has the page its [onClick] asks for (if any) and whether it is
    disabled. [pagination_controls] lists them in rendering order. Page
    numbers are the backend's integers, kept as [Z]. *)

From stdpp Require Import base list.
From Stdlib Require Import ZArith Lia.
From S2P Require Import Spec2Rocq.

Open Scope Z_scope.

Module Pagination.

(** [interface Pagination] of [usePaginatedFetch.ts]. *)
Record Pagination := mkPagination {
  current_page : Z;
  per_page : Z;
  total_pages : Z;
  total_items : Z;
  has_next : bool;
  has_previous : bool
}.

Inductive Kind := First | Prev | Current | NextPage | Ellipsis | LastPage | Next | Last.

Record Control := mkControl {
  kind : Kind;
  target : option Z;   (** The argument of [onPageChange], if it has an [onClick] *)
  disabled : bool
}.

Definition pagination_controls (p : Pagination) : list Control :=
  let cur := current_page p in
  let total := total_pages p in
  [mkControl First (Some 1) (cur =? 1);
   mkControl Prev (Some (cur - 1)) (negb (has_previous p));
   mkControl Current None false]
  ++ (if has_next p then [mkControl NextPage (Some (cur + 1)) false] else [])
  ++ (if total >? cur + 1
      then [mkControl Ellipsis None false; mkControl LastPage (Some total) false] else [])
  ++ [mkControl Next (Some (cur + 1)) (negb (has_next p));
      mkControl Last (Some total) (cur =? total)].

(** What the backend promises of a page of results: the current page is
    one of the pages, and the two flags say whether it has neighbours. *)
Definition well_formed (p : Pagination) : Prop :=
  1 <= current_page p <= total_pages p /\
  has_next p = (current_page p <? total_pages p) /\
  has_previous p = (1 <? current_page p).

Definition clickable (c : Control) (t : Z) : Prop :=
  disabled c = false /\ target c = Some t.

(** ** Properties *)

Lemma clickable_cases p c t :
  In c (pagination_controls p) -> clickable c t ->
  (t = 1 /\ current_page p <> 1) \/
  (t = current_page p - 1 /\ has_previous p = true) \/
  (t = current_page p + 1 /\ has_next p = true) \/
  (t = total_pages p /\ total_pages p > current_page p + 1) \/
  (t = total_pages p /\ current_page p <> total_pages p).
Proof.
  unfold pagination_controls. intros Hin [Hd Ht].
  repeat rewrite in_app_iff in Hin.
  destruct (has_next p) eqn:Hn, (total_pages p >? current_page p + 1) eqn:Hl;
    simpl in Hin; destruct_or! Hin; subst c; simpl in *; try discriminate;
    inversion Ht; subst t; bool_facts;
    repeat match goal with H : (_ =? _) = false |- _ => apply Z.eqb_neq in H end;
    repeat match goal with H : (_ >? _) = true |- _ => apply Z.gtb_lt in H end;
    auto 10 with zarith.
Qed.

(** C32. On a well-formed page, every control the user can click asks
    for an existing page, different from the current one. *)
Theorem clickable_targets_in_range p c t :
  well_formed p -> In c (pagination_controls p) -> clickable c t ->
  1 <= t <= total_pages p /\ t <> current_page p.
Proof.
  intros (Hb & Hn & Hp) Hin Hc.
  destruct (clickable_cases p c t Hin Hc) as [H|[H|[H|[H|H]]]]; destruct H as [-> H];
    rewrite ?Hn, ?Hp in H;
    try apply Z.ltb_lt in H; lia.
Qed.

(** What modelling showed: for an empty result the backend reports
    no pages, and the Last control is then enabled and asks for page 0. *)
Theorem empty_result_last_targets_page_zero per items :
  In (mkControl Last (Some 0) false)
     (pagination_controls (mkPagination 1 per 0 items false false)).
Proof. simpl. tauto. Qed.

(** ** Concrete runs *)

Lemma clickable_targets_in_range_witness :
  1 <= 3 <= 5 /\ 3 <> 4.
Proof.
  apply (clickable_targets_in_range (mkPagination 4 10 5 47 true true)
           (mkControl Prev (Some 3) false)).
  - unfold well_formed. simpl. repeat split; lia.
  - simpl. tauto.
  - split; reflexivity.
Defined.

End Pagination.
