(* ===== verification/AuthSession.v ===== *)
(** * The authentication context and its reaction to the session guard

    [AuthProvider] of [src/frontend/src/context/AuthContext.tsx] keeps the
    signed-in user in React state and in [localStorage] under the key
    ["user"], and listens to the [authError] window events the session
    guard dispatches ([SessionGuard.v]): [sessionExpired] logs out without
    calling the backend, [unauthorized] opens the access-denied modal.
    [localStorage] is the map of [TaskStorage.v], shared with the task
    poller. The user is the JavaScript value the login service resolved
    with, or what [JSON.parse] makes of the stored text after a reload;
    [null] is [JNull]. The initial-load effect parses the stored text
    without a [try]: when [JSON.parse] throws, the error escapes the
    effect, React unmounts the tree and [loading] is never cleared. The
    context value ([AuthContextType]) carries the state and the
    operations; [useAuth] throws outside the provider. *)

From stdpp Require Import base list strings gmap.
From S2P Require Import Spec2Rocq SessionGuard Js TaskStorage.

Import SessionGuard Js TaskStorage.

Module AuthSession.

Record AuthState := mkAuth {
  user : jsval;
  ls : gmap string StoredText;
  location : string;                (** The last [navigate] target *)
  showUnauthorizedModal : bool;
  logoutCalls : nat;                (** [authService.logout()] requests *)
  loading : bool
}.

Definition USER_KEY : string := "user".

(** The provider's first render, over the storage as the page finds it. *)
Definition initial_auth (m : gmap string StoredText) (loc : string) : AuthState :=
  mkAuth JNull m loc false 0 true.

(** [!!localStorage.getItem("user")]. *)
Definition hadUser (m : gmap string StoredText) : bool :=
  match m !! USER_KEY with
  | Some t => text_truthy t
  | None => false
  end.

(** [login], after [authService.login] resolved with [userData]. *)
Definition login (userData : jsval) (a : AuthState) : AuthState :=
  mkAuth userData (<[USER_KEY := JSON_stringify userData]> (ls a)) "/"
         (showUnauthorizedModal a) (logoutCalls a) (loading a).

(** [logout(isSessionExpired)] up to its [await]: a session expiry
    navigates at once; a manual logout starts the backend request and
    suspends. *)
Definition logout (isSessionExpired : bool) (a : AuthState) : AuthState :=
  if negb (hadUser (ls a)) then a
  else if isSessionExpired
       then mkAuth JNull (delete USER_KEY (ls a)) "/login" (showUnauthorizedModal a) (logoutCalls a)
                   (loading a)
       else mkAuth JNull (delete USER_KEY (ls a)) (location a) (showUnauthorizedModal a)
                   (S (logoutCalls a)) (loading a).

(** A manual logout after [await authService.logout()] settled: a
    rejection is only logged, and either way the user is sent to the
    login page. *)
Definition logout_resume (a : AuthState) : AuthState :=
  mkAuth (user a) (ls a) "/login" (showUnauthorizedModal a) (logoutCalls a) (loading a).

(** The logout button of [Header] ([components/layout/Header.tsx]):
    [if (logout) logout()], a manual logout. *)
Definition logoutClicked (a : AuthState) : AuthState := logout false a.

(** The [authError] listener. *)
Definition handleAuthError (reason : AuthReason) (a : AuthState) : AuthState :=
  match reason with
  | SessionExpired => logout true a
  | Unauthorized =>
      mkAuth (user a) (ls a) (location a) true (logoutCalls a) (loading a)
  end.

(** The modal's [onConfirm]: [setShowUnauthorizedModal(false)]. *)
Definition closeUnauthorizedModal (a : AuthState) : AuthState :=
  mkAuth (user a) (ls a) (location a) false (logoutCalls a) (loading a).

(** The initial-load effect: [None] when [JSON.parse] throws. *)
Definition initialLoad (a : AuthState) : option AuthState :=
  match ls a !! USER_KEY with
  | Some (Parsed v) =>
      Some (mkAuth v (ls a) (location a) (showUnauthorizedModal a) (logoutCalls a) false)
  | Some (Unparsable s) =>
      if String.eqb s "" then
        Some (mkAuth (user a) (ls a) (location a) (showUnauthorizedModal a) (logoutCalls a) false)
      else None
  | None => Some (mkAuth (user a) (ls a) (location a) (showUnauthorizedModal a) (logoutCalls a) false)
  end.

(** [isAuthenticated: !!user]. *)
Definition isAuthenticated (a : AuthState) : bool := truthy (user a).

(** [AuthContextType]: the context value in a state [a]; its [login] and
    [logout] are the operations above, applied to the provider's state. *)
Record AuthContextType := mkAuthContext {
  ctx_user : jsval;
  ctx_isAuthenticated : bool;
  ctx_login : jsval -> AuthState -> AuthState;
  ctx_logout : bool -> AuthState -> AuthState;
  ctx_loading : bool
}.

(** [{ user, isAuthenticated: !!user, login, logout, loading }]. *)
Definition authContextValue (a : AuthState) : AuthContextType :=
  mkAuthContext (user a) (isAuthenticated a) login logout (loading a).

(** [useAuth()]: the value of the nearest provider, and a thrown [Error]
    ([None]) without one. *)
Definition useAuth (provider : option AuthState) : option AuthContextType :=
  match provider with
  | Some a => Some (authContextValue a)
  | None => None
  end.

(** The window delivers every [authError] the guard dispatches, in order. *)
Definition react_to (act : Action) (a : AuthState) : AuthState :=
  match act with
  | Dispatch reason => handleAuthError reason a
  | _ => a
  end.

Definition listen (acts : list Action) (a : AuthState) : AuthState :=
  fold_left (fun a act => react_to act a) acts a.

(** The actions the guard performed since its trace had length [n]. *)
Definition since (n : nat) (s : GuardState) : list Action := drop n (trace s).

(** ** Lemmas *)

Lemma listen_app acts1 acts2 a : listen (acts1 ++ acts2) a = listen acts2 (listen acts1 a).
Proof. unfold listen. apply fold_left_app. Qed.

Lemma listen_rejects (f : AxiosError -> Action) es a :
  (forall e, match f e with Dispatch _ => False | _ => True end) -> listen (map f es) a = a.
Proof.
  intros Hf. induction es as [|e es IH]; [reflexivity|]. simpl.
  specialize (Hf e). destruct (f e); try contradiction; exact IH.
Qed.

Lemma since_append n acts s :
  length (trace s) = n -> since n (append_trace acts s) = acts.
Proof. intros <-. unfold since, append_trace. simpl. apply drop_app_length. Qed.

Lemma hadUser_delete m : hadUser (delete USER_KEY m) = false.
Proof. unfold hadUser. rewrite lookup_delete_eq. reflexivity. Qed.

Lemma logout_no_user b a : hadUser (ls a) = false -> logout b a = a.
Proof. unfold logout. intros ->. reflexivity. Qed.

(** ** Properties *)

(** C21. When a refresh fails, the user is signed out once: the
    [sessionExpired] event the guard dispatches clears the user from state
    and storage and navigates to the login page, without a logout request
    to the backend, however many callers were queued. *)
Theorem session_expiry_logs_out s e0 es err a :
  isRefreshing s = false -> failedQueue s = [] -> microtasks s = [] ->
  Forall (fun e => eligible e = true) (e0 :: es) -> hadUser (ls a) = true ->
  listen (since (length (trace s)) (drain (refreshFailed err (run_errors es (onError e0 s))))) a
  = mkAuth JNull (delete USER_KEY (ls a)) "/login" (showUnauthorizedModal a) (logoutCalls a) (loading a).
Proof.
  intros Hr Hq Hm Hall Hu.
  rewrite (refresh_failed_trace s e0 es err Hr Hq Hm Hall). unfold since. cbn [trace]. rewrite drop_app_length.
  rewrite (listen_app [_; _; _; _]), listen_rejects by (intros; exact I).
  simpl. unfold logout. rewrite Hu. reflexivity.
Qed.

(** Logging out is idempotent: once signed out, a further logout of
    either kind (another [sessionExpired] event, a click on the logout
    button) changes nothing and makes no backend request. *)
Theorem logout_idempotent b1 b2 a : logout b2 (logout b1 a) = logout b1 a.
Proof.
  destruct (hadUser (ls a)) eqn:Hu.
  - apply logout_no_user. unfold logout. rewrite Hu. destruct b1; apply hadUser_delete.
  - rewrite !(logout_no_user _ _ Hu). reflexivity.
Qed.

(** The header's logout button signs the user out at once and makes one
    backend request; the page stays until the request settles, and the
    continuation then goes to the login page, signed out. *)
Lemma manual_logout_run a :
  hadUser (ls a) = true ->
  let a1 := logoutClicked a in
  user a1 = JNull /\ ls a1 !! USER_KEY = None /\ logoutCalls a1 = S (logoutCalls a) /\
  location a1 = location a /\
  logout_resume a1 = mkAuth JNull (delete USER_KEY (ls a)) "/login" (showUnauthorizedModal a)
                            (S (logoutCalls a)) (loading a).
Proof.
  intros Hu. unfold logoutClicked, logout. rewrite Hu. simpl.
  split_and!; try reflexivity. apply lookup_delete_eq.
Qed.

(** C22. A 403 from the backend opens the access-denied modal and leaves
    the user signed in, on the same page. *)
Theorem forbidden_opens_modal e s a :
  is_timeout e = false -> response e = Some 403%Z ->
  listen (since (length (trace s)) (onError e s)) a
  = mkAuth (user a) (ls a) (location a) true (logoutCalls a) (loading a).
Proof.
  intros Ht Hr. rewrite (forbidden_dispatches_unauthorized e s Ht Hr).
  rewrite since_append by reflexivity. reflexivity.
Qed.

(** C23. What modelling showed: logging out leaves the background task's
    record in the shared storage, so the task started by one user is still
    found, and polled, after they sign out. *)
Theorem logout_keeps_task b a : ls (logout b a) !! TASK_ID_KEY = ls a !! TASK_ID_KEY.
Proof.
  unfold logout. destruct (hadUser (ls a)); [|reflexivity].
  destruct b; simpl; apply lookup_delete_ne; discriminate.
Qed.

(** C24. Round trip through storage: after [login] with a user object, a
    reload (a fresh provider over the same storage) restores the user as
    [JSON.stringify] and [JSON.parse] preserve it and leaves the loading
    state. What modelling showed: when the login service resolves with
    [undefined], [login] stores the text ["undefined"] and signs in, and
    the next reload's [JSON.parse] throws inside the effect, so the
    provider never leaves its loading state. *)
Theorem reload_restores_user u a loc :
  (u <> JUndefined ->
   initialLoad (initial_auth (ls (login u a)) loc) =
   Some (mkAuth (json_value u) (ls (login u a)) loc false 0 false)) /\
  hadUser (ls (login JUndefined a)) = true /\
  initialLoad (initial_auth (ls (login JUndefined a)) loc) = None.
Proof.
  unfold initialLoad, hadUser, initial_auth, login. cbn [ls]. rewrite !lookup_insert_eq.
  split; [|split; reflexivity].
  intros Hu. destruct u; try (exfalso; apply Hu; reflexivity); reflexivity.
Qed.

(** ** Concrete runs *)

Definition signed_in : AuthState :=
  login (JObj [("username", JStr "ali"); ("role", JStr "admin")]) (mkAuth JNull ∅ "/login" false 0 false).

Lemma session_expiry_logs_out_witness :
  listen (since 0 (drain (refreshFailed 1%nat
            (run_errors [unauthorized_error req_meters] (onError (unauthorized_error req_bills) initial_guard)))))
         signed_in
  = mkAuth JNull (delete USER_KEY (ls signed_in)) "/login" false 0 false.
Proof.
  apply (session_expiry_logs_out initial_guard (unauthorized_error req_bills)
           [unauthorized_error req_meters] 1%nat signed_in);
    [reflexivity | reflexivity | reflexivity | repeat constructor | reflexivity].
Defined.

Lemma forbidden_opens_modal_witness :
  listen (since 0 (onError (mkAxiosError None (Some 403%Z) req_users) initial_guard)) signed_in
  = mkAuth (user signed_in) (ls signed_in) (location signed_in) true (logoutCalls signed_in)
           (loading signed_in).
Proof.
  apply (forbidden_opens_modal (mkAxiosError None (Some 403%Z) req_users) initial_guard signed_in);
    reflexivity.
Defined.

Lemma reload_restores_user_witness :
  initialLoad (initial_auth (ls signed_in) "/") =
  Some (mkAuth (JObj [("username", JStr "ali"); ("role", JStr "admin")]) (ls signed_in) "/" false 0 false).
Proof.
  destruct (reload_restores_user (JObj [("username", JStr "ali"); ("role", JStr "admin")])
              (mkAuth JNull ∅ "/login" false 0 false) "/") as [H _].
  apply H. discriminate.
Defined.

End AuthSession.
