(* ===== verification/Alerts.v ===== *)
(** * Error messages: [AlertProvider] of [src/frontend/src/context/AlertContext.tsx]

    The provider's value has three operations: [success] and [error] show
    a toast, and [handleError] picks the text of an error by its runtime
    shape (a string, an [AxiosError] instance, an [Error] instance,
    anything else), shows it as an error toast unless it is one of three
    token messages, and returns it. [ErrorValue] has one constructor per
    shape the code distinguishes, with the values it reads; the response
    body of an [AxiosError] is a JavaScript value ([undefined] without a
    response), so its [fieldErrors] and [message] may be anything. The
    message is a JavaScript value too: [data.message || error.message]
    returns whatever truthy value the body holds. [handleError] is
    partial: reading [field] of a first field error that is [null] or
    [undefined] throws a [TypeError] ([None]).

    Pages reach [handleError] through [useErrorHandler]
    ([src/frontend/src/hooks/useErrorHandler.ts]), which throws outside
    the provider, so the values it receives include the rejections of the
    session guard. The toasts shown are recorded as a list. The
    provider's value is the record [AlertContextType] of the three
    operations. *)

From stdpp Require Import base list strings.
From S2P Require Import Spec2Rocq SessionGuard Js.

Import SessionGuard Js.

Module Alerts.

Inductive ErrorValue :=
| EString (s : string)
    (** [typeof error === "string"] *)
| EAxios (data : jsval) (message : string)
    (** [error instanceof AxiosError]: [error.response?.data] and [error.message] *)
| EError (message : string)
    (** any other [Error] instance *)
| EOther (v : jsval).
    (** anything else, plain objects included, which is not read *)

(** The toasts of [react-hot-toast]. *)
Inductive AlertToast := AlertSuccess (m : string) | AlertError (m : jsval).

(** [success] and [error] of the provider's value. *)
Definition success (message : string) : list AlertToast := [AlertSuccess message].
Definition error (message : string) : list AlertToast := [AlertError (JStr message)].

Definition GENERIC_MSG : string := "An unexpected error occurred.".

(** The [errorMessage] [handleError] settles on; [None] when reading
    the first field error throws. *)
Definition error_message (e : ErrorValue) : option jsval :=
  match e with
  | EString s => Some (JStr s)
  | EAxios data message =>
      match opt_get data "fieldErrors" with
      | JArr (firstError :: _) =>
          if nullish firstError then None
          else Some (JStr (ToString (js_or (get firstError "field") (JStr "Field")) +:+ " " +:+
                           ToString (js_or (get firstError "message") (JStr "is invalid"))))
      | _ => Some (js_or (opt_get data "message") (JStr message))
      end
  | EError message => Some (JStr message)
  | EOther _ => Some (JStr GENERIC_MSG)
  end.

Definition TOKEN_MESSAGES : list string :=
  ["Invalid token or token has expired."; "Invalid refresh token cookies"; "Invalid refresh token."].

(** The three [!==] tests: a value that is not a string is never equal. *)
Definition shows_toast (m : jsval) : bool :=
  negb (existsb (str_is m) TOKEN_MESSAGES).

(** The returned message and the toasts shown, or [None] when it throws. *)
Definition handleError (e : ErrorValue) : option (jsval * list AlertToast) :=
  match error_message e with
  | Some m => Some (m, if shows_toast m then [AlertError m] else [])
  | None => None
  end.

(** [AlertContextType]: the provider's value, a record of its three
    operations. *)
Record AlertContextType := mkAlertContext {
  ctx_success : string -> list AlertToast;
  ctx_error : string -> list AlertToast;
  ctx_handleError : ErrorValue -> option (jsval * list AlertToast)
}.

(** The value [AlertProvider] memoises once. *)
Definition alertContextValue : AlertContextType := mkAlertContext success error handleError.

(** [useErrorHandler()]: [{ handle: context.handleError }] inside a
    provider; outside ([useContext] gives [undefined], [None]) it throws
    ([None]). *)
Definition useErrorHandler (context : option AlertContextType)
  : option (ErrorValue -> option (jsval * list AlertToast)) :=
  match context with
  | Some c => Some (ctx_handleError c)
  | None => None
  end.

(** What [handleError] receives when a request made through the axios
    instance is rejected by the interceptor with one of its classified
    objects: the object literal [{ message, code, originalError }]
    (axiosInstance.ts:44-57), neither a string nor an [Error].
    [originalError], an [AxiosError] instance, is not a JSON-like value
    and is left out; nothing reads it. *)
Definition classified_value (ce : ClassifiedError) : ErrorValue :=
  EOther (JObj [("message", JStr (ce_message ce)); ("code", JStr (ce_code ce))]).

(** ** Lemmas *)

Lemma str_is_token_In m :
  existsb (str_is m) TOKEN_MESSAGES = true <-> exists tok, In tok TOKEN_MESSAGES /\ m = JStr tok.
Proof.
  rewrite existsb_exists. split.
  - intros (tok & Hin & Hs). exists tok. split; [exact Hin | exact (str_is_eq _ _ Hs)].
  - intros (tok & Hin & ->). exists tok. split; [exact Hin | apply String.eqb_refl].
Qed.

(** ** Properties *)

(** C33. The three token messages are never shown, whatever shape of
    error carries them; every other message is shown exactly once; and
    [handleError] returns unless the first field error is [null] or
    [undefined]. *)
Theorem token_errors_silent e :
  match handleError e with
  | Some (m, toasts) =>
      (toasts = [] <-> exists tok, In tok TOKEN_MESSAGES /\ m = JStr tok) /\
      (toasts = [] \/ toasts = [AlertError m])
  | None =>
      exists data message first rest,
        e = EAxios data message /\ opt_get data "fieldErrors" = JArr (first :: rest) /\ nullish first = true
  end.
Proof.
  unfold handleError. destruct (error_message e) as [m|] eqn:Hm.
  - unfold shows_toast. rewrite <- str_is_token_In.
    destruct (existsb (str_is m) TOKEN_MESSAGES); simpl; split; auto; split; congruence.
  - destruct e as [s | data message | message |]; simpl in Hm; try discriminate.
    destruct (opt_get data "fieldErrors") as [| | | | | | [|first rest]] eqn:Hf; try discriminate.
    exists data, message, first, rest. split; [reflexivity|]. split; [exact Hf|].
    destruct (nullish first); [reflexivity | discriminate].
Qed.

End Alerts.
