(* ===== verification/PaginatedFetch.v ===== *)
(** * The paginated fetch hook: [src/frontend/src/hooks/usePaginatedFetch.ts]

    The hook keeps the rows and the [Pagination] record of the last
    response, a loading flag and the current page. [fetchData(page)]
    sets the flag, awaits the page and stores it, or hands the error to
    [handleError] ([Alerts.v]) and clears the rows (unless [handleError]
    throws); the [finally] block clears the flag. [fetchData] depends on
    the object [useErrorHandler] returns, a new one on every render, so
    the effect [fetchData(currentPage)] runs after every committed
    render, not only when the page changes: [render_effect], and
    [fetchData_resume], the settled call followed by the render it
    causes. [FetchState] adds the pages whose requests are in flight and
    the toasts shown. [hook_step] is the hook as it runs, requests
    settling in any order as the network may; [fetch_step] takes the
    same segments one at a time, the render's effect being a [refresh],
    and every run of [hook_step] is one of [fetch_step]. *)

From stdpp Require Import base list strings.
From Stdlib Require Import ZArith Lia.
From S2P Require Import Spec2Rocq SessionGuard Js Pagination Alerts.

Import SessionGuard Js Pagination Alerts.
Open Scope Z_scope.

Module PaginatedFetch.

Section Fetch.
Context {A : Type}.

(** [PaginatedResponse<T>]. *)
Record PaginatedResponse := mkResponse { items : list A; resp_pagination : Pagination }.

Record FetchState := mkFetch {
  data : list A;
  pagination : option Pagination;
  isLoading : bool;
  currentPage : Z;
  inflight : list Z;        (** Pages whose [fetchFunction] call has not settled *)
  toasts : list AlertToast
}.

Fixpoint remove_page (x : Z) (l : list Z) : list Z :=
  match l with
  | [] => []
  | y :: l' => if Z.eqb y x then l' else y :: remove_page x l'
  end.

(** [fetchData(page)] up to [await fetchFunction(page, limit)]. *)
Definition fetchData_start (page : Z) (s : FetchState) : FetchState :=
  mkFetch (data s) (pagination s) true (currentPage s) (inflight s ⊲ page) (toasts s).

(** [fetchData(page)] after the request settled: [inl] the response,
    [inr] the error it threw. The page is not compared with
    [currentPage]. *)
Definition fetchData_settle (page : Z) (r : PaginatedResponse + ErrorValue) (s : FetchState)
  : FetchState :=
  let rest := remove_page page (inflight s) in
  match r with
  | inl response =>
      mkFetch (items response) (Some (resp_pagination response)) false (currentPage s) rest (toasts s)
  | inr error =>
      match handleError error with
      | Some (_, shown) => mkFetch [] None false (currentPage s) rest (toasts s ++ shown)
      | None => mkFetch (data s) (pagination s) false (currentPage s) rest (toasts s)
      end
  end.

(** A call [fetchData(page)]. [useErrorHandler] returns a new
    [{ handle }] object on every render, so [fetchData] is a new function
    on every render and the effect, which depends on it, runs after
    every committed render. When the call turns [isLoading] on, React
    renders again and the effect calls [fetchData(currentPage)]; that
    second call changes no state, so nothing more follows. *)
Definition fetchData_call (page : Z) (s : FetchState) : FetchState :=
  let s1 := fetchData_start page s in
  if isLoading s then s1 else fetchData_start (currentPage s1) s1.

(** The effect after a committed render: [fetchData(currentPage)]. *)
Definition render_effect (s : FetchState) : FetchState := fetchData_call (currentPage s) s.

(** The first render's state and its effect, which fetches page 1. *)
Definition mount : FetchState := render_effect (mkFetch [] None true 1 [] []).

(** [goToPage(page)]: setting the same page does not re-render;
    another page renders, and the effect fetches it. *)
Definition goToPage (page : Z) (s : FetchState) : FetchState :=
  if Z.eqb page (currentPage s) then s
  else render_effect (mkFetch (data s) (pagination s) (isLoading s) page (inflight s) (toasts s)).

(** [refresh()]: [fetchData(currentPage)]. *)
Definition refresh (s : FetchState) : FetchState := fetchData_call (currentPage s) s.

(** Whether the updates of the settled call change the state: [setData]
    always receives a new array ([response.items] or [[]]); when
    [handleError] throws only the [finally] block's [setIsLoading(false)]
    runs. *)
Definition settle_renders (r : PaginatedResponse + ErrorValue) (s : FetchState) : bool :=
  match r with
  | inl _ => true
  | inr error => match handleError error with Some _ => true | None => isLoading s end
  end.

(** The settled call and, when it changed the state, the render and
    effect that follow. *)
Definition fetchData_resume (page : Z) (r : PaginatedResponse + ErrorValue) (s : FetchState)
  : FetchState :=
  let s1 := fetchData_settle page r s in
  if settle_renders r s then render_effect s1 else s1.

(** The segments of the hook one at a time, requests settling in any
    order; a render's effect is a [refresh]. *)
Inductive fetch_step : FetchState -> FetchState -> Prop :=
| fs_goto page s : fetch_step s (goToPage page s)
| fs_refresh s : fetch_step s (refresh s)
| fs_settle page r s : In page (inflight s) -> fetch_step s (fetchData_settle page r s).

(** The hook as it runs: a settled request is followed by the render it
    causes. *)
Inductive hook_step : FetchState -> FetchState -> Prop :=
| hs_goto page s : hook_step s (goToPage page s)
| hs_refresh s : hook_step s (refresh s)
| hs_settle page r s : In page (inflight s) -> hook_step s (fetchData_resume page r s).

End Fetch.

Arguments PaginatedResponse : clear implicits.
Arguments FetchState : clear implicits.

(** ** Properties *)

Section Properties.
Context {A : Type}.

Definition loading_cleared (s : FetchState A) : Prop := inflight s = [] -> isLoading s = false.

(** A call of [fetchData] leaves the flag on and its page in flight, and
    keeps the current page. *)
Lemma fetchData_call_loading page (s : FetchState A) :
  isLoading (fetchData_call page s) = true /\ In page (inflight (fetchData_call page s)) /\
  currentPage (fetchData_call page s) = currentPage s.
Proof.
  unfold fetchData_call. destruct (isLoading s); simpl; split_and!; try reflexivity;
    rewrite ?in_app_iff; simpl; tauto.
Qed.

Lemma render_effect_loading (s : FetchState A) :
  isLoading (render_effect s) = true /\ In (currentPage (render_effect s)) (inflight (render_effect s)).
Proof.
  unfold render_effect. destruct (fetchData_call_loading (currentPage s) s) as (H1 & H2 & H3).
  rewrite H3. auto.
Qed.

Lemma fetch_step_loading_cleared (s s' : FetchState A) :
  loading_cleared s -> fetch_step s s' -> loading_cleared s'.
Proof.
  unfold loading_cleared. intros Hs Hstep. destruct Hstep as [page s | s | page r s Hin].
  - unfold goToPage. case_if; [exact Hs|]. intros Hnil.
    destruct (render_effect_loading (mkFetch (data s) (pagination s) (isLoading s) page (inflight s) (toasts s)))
      as [_ Hin]. rewrite Hnil in Hin. contradiction.
  - intros Hnil. destruct (fetchData_call_loading (currentPage s) s) as (_ & Hin & _).
    unfold refresh in Hnil. rewrite Hnil in Hin. contradiction.
  - unfold fetchData_settle. destruct r as [|e]; [reflexivity|]. destruct (handleError e) as [[]|]; reflexivity.
Qed.

(** C29. The loading indicator never stays on when no request is in
    flight: in every state reached from the first render, an empty set of
    pending requests means [isLoading] is false. *)
Theorem loading_cleared_reachable (s : FetchState A) :
  star fetch_step mount s -> loading_cleared s.
Proof.
  intros Hrun. eapply star_invariant; [exact fetch_step_loading_cleared | exact Hrun |].
  unfold loading_cleared. discriminate.
Qed.

(** The render and its effect touch only the flag and the requests. *)
Lemma render_effect_keeps (s : FetchState A) :
  data (render_effect s) = data s /\ pagination (render_effect s) = pagination s /\
  toasts (render_effect s) = toasts s.
Proof. unfold render_effect, fetchData_call. destruct (isLoading s); split_and!; reflexivity. Qed.

Lemma fetchData_call_more page (s : FetchState A) :
  (S (length (inflight s)) <= length (inflight (fetchData_call page s)))%nat.
Proof. unfold fetchData_call. destruct (isLoading s); simpl; rewrite ?length_app; simpl; lia. Qed.

Lemma remove_page_length x l : In x l -> S (length (remove_page x l)) = length l.
Proof.
  induction l as [|y l IH]; simpl; [tauto|]. intros [<- | H]; [rewrite Z.eqb_refl; reflexivity|].
  destruct (Z.eqb y x); simpl; [reflexivity | rewrite IH by exact H; reflexivity].
Qed.

Lemma fetchData_settle_inflight page r (s : FetchState A) :
  inflight (fetchData_settle page r s) = remove_page page (inflight s).
Proof. unfold fetchData_settle. destruct r as [|e]; [|destruct (handleError e) as [[]|]]; reflexivity. Qed.

Lemma settle_renders_loading r (s : FetchState A) : isLoading s = true -> settle_renders r s = true.
Proof. intros H. destruct r as [|e]; simpl; [|destruct (handleError e)]; auto. Qed.

(** The hook as it runs is the segment-by-segment model with the
    render's effect as a [refresh]: every run of the hook is a run of
    [fetch_step], so [loading_cleared_reachable] holds of it. *)
Lemma hook_step_fetch_steps (s s' : FetchState A) : hook_step s s' -> star fetch_step s s'.
Proof.
  intros [page s0 | s0 | page r s0 Hin]; try (apply star_one; constructor).
  unfold fetchData_resume. destruct (settle_renders r s0).
  - eapply star_step; [apply fs_settle, Hin | apply star_one, fs_refresh].
  - apply star_one, fs_settle, Hin.
Qed.

Lemma hook_runs_fetch_runs (s s' : FetchState A) : star hook_step s s' -> star fetch_step s s'.
Proof.
  induction 1 as [|s1 s2 s3 H12 _ IH]; [apply star_refl|].
  eapply star_trans; [apply hook_step_fetch_steps, H12 | exact IH].
Qed.

Definition always_fetching (s : FetchState A) : Prop :=
  isLoading s = true /\ In (currentPage s) (inflight s).

Lemma hook_step_fetching (s s' : FetchState A) :
  always_fetching s -> hook_step s s' -> always_fetching s'.
Proof.
  intros [Hl Hc] Hstep. destruct Hstep as [page s | s | page r s Hin].
  - unfold goToPage. case_if; [split; assumption | apply render_effect_loading].
  - apply (render_effect_loading s).
  - unfold fetchData_resume. rewrite settle_renders_loading by exact Hl. apply render_effect_loading.
Qed.

(** C30. What modelling showed: the hook never stops fetching. Because
    [fetchData] is rebuilt on every render ([useErrorHandler] returns a
    new object each time), every render re-runs the effect: in every
    state the hook reaches, the loading flag is on and a request for the
    current page is in flight, and whatever answer a pending request
    gets, at least as many requests are in flight afterwards. *)
Theorem requests_never_stop (s : FetchState A) :
  star hook_step mount s ->
  isLoading s = true /\ In (currentPage s) (inflight s) /\
  forall page r, In page (inflight s) ->
    (length (inflight s) <= length (inflight (fetchData_resume page r s)))%nat.
Proof.
  intros Hrun.
  assert (Hf : always_fetching s).
  { eapply star_invariant; [exact hook_step_fetching | exact Hrun | apply render_effect_loading]. }
  destruct Hf as [Hl Hc]. split_and!; [exact Hl | exact Hc |].
  intros page r Hin. unfold fetchData_resume. rewrite settle_renders_loading by exact Hl.
  unfold render_effect. etransitivity; [|apply fetchData_call_more].
  rewrite fetchData_settle_inflight, (remove_page_length _ _ Hin). lia.
Qed.

(** C31. A page request that times out or fails on the network is
    rejected by the interceptor, whatever its state, with its classified
    object [{ message, code }]; the hook's [catch] hands that object to
    [handleError], so after the render that follows the rows and the
    pagination are cleared and the toast shows the generic message
    instead of the object's ["Request timed out ..."] or ["Network error
    ..."] text: [handleError] reads messages only from strings and
    [Error] instances. *)
Theorem transport_failure_generic_toast page e (gs : GuardState) (s : FetchState A) :
  is_timeout e = true \/ response e = None ->
  exists ce,
    trace (onError e gs) = trace gs ⊲ Reject (req_id (config e)) (RejClassified ce) /\
    ce_message ce <> GENERIC_MSG /\
    let s' := fetchData_resume page (inr (classified_value ce)) s in
    data s' = [] /\ pagination s' = None /\ toasts s' = toasts s ⊲ AlertError (JStr GENERIC_MSG).
Proof.
  intros H. exists (if is_timeout e then timeout_error e else network_error e).
  rewrite (onError_transport e gs H). split; [reflexivity|].
  split; [destruct (is_timeout e); discriminate|].
  unfold fetchData_resume. cbn [settle_renders]. apply render_effect_keeps.
Qed.

(** What modelling showed: when the first element of a failed
    request's [fieldErrors] is [null], [handleError] throws inside the
    [catch] block, so [setData([])] and [setPagination(null)] are skipped:
    the previous page's rows stay on screen, no message is shown, and
    only the [finally] block clears the loading flag. *)
Lemma field_error_null_keeps_rows page (s : FetchState A) body message rest :
  opt_get body "fieldErrors" = JArr (JNull :: rest) ->
  let s' := fetchData_settle page (inr (EAxios body message)) s in
  data s' = data s /\ pagination s' = pagination s /\ isLoading s' = false /\ toasts s' = toasts s.
Proof. intros Hf s'. subst s'. unfold fetchData_settle, handleError, error_message. rewrite Hf. repeat split. Qed.

End Properties.

(** ** Concrete runs *)

Lemma loading_cleared_reachable_witness :
  loading_cleared (fetchData_settle 1 (inr (EOther JNull)) (@mount nat)).
Proof.
  apply loading_cleared_reachable. apply star_one. apply fs_settle. left. reflexivity.
Defined.

Lemma transport_failure_generic_toast_witness :
  exists ce,
    trace (onError (mkAxiosError (Some "ECONNABORTED") None req_bills) initial_guard)
      = trace initial_guard ⊲ Reject (req_id (config (mkAxiosError (Some "ECONNABORTED") None req_bills)))
                                     (RejClassified ce) /\
    ce_message ce <> GENERIC_MSG /\
    let s' := fetchData_resume 1 (inr (classified_value ce)) (@mount nat) in
    data s' = [] /\ pagination s' = None /\ toasts s' = toasts (@mount nat) ⊲ AlertError (JStr GENERIC_MSG).
Proof.
  apply (transport_failure_generic_toast 1 (mkAxiosError (Some "ECONNABORTED") None req_bills)
           initial_guard (@mount nat)).
  left. reflexivity.
Defined.

Lemma requests_never_stop_witness :
  isLoading (goToPage 2 (@mount nat)) = true /\
  In (currentPage (goToPage 2 (@mount nat))) (inflight (goToPage 2 (@mount nat))) /\
  forall page r, In page (inflight (goToPage 2 (@mount nat))) ->
    (length (inflight (goToPage 2 (@mount nat)))
       <= length (inflight (fetchData_resume page r (goToPage 2 (@mount nat)))))%nat.
Proof. apply requests_never_stop, star_one, hs_goto. Defined.

End PaginatedFetch.
