(* ===== verification/DateHelpers.v ===== *)
(** * The default report month: [getDefaultMonth] of [src/frontend/src/utils/dateHelpers.ts]

    It reads the current year, month (0 for January) and day, and returns
    ["YYYY-MM"]: the current month after the 15th, the previous month
    otherwise, the previous month computed by [new Date(year, month - 1, 1)],
    which carries a month of -1 into December of the previous year.
    [String(n)] of an integer is stdpp's [pretty]. *)

From stdpp Require Import base list strings pretty.
From Stdlib Require Import ZArith Lia Ascii.
From S2P Require Import Spec2Rocq.

Open Scope Z_scope.

Module DateHelpers.

(** [new Date(year, month, 1)]: [getFullYear()] and [getMonth()] of the
    date, a month outside [0..11] carrying into the year. *)
Definition date_year_month (year month : Z) : Z * Z :=
  (year + month / 12, month mod 12).

Fixpoint zeros (n : nat) : string :=
  match n with O => "" | S k => String "0"%char (zeros k) end.

(** [s.padStart(2, "0")]. *)
Definition padStart2 (s : string) : string := zeros (2 - String.length s) +:+ s.

(** [`${year}-${String(month).padStart(2, "0")}`] *)
Definition year_month (year month : Z) : string :=
  pretty year +:+ "-" +:+ padStart2 (pretty month).

Definition getDefaultMonth (year month day : Z) : string :=
  if day >? 15 then year_month year (month + 1)
  else let '(prevYear, prevMonth0) := date_year_month year (month - 1) in
       year_month prevYear (prevMonth0 + 1).

(** ** Properties *)

(** The year and month the function reports, as the comment in the
    source states them. *)
Definition report_month (year month day : Z) : Z * Z :=
  if day >? 15 then (year, month + 1)
  else if month =? 0 then (year - 1, 12) else (year, month).

Lemma date_year_month_prev year month :
  0 <= month <= 11 ->
  date_year_month year (month - 1) = if month =? 0 then (year - 1, 11) else (year, month - 1).
Proof.
  intros Hm. unfold date_year_month. destruct (Z.eqb_spec month 0) as [->|Hne].
  - reflexivity.
  - rewrite Z.div_small, Z.mod_small by lia. f_equal. lia.
Qed.

(** C40. For a month of the year (0 to 11), the function reports the
    current month after the 15th and the previous one up to the 15th,
    January falling back to December of the previous year; the reported
    month is always between 1 and 12. *)
Theorem getDefaultMonth_spec year month day :
  0 <= month <= 11 ->
  getDefaultMonth year month day =
    year_month (fst (report_month year month day)) (snd (report_month year month day)) /\
  1 <= snd (report_month year month day) <= 12.
Proof.
  intros Hm. unfold getDefaultMonth, report_month.
  destruct (day >? 15); [split; [reflexivity | simpl; lia]|].
  rewrite date_year_month_prev by exact Hm.
  destruct (Z.eqb_spec month 0) as [->|Hne]; simpl; split; try reflexivity; try lia.
  f_equal. lia.
Qed.

(** The month field always has two digits: [padStart] turns the
    months 1 to 9 into ["01"] to ["09"] and leaves 10 to 12 as they are. *)
Theorem month_field_two_digits m :
  1 <= m <= 12 ->
  String.length (padStart2 (pretty m)) = 2%nat /\
  (m < 10 -> padStart2 (pretty m) = "0" +:+ pretty m).
Proof.
  intros Hm.
  assert (m = 1 \/ m = 2 \/ m = 3 \/ m = 4 \/ m = 5 \/ m = 6 \/ m = 7 \/ m = 8 \/
          m = 9 \/ m = 10 \/ m = 11 \/ m = 12) as Hcases by lia.
  destruct_or! Hcases; subst m; split; try reflexivity; intros; try lia.
Qed.

(** ** Concrete runs *)

Lemma getDefaultMonth_spec_witness :
  getDefaultMonth 2025 0 10 = year_month 2024 12 /\ year_month 2024 12 = "2024-12".
Proof.
  split; [|reflexivity].
  destruct (getDefaultMonth_spec 2025 0 10) as [H _]; [lia | exact H].
Defined.

Lemma month_field_two_digits_witness : padStart2 (pretty 7) = "07".
Proof. apply (month_field_two_digits 7); lia. Defined.

End DateHelpers.
