(* ===== verification/Camera.v ===== *)
(** * The camera hook: [src/frontend/src/hooks/useCamera.ts]

    The hook holds the current media stream in [streamRef], mirrors it in
    the [video] element and in the [isStreaming] flag, and keeps the last
    error text. Streams are named by numbers; [live] lists the streams
    whose tracks have been acquired and not stopped (the camera is in use
    while it is non-empty). [startCamera] is split at its [await]: the
    request for a stream, then its resolution with a fresh stream or its
    rejection with an error. [pending] counts the requests in flight.
    [capturePhoto] takes the canvas's answers (a 2D context, a blob) and
    [Date.now()] as inputs. The [video] and [canvas] elements are taken as
    mounted. *)

From stdpp Require Import base list strings pretty.
From Stdlib Require Import ZArith.
From S2P Require Import Spec2Rocq.

Module Camera.

(** What [getUserMedia] rejects with: a [DOMException] with its [name], or
    anything else. *)
Inductive CameraError := DomException (name : string) | OtherError.

Definition PERMISSION_MSG : string :=
  "Camera permission was denied. Please allow camera access in your browser settings.".
Definition NO_CAMERA_MSG : string :=
  "No camera found. Please ensure a camera is connected and enabled.".
Definition DEVICE_MSG : string :=
  "Could not start camera. Please check your device and permissions.".
Definition UNEXPECTED_MSG : string :=
  "An unexpected error occurred while accessing the camera.".

Definition camera_error_message (e : CameraError) : string :=
  match e with
  | DomException n =>
      if String.eqb n "NotAllowedError" || String.eqb n "PermissionDeniedError" then PERMISSION_MSG
      else if String.eqb n "NotFoundError" || String.eqb n "DevicesNotFoundError" then NO_CAMERA_MSG
      else DEVICE_MSG
  | OtherError => UNEXPECTED_MSG
  end.

Record CameraState := mkCamera {
  streamRef : option nat;
  videoSrc : option nat;
  isStreaming : bool;
  error : option string;
  live : list nat;
  pending : nat
}.

Definition initial_camera : CameraState := mkCamera None None false None [] 0.

(** [stream.getTracks().forEach((track) => track.stop())] *)
Definition stop_tracks (s : nat) (l : list nat) : list nat := List.filter (fun x => negb (Nat.eqb x s)) l.

(** [startCamera] up to [await getUserMedia(constraints)]: the previous
    stream's tracks are stopped (the ref still names it), the error is
    reset. *)
Definition startCamera_request (c : CameraState) : CameraState :=
  let l := match streamRef c with Some s => stop_tracks s (live c) | None => live c end in
  mkCamera (streamRef c) (videoSrc c) (isStreaming c) None l (S (pending c)).

(** [getUserMedia] resolved with the fresh stream [fresh]. *)
Definition startCamera_resolve (fresh : nat) (c : CameraState) : CameraState :=
  mkCamera (Some fresh) (Some fresh) true (error c) (fresh :: live c) (pred (pending c)).

(** [getUserMedia] rejected with [e]. *)
Definition startCamera_reject (e : CameraError) (c : CameraState) : CameraState :=
  mkCamera None (videoSrc c) false (Some (camera_error_message e)) (live c) (pred (pending c)).

(** [stopCamera], also the cleanup of the unmount effect. *)
Definition stopCamera (c : CameraState) : CameraState :=
  let l := match streamRef c with Some s => stop_tracks s (live c) | None => live c end in
  mkCamera None None false (error c) l (pending c).

(** The cleanup of the effect at lines 99-103, run on unmount. *)
Definition cleanup (c : CameraState) : CameraState := stopCamera c.

(** What the promise [capturePhoto()] settles with. *)
Inductive CaptureResult :=
| CapturedFile (name mime : string)   (** resolved with a [File] *)
| NoCapture                           (** resolved with [null] *)
| CaptureError (msg : string).        (** rejected with an [Error] *)

(** [capturePhoto()] with the platform's answers: whether
    [canvas.getContext("2d")] gives a context, whether [canvas.toBlob]
    gives a blob, and [Date.now()]. *)
Definition capturePhoto (c : CameraState) (has_context has_blob : bool) (now : Z) : CaptureResult :=
  match streamRef c with
  | Some _ =>
      if has_context then
        if has_blob then CapturedFile ("reading-" +:+ pretty now +:+ ".jpeg") "image/jpeg"
        else CaptureError "Could not create blob from canvas."
      else CaptureError "Could not get 2D context from canvas."
  | None => NoCapture
  end.

(** Any interleaving: a new request may start while another is pending. *)
Inductive camera_step : CameraState -> CameraState -> Prop :=
| cs_request c : camera_step c (startCamera_request c)
| cs_resolve fresh c : (0 < pending c)%nat -> ~ In fresh (live c) ->
    camera_step c (startCamera_resolve fresh c)
| cs_reject e c : (0 < pending c)%nat -> camera_step c (startCamera_reject e c)
| cs_stop c : camera_step c (stopCamera c).

(** Sequential use: [startCamera] is not called again before it settled. *)
Inductive sequential_step : CameraState -> CameraState -> Prop :=
| ss_request c : pending c = 0%nat -> sequential_step c (startCamera_request c)
| ss_resolve fresh c : (0 < pending c)%nat -> ~ In fresh (live c) ->
    sequential_step c (startCamera_resolve fresh c)
| ss_reject e c : (0 < pending c)%nat -> sequential_step c (startCamera_reject e c)
| ss_stop c : sequential_step c (stopCamera c).

(** ** Properties *)

Definition camera_inv (c : CameraState) : Prop :=
  (pending c <> 0 -> live c = [])%nat /\
  (forall s, In s (live c) -> streamRef c = Some s) /\
  (pending c <= 1)%nat.

Lemma stop_tracks_only s l : (forall x, In x l -> x = s) -> stop_tracks s l = [].
Proof.
  induction l as [|x l IH]; intros Hall; [reflexivity|]. simpl.
  rewrite (Hall x (or_introl eq_refl)), Nat.eqb_refl. apply IH. intros y Hy. apply Hall. right. exact Hy.
Qed.

Lemma held_streams_stopped c :
  (forall s, In s (live c) -> streamRef c = Some s) ->
  match streamRef c with Some s => stop_tracks s (live c) | None => live c end = [].
Proof.
  intros Hheld. destruct (streamRef c) as [r|] eqn:Er.
  - apply stop_tracks_only. intros x Hx. apply Hheld in Hx. congruence.
  - destruct (live c) as [|x l] eqn:El; [reflexivity|].
    discriminate (Hheld x (or_introl eq_refl)).
Qed.

Lemma sequential_step_inv c c' : camera_inv c -> sequential_step c c' -> camera_inv c'.
Proof.
  intros (Hp & Hheld & Hle) Hstep. unfold camera_inv.
  destruct Hstep as [c Hz | fresh c Hpos Hfresh | e c Hpos | c]; simpl.
  - rewrite (held_streams_stopped c Hheld). repeat split; try lia. intros s [].
  - rewrite (Hp ltac:(lia)). repeat split; try lia. intros s [<- | []]. reflexivity.
  - rewrite (Hp ltac:(lia)). repeat split; try lia. intros s [].
  - rewrite (held_streams_stopped c Hheld). repeat split; auto. intros s [].
Qed.

(** A photo can be taken only of a running stream: after [stopCamera],
    the unmount cleanup or a failed start, [capturePhoto] resolves with
    [null] whatever the canvas does. *)
Lemma capture_without_stream c hc hb now :
  capturePhoto (stopCamera c) hc hb now = NoCapture /\
  capturePhoto (cleanup c) hc hb now = NoCapture /\
  (forall e, capturePhoto (startCamera_reject e c) hc hb now = NoCapture).
Proof. repeat split. Qed.

(** C38. When [startCamera] is not re-entered before it settles, the hook
    never loses track of a stream: every live stream is the one in
    [streamRef], so [stopCamera] (or unmounting) releases the camera
    completely. *)
Theorem sequential_use_no_leak c :
  star sequential_step initial_camera c -> live (stopCamera c) = [].
Proof.
  intros Hrun.
  assert (Hinv : camera_inv c).
  { eapply star_invariant; [exact sequential_step_inv | exact Hrun |].
    unfold camera_inv. simpl. repeat split; try lia; intros s []. }
  destruct Hinv as (_ & Hheld & _). apply held_streams_stopped, Hheld.
Qed.

(** C39. What modelling showed: two overlapping calls of [startCamera]
    (a double click, or an effect run twice) acquire two streams; the
    second overwrites [streamRef] without stopping the first, and
    [stopCamera] then leaves the first stream running. *)
Theorem overlapping_start_leaks :
  let c := startCamera_resolve 2 (startCamera_resolve 1
             (startCamera_request (startCamera_request initial_camera))) in
  star camera_step initial_camera c /\ live (stopCamera c) = [1%nat].
Proof.
  split; [|reflexivity].
  eapply star_step; [apply cs_request|].
  eapply star_step; [apply cs_request|].
  eapply star_step; [apply (cs_resolve 1); simpl; [lia | tauto]|].
  eapply star_step; [apply (cs_resolve 2); simpl; [lia | intros [H | H]; [lia | exact H]]|].
  apply star_refl.
Qed.

(** ** Concrete runs *)

Lemma sequential_use_no_leak_witness :
  live (stopCamera (startCamera_resolve 3 (startCamera_request initial_camera))) = [].
Proof.
  apply sequential_use_no_leak.
  eapply star_step; [apply ss_request; reflexivity|].
  eapply star_step; [apply (ss_resolve 3); simpl; [lia | tauto]|].
  apply star_refl.
Defined.

End Camera.
