(* ===== verification/Formatters.v ===== *)
(** * Display formatters: [src/frontend/src/utils/formatters.ts]

    [formatNumber], [formatCurrency], [formatDate] and [formatBoolean]
    turn a possibly missing value into display text, ["-"] standing for a
    missing or unreadable value. The conversions and the locale-aware
    formatting are the platform's ([Number(string)], [Date.parse],
    [Intl.NumberFormat], [Intl.DateTimeFormat]); they are the variables of
    the section [Platform], so every theorem holds whatever the browser's
    locale data. A constructor of [Intl] that throws a [RangeError] (an
    unknown currency code, an unknown locale, too many fraction digits)
    is [None]; a helper whose result is [None] throws. JavaScript numbers
    are [JsNumber]: a finite rational, [NaN] or an infinity. *)

From stdpp Require Import base list strings.
From Stdlib Require Import QArith Qabs.
From S2P Require Import Spec2Rocq.

Module Formatters.

Inductive JsNumber := Fin (q : Q) | NaN | Inf (positive : bool).

Definition isNaN (n : JsNumber) : bool := match n with NaN => true | _ => false end.

(** [value: number | string | undefined | null]. *)
Inductive Input := INum (n : JsNumber) | IStr (s : string) | IUndefined | INull.

(** [date: Date | string | number | null | undefined]; a [Date] object
    holds its time value. *)
Inductive DateInput := DDate (t : JsNumber) | DStr (s : string) | DNum (n : JsNumber) | DNull | DUndefined.

(** The options the helpers give [Intl.NumberFormat]: the currency
    ([style: "currency"], its code and whether [currencyDisplay] is
    ["symbol"]) if any, then the minimum and maximum fraction digits. *)
Record NumberFormatOptions := mkNFO {
  currency_style : option (string * bool);
  minimumFractionDigits : nat;
  maximumFractionDigits : nat
}.

(** [TimeClip] of a number given to [new Date(number)]: finite values up
    to 8.64e15 milliseconds in magnitude, truncated; [NaN] otherwise. *)
Definition TimeClip (n : JsNumber) : JsNumber :=
  match n with
  | Fin q => if Qle_bool (Qabs q) (8640000000000000 # 1)
             then Fin (Z.quot (Qnum q) (Zpos (Qden q)) # 1) else NaN
  | _ => NaN
  end.

(** [!date]: [null], [undefined], [""], [0] and [NaN] are falsy, a [Date]
    object never is. *)
Definition date_falsy (d : DateInput) : bool :=
  match d with
  | DNull | DUndefined => true
  | DStr s => String.eqb s ""
  | DNum (Fin q) => Qeq_bool q 0
  | DNum NaN => true
  | DNum (Inf _) | DDate _ => false
  end.

Section Platform.

(** [Number(s)] of a string. *)
Variable Number_of_string : string -> JsNumber.
(** [Date.parse(s)], what [new Date(s)] holds. *)
Variable Date_parse : string -> JsNumber.
(** [new Intl.NumberFormat(locale, options).format]; [None] when the
    constructor throws. *)
Variable NumberFormat : string -> NumberFormatOptions -> option (JsNumber -> string).
(** [new Intl.DateTimeFormat(locale, {year: "numeric", month: "short",
    day: "2-digit"}).format] of a valid time value. *)
Variable DateTimeFormat : string -> option (Q -> string).

(** [Number(value)] for the values that pass the guards. *)
Definition Number (v : Input) : JsNumber :=
  match v with
  | INum n => n
  | IStr s => Number_of_string s
  | IUndefined => NaN
  | INull => Fin 0
  end.

(** [value === undefined || value === null || value === ""]. *)
Definition missing (v : Input) : bool :=
  match v with
  | IUndefined | INull => true
  | IStr s => String.eqb s ""
  | INum _ => false
  end.

Definition formatNumber (value : Input) (decimals : nat) (locale : string) : option string :=
  if missing value then Some "-"
  else let num := Number value in
  if isNaN num then Some "-"
  else match NumberFormat locale (mkNFO None decimals decimals) with
       | Some format => Some (format num)
       | None => None
       end.

(** The [try] block, and on a [RangeError] the fallback for currency
    codes [Intl] rejects, whose own [RangeError] is not caught. *)
Definition formatCurrency (amount : Input) (currency locale : string) (showSymbol : bool)
  : option string :=
  if missing amount then Some "-"
  else let num := Number amount in
  if isNaN num then Some "-"
  else match NumberFormat locale (mkNFO (Some (currency, showSymbol)) 0 0) with
       | Some format => Some (format num)
       | None =>
           match formatNumber (INum num) 2 locale with
           | Some formatted => Some (if showSymbol then formatted +:+ " " +:+ currency else formatted)
           | None => None
           end
       end.

(** [new Date(date)]: its time value. *)
Definition new_Date (d : DateInput) : JsNumber :=
  match d with
  | DDate t => t
  | DStr s => Date_parse s
  | DNum n => TimeClip n
  | DNull => Fin 0
  | DUndefined => NaN
  end.

Definition formatDate (date : DateInput) (locale : string) : option string :=
  if date_falsy date then Some "-"
  else match new_Date date with
       | Fin t => match DateTimeFormat locale with Some format => Some (format t) | None => None end
       | _ => Some "-"
       end.

End Platform.

(** [value: boolean | null | undefined]: [None] for both absent values. *)
Definition formatBoolean (value : option bool) (yesText noText : string) : string :=
  match value with
  | None => "-"
  | Some b => if b then yesText else noText
  end.

(** ** Properties *)

Section Properties.
Context (Number_of_string Date_parse : string -> JsNumber)
        (NumberFormat : string -> NumberFormatOptions -> option (JsNumber -> string))
        (DateTimeFormat : string -> option (Q -> string)).

Let formatCurrency' := formatCurrency Number_of_string NumberFormat.

(** [formatCurrency] answers ["-"] for a missing or unreadable
    amount, formats it with [Intl] when [Intl] accepts the currency, and
    otherwise falls back to the two-decimal number followed by the code
    (the code alone without the symbol); it throws only when the locale's
    plain two-decimal format is rejected too. *)
Theorem formatCurrency_spec amount currency locale showSymbol :
  formatCurrency' amount currency locale showSymbol =
  if missing amount || isNaN (Number Number_of_string amount) then Some "-"
  else match NumberFormat locale (mkNFO (Some (currency, showSymbol)) 0 0),
             NumberFormat locale (mkNFO None 2 2) with
       | Some format, _ => Some (format (Number Number_of_string amount))
       | None, Some format =>
           Some (if showSymbol then format (Number Number_of_string amount) +:+ " " +:+ currency
                 else format (Number Number_of_string amount))
       | None, None => None
       end.
Proof.
  unfold formatCurrency', formatCurrency, formatNumber. simpl.
  destruct (missing amount); [reflexivity|].
  destruct (isNaN (Number Number_of_string amount)) eqn:Hn; [reflexivity|].
  destruct (NumberFormat locale (mkNFO (Some (currency, showSymbol)) 0 0)); [reflexivity|].
  destruct (NumberFormat locale (mkNFO None 2 2)); reflexivity.
Qed.

(** What modelling showed: [formatDate] tests [!date] before
    parsing, so the timestamp [0] (1 January 1970, a valid date) is shown
    as ["-"], as if it were missing, while the same instant given as a
    [Date] object is formatted. *)
Theorem formatDate_epoch_shown_missing locale format :
  DateTimeFormat locale = Some format ->
  formatDate Date_parse DateTimeFormat (DNum (Fin 0)) locale = Some "-" /\
  new_Date Date_parse (DNum (Fin 0)) = Fin 0 /\
  formatDate Date_parse DateTimeFormat (DDate (Fin 0)) locale = Some (format 0).
Proof. intros Hf. unfold formatDate. simpl. rewrite Hf. repeat split. Qed.

End Properties.

(** ** Concrete runs *)

(** A platform whose locale ["en-US"] formats every instant as the epoch. *)
Definition epoch_format (locale : string) : option (Q -> string) :=
  if String.eqb locale "en-US" then Some (fun _ => "Jan 01, 1970") else None.

Lemma formatDate_epoch_shown_missing_witness :
  formatDate (fun _ => NaN) epoch_format (DNum (Fin 0)) "en-US" = Some "-" /\
  new_Date (fun _ => NaN) (DNum (Fin 0)) = Fin 0 /\
  formatDate (fun _ => NaN) epoch_format (DDate (Fin 0)) "en-US" = Some "Jan 01, 1970".
Proof.
  apply (formatDate_epoch_shown_missing (fun _ => NaN) epoch_format "en-US" (fun _ => "Jan 01, 1970")).
  reflexivity.
Defined.

End Formatters.
