(* ===== verification/Direction.v ===== *)
(** * Text direction and the Bootstrap stylesheet

    Four places react to the language [i18n.language]:
    - the effect of [App] ([src/frontend/src/App.tsx]) sets the document's
      [dir] to ["rtl"] exactly when the language is ["ar"], sets [lang],
      and [loadBootstrap] puts the matching Bootstrap stylesheet, a
      [<link id="bootstrap-css">], in the document's head;
    - the effects of [Layout] ([components/layout/Layout.tsx]) and of
      [Header] ([components/layout/Header.tsx]) set [dir] to
      [i18n.dir(i18n.language)], and [Layout] toggles the body class
      ["rtl"];
    - [AppSidebar] puts the sidebar on the right when [i18n.dir()] is
      ["rtl"] and, like [LanguageSwitcher], labels the language English
      exactly when it is ["en"].
    [i18n.dir] is i18next's: ["rtl"] for the languages of its list
    [rtlLngs] (compared on the part before the first ["-"]) and for
    scripts [-arab]. Without an argument it reads the resolved language,
    the first of the language, its language part and the fallback ["en"]
    that has translations ([en] and [ar], [src/frontend/src/i18n/i18n.ts]).

    Before [App] runs, the head already holds the stylesheets [main.tsx]
    imports, among them Bootstrap's left-to-right [bootstrap.min.css]
    ([main_head]); [bootstrap_dir] tells the Bootstrap stylesheets of a
    head and their direction.

    React runs the effects of a commit children first: [Header], then
    [Layout], then [App]. [Layout] and [Header] are mounted only inside
    the protected routes, so [Shell] records whether they are. *)

From stdpp Require Import base list strings.
From Stdlib Require Import Ascii.
From S2P Require Import Spec2Rocq.

Module Direction.

Inductive Dir := LTR | RTL.

#[global] Instance Dir_eq_dec : EqDecision Dir.
Proof. solve_decision. Defined.

(** ** i18next *)

Definition rtlLngs : list string :=
  ["ar"; "shu"; "sqr"; "ssh"; "xaa"; "yhd"; "yud"; "aao"; "abh"; "abv"; "acm"; "acq"; "acw";
   "acx"; "acy"; "adf"; "ads"; "aeb"; "aec"; "afb"; "ajp"; "apc"; "apd"; "arb"; "arq"; "ars";
   "ary"; "arz"; "auz"; "avl"; "ayh"; "ayl"; "ayn"; "ayp"; "bbz"; "pga"; "he"; "iw"; "ps";
   "pbt"; "pbu"; "pst"; "prp"; "prd"; "ug"; "ur"; "ydd"; "yds"; "yih"; "ji"; "yi"; "hbo";
   "men"; "xmn"; "fa"; "jpr"; "peo"; "pes"; "prs"; "dv"; "sam"; "ckb"].

Definition str_in (l : list string) (x : string) : bool := existsb (String.eqb x) l.

(** [languageUtils.getLanguagePartFromCode(code)]. *)
Definition getLanguagePartFromCode (code : string) : string :=
  match str_indexOf code "-" with
  | None => code
  | Some _ => hd EmptyString (str_split "-"%char code)
  end.

(** [i18n.dir(lng)] for a non-empty [lng]. *)
Definition dir_of (lng : string) : Dir :=
  if str_in rtlLngs (getLanguagePartFromCode lng) then RTL
  else match str_indexOf (str_toLowerCase lng) "-arab" with
       | Some i => if (1 <? i)%nat then RTL else LTR
       | None => LTR
       end.

(** The languages [i18n.ts] has translations for. *)
Definition resources : list string := ["en"; "ar"].

(** [i18n.resolvedLanguage]. *)
Definition resolvedLanguage (language : string) : string :=
  if str_in resources language then language
  else let part := getLanguagePartFromCode language in
       if str_in resources part then part else "en".

(** [i18n.dir(arg)]: an absent or empty argument reads the resolved
    language. *)
Definition i18n_dir (language : string) (arg : option string) : Dir :=
  let lng := match arg with
             | Some l => if String.eqb l "" then resolvedLanguage language else l
             | None => resolvedLanguage language
             end in
  if String.eqb lng "" then RTL else dir_of lng.

(** ** The document *)

Record Link := mkLink { link_id : string; link_href : string; link_integrity : string }.

Record Document := mkDocument {
  dir : Dir;               (** [document.documentElement.dir] *)
  lang : string;           (** [document.documentElement.lang] *)
  body_rtl : bool;         (** [document.body.classList] holds ["rtl"] *)
  head : list Link         (** The stylesheets of [document.head], in order *)
}.

Definition BOOTSTRAP_ID : string := "bootstrap-css".
Definition LTR_HREF : string := "https://cdn.jsdelivr.net/npm/bootstrap@5.3.2/dist/css/bootstrap.min.css".
Definition RTL_HREF : string := "https://cdn.jsdelivr.net/npm/bootstrap@5.3.2/dist/css/bootstrap.rtl.min.css".
Definition LTR_INTEGRITY : string := "sha384-T3c6CoIi6uLrA9TneNEoa7RxnatzjcDSCmG1MXxSR1GAsXEV/Dwwykc2MPK8M2HN".
Definition RTL_INTEGRITY : string := "sha384-nU14brUcp6StFntEOOEBvcJm4huWjB0OcIeQ3flBFcfYI4ma8GM6LCA30GASuA8g".

Definition expected_href (d : Dir) : string := match d with RTL => RTL_HREF | LTR => LTR_HREF end.

(** The [link] element [loadBootstrap] creates. *)
Definition bootstrap_link (d : Dir) : Link :=
  match d with
  | RTL => mkLink BOOTSTRAP_ID RTL_HREF RTL_INTEGRITY
  | LTR => mkLink BOOTSTRAP_ID LTR_HREF LTR_INTEGRITY
  end.

Definition is_bootstrap (l : Link) : bool := String.eqb (link_id l) BOOTSTRAP_ID.

(** [document.getElementById("bootstrap-css")]: the first in document
    order. *)
Definition getElementById (h : list Link) : option Link := List.find is_bootstrap h.

(** [existingLink.remove()]: that first element leaves the head. *)
Fixpoint remove_first (h : list Link) : list Link :=
  match h with
  | [] => []
  | l :: h' => if is_bootstrap l then h' else l :: remove_first h'
  end.

Definition loadBootstrap (d : Dir) (h : list Link) : list Link :=
  match getElementById h with
  | Some existing =>
      if String.eqb (link_href existing) (expected_href d) then h
      else remove_first h ⊲ bootstrap_link d
  | None => h ⊲ bootstrap_link d
  end.

(** ** The effects *)

(** [i18n.language === "ar" ? "rtl" : "ltr"]. *)
Definition app_dir (language : string) : Dir := if String.eqb language "ar" then RTL else LTR.

Definition App_effect (language : string) (doc : Document) : Document :=
  mkDocument (app_dir language) language (body_rtl doc) (loadBootstrap (app_dir language) (head doc)).

Definition Layout_effect (language : string) (doc : Document) : Document :=
  let d := i18n_dir language (Some language) in
  mkDocument d language (bool_decide (d = RTL)) (head doc).

Definition Header_effect (language : string) (doc : Document) : Document :=
  mkDocument (i18n_dir language (Some language)) language (body_rtl doc) (head doc).

(** [AppSidebar]'s [side]: ["right"] when [isRtl]. *)
Definition sidebar_right (language : string) : bool := bool_decide (i18n_dir language None = RTL).

(** The translation key of the language label of [AppSidebar] and
    [LanguageSwitcher]. *)
Definition language_label (language : string) : string :=
  if String.eqb language "en" then "common.english" else "common.arabic".

(** ** The shell *)

Record Shell := mkShell {
  language : string;       (** [i18n.language] *)
  layout_mounted : bool;   (** [Layout], [Header] and [AppSidebar] are rendered *)
  document : Document
}.

(** The first commit of [App] with the detected language, before any
    protected page is shown. *)
Definition boot (detected : string) (doc : Document) : Shell :=
  mkShell detected false (App_effect detected doc).

(** [i18n.changeLanguage(lang)]: every effect depending on the language
    runs again, children first. *)
Definition changeLanguage (lng : string) (s : Shell) : Shell :=
  let doc := if layout_mounted s then Layout_effect lng (Header_effect lng (document s)) else document s in
  mkShell lng (layout_mounted s) (App_effect lng doc).

(** A protected page is shown: [Header]'s and [Layout]'s effects run on
    mount, [App]'s does not (its dependency did not change). *)
Definition mountLayout (s : Shell) : Shell :=
  mkShell (language s) true (Layout_effect (language s) (Header_effect (language s) (document s))).

(** Leaving the protected pages; the effects have no cleanup. *)
Definition unmountLayout (s : Shell) : Shell := mkShell (language s) false (document s).

(** The language can be changed only from the menus, to ["en"] or ["ar"]. *)
Inductive shell_step : Shell -> Shell -> Prop :=
| sh_change lng s : lng = "en" \/ lng = "ar" -> shell_step s (changeLanguage lng s)
| sh_mount s : layout_mounted s = false -> shell_step s (mountLayout s)
| sh_unmount s : layout_mounted s = true -> shell_step s (unmountLayout s).

(** ** The stylesheets of the page

    [main.tsx] imports [bootstrap/dist/css/bootstrap.min.css], Bootstrap's
    left-to-right stylesheet, which the bundler puts in the head before
    [App] runs, together with [index.css]. [bootstrap_dir] tells which
    entries of the head are Bootstrap stylesheets, and of which
    direction. *)
Definition BUNDLED_BOOTSTRAP : string := "bootstrap/dist/css/bootstrap.min.css".

Definition main_head : list Link := [mkLink "" BUNDLED_BOOTSTRAP ""; mkLink "" "index.css" ""].

Definition main_document : Document := mkDocument LTR "" false main_head.

Definition bootstrap_dir (l : Link) : option Dir :=
  if String.eqb (link_href l) RTL_HREF then Some RTL
  else if String.eqb (link_href l) LTR_HREF || String.eqb (link_href l) BUNDLED_BOOTSTRAP then Some LTR
  else None.

Definition bootstrap_dirs (h : list Link) : list Dir := omap bootstrap_dir h.

(** ** Lemmas *)

Lemma bootstrap_link_is d : is_bootstrap (bootstrap_link d) = true.
Proof. destruct d; reflexivity. Qed.

Lemma bootstrap_link_dir d : bootstrap_dir (bootstrap_link d) = Some d.
Proof. destruct d; reflexivity. Qed.

Lemma expected_href_inj d d0 :
  String.eqb (link_href (bootstrap_link d0)) (expected_href d) = true -> d0 = d.
Proof. destruct d, d0; vm_compute; congruence. Qed.

Lemma find_none_app rest x :
  List.filter is_bootstrap rest = [] -> List.find is_bootstrap (rest ++ [x]) = List.find is_bootstrap [x].
Proof. rewrite !find_filter_head, List.filter_app. intros ->. reflexivity. Qed.

Lemma remove_first_none h : List.filter is_bootstrap h = [] -> remove_first h = h.
Proof.
  induction h as [|l h IH]; simpl; [reflexivity|].
  destruct (is_bootstrap l); [discriminate|]. intros H. rewrite (IH H). reflexivity.
Qed.

Lemma remove_first_app_none rest x :
  List.filter is_bootstrap rest = [] -> remove_first (rest ++ x) = rest ++ remove_first x.
Proof.
  induction rest as [|l rest IH]; simpl; [reflexivity|].
  destruct (is_bootstrap l); [discriminate|]. intros H. rewrite (IH H). reflexivity.
Qed.

(** On a head without a [#bootstrap-css] link, [loadBootstrap] appends
    one; on a head ending with the one it created, it replaces it by the
    link of the requested direction, at the end. *)
Lemma loadBootstrap_fresh d h :
  List.filter is_bootstrap h = [] -> loadBootstrap d h = h ⊲ bootstrap_link d.
Proof.
  intros H. unfold loadBootstrap, getElementById. rewrite find_filter_head, H. reflexivity.
Qed.

Lemma loadBootstrap_replace d d0 rest :
  List.filter is_bootstrap rest = [] ->
  loadBootstrap d (rest ⊲ bootstrap_link d0) = rest ⊲ bootstrap_link d.
Proof.
  intros H. unfold loadBootstrap, getElementById. rewrite (find_none_app _ _ H). simpl.
  rewrite bootstrap_link_is.
  destruct (String.eqb (link_href (bootstrap_link d0)) (expected_href d)) eqn:E.
  - apply expected_href_inj in E. subst d0. reflexivity.
  - rewrite (remove_first_app_none _ _ H). simpl. rewrite bootstrap_link_is, app_nil_r. reflexivity.
Qed.

(** For the two languages of the menus, i18next agrees with [App]. *)
Lemma i18n_dir_menus lng :
  lng = "en" \/ lng = "ar" -> i18n_dir lng (Some lng) = app_dir lng /\ i18n_dir lng None = app_dir lng.
Proof. intros [-> | ->]; split; reflexivity. Qed.

(** The effects of [Layout] and [Header] leave the head alone. *)
Lemma layout_effects_head lng doc (b : bool) :
  head (if b then Layout_effect lng (Header_effect lng doc) else doc) = head doc.
Proof. destruct b; reflexivity. Qed.

(** The head is the page's own head followed by [App]'s link for the
    current language. *)
Definition head_inv (rest : list Link) (s : Shell) : Prop :=
  head (document s) = rest ⊲ bootstrap_link (app_dir (language s)).

Lemma shell_step_head rest s s' :
  List.filter is_bootstrap rest = [] -> head_inv rest s -> shell_step s s' -> head_inv rest s'.
Proof.
  intros Hr Hh Hstep. unfold head_inv in *.
  destruct Hstep as [lng s _ | s _ | s _]; simpl; [|exact Hh | exact Hh].
  rewrite layout_effects_head, Hh. apply loadBootstrap_replace, Hr.
Qed.

Lemma reachable_head lng doc s :
  List.filter is_bootstrap (head doc) = [] ->
  star shell_step (boot lng doc) s -> head_inv (head doc) s.
Proof.
  intros Hnone Hrun. apply (star_invariant shell_step _ (fun a b => shell_step_head _ a b Hnone) _ _ Hrun).
  unfold head_inv. simpl. apply loadBootstrap_fresh, Hnone.
Qed.

Lemma bootstrap_dirs_snoc h d : bootstrap_dirs (h ⊲ bootstrap_link d) = bootstrap_dirs h ⊲ d.
Proof. unfold bootstrap_dirs. rewrite omap_app. simpl. rewrite bootstrap_link_dir. reflexivity. Qed.

Definition menu_inv (s : Shell) : Prop :=
  (language s = "en" \/ language s = "ar") /\
  (layout_mounted s = true ->
   dir (document s) = app_dir (language s) /\
   body_rtl (document s) = bool_decide (app_dir (language s) = RTL)).

Lemma shell_step_menu s s' : menu_inv s -> shell_step s s' -> menu_inv s'.
Proof.
  intros [Hl Hm] Hstep. unfold menu_inv.
  destruct Hstep as [lng s Hlng | s _ | s _]; simpl.
  - split; [exact Hlng|]. intros Hmount. rewrite Hmount. simpl.
    destruct (i18n_dir_menus lng Hlng) as [-> _]. split; reflexivity.
  - split; [exact Hl|]. intros _. destruct (i18n_dir_menus _ Hl) as [-> _]. split; reflexivity.
  - split; [exact Hl | discriminate].
Qed.

(** [i18n.dir(lng)] with the language itself as argument. *)
Lemma i18n_dir_self lng : i18n_dir lng (Some lng) = dir_of lng.
Proof.
  unfold i18n_dir. cbv zeta. destruct (String.eqb lng "") eqn:E.
  - apply String.eqb_eq in E. subst. reflexivity.
  - cbv iota. rewrite E. reflexivity.
Qed.

Lemma resolvedLanguage_cases lng : resolvedLanguage lng = "en" \/ resolvedLanguage lng = "ar".
Proof.
  unfold resolvedLanguage, str_in. simpl.
  destruct (String.eqb_spec lng "en"); [left; assumption|]. destruct (String.eqb_spec lng "ar"); [right; assumption|].
  simpl. destruct (String.eqb_spec (getLanguagePartFromCode lng) "en"); [left; assumption|].
  destruct (String.eqb_spec (getLanguagePartFromCode lng) "ar"); [right; assumption | left; reflexivity].
Qed.

(** ** Properties *)

(** C34. Whatever the language changes and page changes, the head is the
    page's own head followed by exactly one [<link id="bootstrap-css">],
    the one for the direction [App] computes from the current language.
    The Bootstrap stylesheets in force are therefore those the page
    already had followed by [App]'s: with the head [main.tsx] leaves,
    which holds the bundled left-to-right [bootstrap.min.css], they are
    the left-to-right one and then the current direction's, so a
    right-to-left page loads both. *)
Theorem one_bootstrap_stylesheet lng doc s :
  List.filter is_bootstrap (head doc) = [] ->
  star shell_step (boot lng doc) s ->
  head (document s) = head doc ⊲ bootstrap_link (app_dir (language s)) /\
  bootstrap_dirs (head (document s)) = bootstrap_dirs (head doc) ⊲ app_dir (language s).
Proof.
  intros Hnone Hrun. pose proof (reachable_head lng doc s Hnone Hrun) as Hh.
  split; [exact Hh|]. rewrite Hh. apply bootstrap_dirs_snoc.
Qed.

(** The reference behaviour [loadBootstrap] optimises: remove the link
    found and append a fresh one. *)
Definition loadBootstrap_reference (d : Dir) (h : list Link) : list Link :=
  remove_first h ⊲ bootstrap_link d.

Lemma remove_first_perm h x :
  getElementById h = Some x -> h ≡ₚ x :: remove_first h.
Proof.
  unfold getElementById. induction h as [|l h IH]; simpl; [discriminate|].
  destruct (is_bootstrap l); [intros [= ->]; reflexivity|].
  intros Hx. transitivity (l :: x :: remove_first h); [apply perm_skip, IH, Hx | apply perm_swap].
Qed.

(** C35. The early return of [loadBootstrap] ("no need to remove and
    re-add if the href is already correct") is an optimisation: on a head
    holding at most a link it created, the result has the same elements
    as removing the link and appending a fresh one, only the position of
    the kept link may differ. *)
Theorem loadBootstrap_equiv_reference d h d0 :
  List.filter is_bootstrap h = [] \/ List.filter is_bootstrap h = [bootstrap_link d0] ->
  loadBootstrap d h ≡ₚ loadBootstrap_reference d h.
Proof.
  unfold loadBootstrap, loadBootstrap_reference.
  destruct (getElementById h) as [x|] eqn:Hx.
  - destruct (String.eqb (link_href x) (expected_href d)) eqn:E; [|reflexivity].
    intros Hh. unfold getElementById in Hx. rewrite find_filter_head in Hx.
    destruct Hh as [Hh | Hh]; rewrite Hh in Hx; simpl in Hx; [discriminate|].
    injection Hx as <-. apply expected_href_inj in E. subst d0.
    rewrite (remove_first_perm h (bootstrap_link d)) at 1
      by (unfold getElementById; rewrite find_filter_head, Hh; reflexivity).
    apply Permutation_cons_append.
  - intros _. assert (Hr : remove_first h = h).
    { revert Hx. unfold getElementById. induction h as [|l h IH]; simpl; [reflexivity|].
      destruct (is_bootstrap l); [discriminate|]. intros Hx. rewrite (IH Hx). reflexivity. }
    rewrite Hr. reflexivity.
Qed.

(** C36. When the language is one of the menus' (["en"] or ["ar"]), on
    every page of the layout, after any sequence of language and page
    changes, the document's [dir], the body class, the side of the
    sidebar and [App]'s Bootstrap link agree on one direction; the
    Bootstrap stylesheets in force are those the page had before [App]
    followed by that direction's, so the bundled left-to-right
    stylesheet of [main.tsx] stays in force on right-to-left pages. *)
Theorem direction_consistent lng doc s :
  lng = "en" \/ lng = "ar" ->
  List.filter is_bootstrap (head doc) = [] ->
  star shell_step (boot lng doc) s ->
  layout_mounted s = true ->
  body_rtl (document s) = bool_decide (dir (document s) = RTL) /\
  sidebar_right (language s) = bool_decide (dir (document s) = RTL) /\
  head (document s) = head doc ⊲ bootstrap_link (dir (document s)) /\
  bootstrap_dirs (head (document s)) = bootstrap_dirs (head doc) ⊲ dir (document s).
Proof.
  intros Hlng Hnone Hrun Hm.
  pose proof (reachable_head lng doc s Hnone Hrun) as Hh. unfold head_inv in Hh.
  assert (Hinv : menu_inv s).
  { apply (star_invariant shell_step _ shell_step_menu _ _ Hrun). split; [exact Hlng | discriminate]. }
  destruct Hinv as [Hl Hd]. destruct (Hd Hm) as [Hdir ->]. rewrite Hdir.
  unfold sidebar_right. destruct (i18n_dir_menus _ Hl) as [_ ->].
  split_and!; [reflexivity | reflexivity | exact Hh |]. rewrite Hh. apply bootstrap_dirs_snoc.
Qed.

(** C37. What modelling showed: [App] compares the language with ["ar"]
    and the labels compare it with ["en"], while [Layout] asks i18next,
    which looks at the language part and at its list of right-to-left
    languages. For every language code, once a protected page is shown
    on the language the detector found, the document's direction
    differs from that of [App]'s stylesheet exactly when the code is
    right to left for i18next but not ["ar"] (["ar-LB"], ["he"], ...);
    and the menus name the language Arabic while the translations are
    English exactly when the code is not ["en"] and does not resolve to
    Arabic (["en-US"], ["fr"], ...). *)
Theorem regional_language_mismatch lng doc :
  let s := mountLayout (boot lng doc) in
  (dir (document s) <> app_dir lng <-> lng <> "ar" /\ dir_of lng = RTL) /\
  (language_label (language s) = "common.arabic" /\ resolvedLanguage lng = "en" <->
     lng <> "en" /\ resolvedLanguage lng <> "ar").
Proof.
  simpl. rewrite i18n_dir_self. unfold app_dir, language_label. split.
  - destruct (String.eqb_spec lng "ar") as [->|Har].
    + split; [intros H; exfalso; apply H; reflexivity | intros [H _]; exfalso; apply H; reflexivity].
    + destruct (dir_of lng); split.
      * intros H. exfalso. apply H. reflexivity.
      * intros [_ H]. discriminate.
      * intros _. split; [exact Har | reflexivity].
      * intros _. discriminate.
  - destruct (String.eqb_spec lng "en") as [->|Hen].
    + split; [intros [H _]; discriminate | intros [H _]; exfalso; apply H; reflexivity].
    + destruct (resolvedLanguage_cases lng) as [Hr | Hr]; rewrite Hr.
      * split; intros _; split; [exact Hen | discriminate | reflexivity | reflexivity].
      * split; intros [_ H]; [discriminate | exfalso; apply H; reflexivity].
Qed.

(** ** Concrete runs *)

Lemma one_bootstrap_stylesheet_witness :
  let s := changeLanguage "ar" (mountLayout (changeLanguage "en" (boot "ar" main_document))) in
  head (document s) = main_head ⊲ bootstrap_link (app_dir (language s)) /\
  bootstrap_dirs (head (document s)) = [LTR; RTL].
Proof.
  destruct (one_bootstrap_stylesheet "ar" main_document
              (changeLanguage "ar" (mountLayout (changeLanguage "en" (boot "ar" main_document)))))
    as [H1 H2]; [reflexivity | | split; [exact H1 | rewrite H2; reflexivity]].
  eapply star_step; [apply sh_change; left; reflexivity|].
  eapply star_step; [apply sh_mount; reflexivity|].
  eapply star_step; [apply sh_change; right; reflexivity|].
  apply star_refl.
Defined.

Lemma loadBootstrap_equiv_reference_witness :
  loadBootstrap RTL (main_head ⊲ bootstrap_link RTL) ≡ₚ
  loadBootstrap_reference RTL (main_head ⊲ bootstrap_link RTL).
Proof. apply (loadBootstrap_equiv_reference RTL _ RTL). right. reflexivity. Defined.

Lemma direction_consistent_witness :
  let s := mountLayout (changeLanguage "ar" (boot "en" main_document)) in
  body_rtl (document s) = bool_decide (dir (document s) = RTL) /\
  sidebar_right (language s) = bool_decide (dir (document s) = RTL) /\
  head (document s) = main_head ⊲ bootstrap_link (dir (document s)) /\
  bootstrap_dirs (head (document s)) = bootstrap_dirs main_head ⊲ dir (document s).
Proof.
  apply (direction_consistent "en" main_document); [left; reflexivity | reflexivity | | reflexivity].
  eapply star_step; [apply sh_change; right; reflexivity|].
  eapply star_step; [apply sh_mount; reflexivity|].
  apply star_refl.
Defined.

End Direction.
