(* ===== verification/Routing.v ===== *)
(** * The route table: [AppRoutes] of [src/frontend/src/routes/AppRoutes.tsx]

    [AppRoutes] reads the authentication context ([AuthSession.v]): it
    renders an error without a provider, a spinner while the provider is
    loading, and otherwise matches the location against the public routes
    [/login] and [/reset-password] and the protected tree under [/], whose
    children are resolved by [Navigation.resolve_child]. A location whose
    state carries a [backgroundLocation] renders that location underneath
    and the add-reading or take-photo page on top.

    React Router compares path segments without regard to case and
    ignores empty segments; [segments] does the same. A [<Navigate>] moves
    to a new location without state; [follow] renders the locations a
    chain of redirects visits, with fuel.

    [ProtectedRoute] ([src/frontend/src/routes/ProtectedRoute.tsx]) is not
    part of the sources modelled; the section [Routes] takes it as a
    variable, and the theorems assume what its name promises: it renders
    its child for a signed-in user and redirects anybody else to
    [/login]. Lazy loading ([Suspense]) shows the spinner until a page's
    code arrives and is not modelled. *)

From stdpp Require Import base list strings.
From Stdlib Require Import Ascii.
From S2P Require Import Spec2Rocq Js Navigation AuthSession.

Import Js Navigation AuthSession.

Module Routing.

(** What the main [<Routes>] renders. *)
Inductive Screen :=
| MissingContext                (** [<div>Error: Missing AuthContext</div>] *)
| FullPageSpinner
| LoginPage
| ForgotPasswordPage
| Navigate (to : string)
| Protected (child : Element).  (** [<ProtectedRoute><Layout><Outlet/></Layout></ProtectedRoute>] *)

(** The modal pages of the second [<Routes>]. *)
Inductive Overlay := AddReadingPage | CameraPage.

(** [location.pathname] and [location.state?.backgroundLocation]. *)
Record Location := mkLocation { pathname : string; backgroundLocation : option string }.

Definition segments (p : string) : list string :=
  List.filter (fun s => negb (String.eqb s "")) (map str_toLowerCase (str_split "/"%char p)).

(** [user?.role], where the code uses it only through [===] and
    [includes] with strings. *)
Definition role_of (u : jsval) : option string :=
  match opt_get u "role" with JStr r => Some r | _ => None end.

Section Routes.

Variable ProtectedRoute : AuthState -> Screen -> Screen.

(** The main [<Routes>] at the segments of a location. *)
Definition match_main (a : AuthState) (segs : list string) : Screen :=
  match segs with
  | [] => ProtectedRoute a (Protected (resolve_child (role_of (user a)) ""))
  | [seg] =>
      if String.eqb seg "login" then (if truthy (user a) then Navigate "/" else LoginPage)
      else if String.eqb seg "reset-password" then
        (if truthy (user a) then Navigate "/" else ForgotPasswordPage)
      else ProtectedRoute a (Protected (resolve_child (role_of (user a)) seg))
  | _ => ProtectedRoute a (Protected NotFoundPage)
  end.

(** The overlay [<Routes>]: [readings/add-reading/:meter_id] and
    [readings/take-photo/:meter_id]. *)
Definition overlay (loc : Location) : option Overlay :=
  match backgroundLocation loc with
  | None => None
  | Some _ =>
      match segments (pathname loc) with
      | [r; page; _] =>
          if String.eqb r "readings" then
            (if String.eqb page "add-reading" then Some AddReadingPage
             else if String.eqb page "take-photo" then Some CameraPage else None)
          else None
      | _ => None
      end
  end.

Definition AppRoutes (auth : option AuthState) (loc : Location) : Screen * option Overlay :=
  match auth with
  | None => (MissingContext, None)
  | Some a =>
      if loading a then (FullPageSpinner, None)
      else (match_main a (segments (default (pathname loc) (backgroundLocation loc))), overlay loc)
  end.

(** The screen a location finally shows after following [<Navigate>]s:
    the top-level one and the index route's relative one. [None] when the
    fuel runs out. *)
Fixpoint follow (fuel : nat) (a : AuthState) (path : string) : option Screen :=
  match fuel with
  | O => None
  | S n =>
      match fst (AppRoutes (Some a) (mkLocation path None)) with
      | Navigate to => follow n a to
      | Protected (Redirect to) => follow n a ("/" +:+ to)
      | s => Some s
      end
  end.

End Routes.

(** ** Lemmas *)

Section Properties.

Variable ProtectedRoute : AuthState -> Screen -> Screen.
Hypothesis protected_user : forall a s, truthy (user a) = true -> ProtectedRoute a s = s.
Hypothesis protected_guest : forall a s, truthy (user a) = false -> ProtectedRoute a s = Navigate "/login".

(** A screen that does not redirect. *)
Definition settled (s : Screen) : bool :=
  match s with Navigate _ | Protected (Redirect _) => false | _ => true end.

Lemma resolve_child_cases r seg :
  resolve_child r seg = Redirect (default_redirect r) \/ settled (Protected (resolve_child r seg)) = true.
Proof.
  unfold resolve_child. case_if; [left; reflexivity|].
  right. destruct (List.find _ _); [case_if|]; reflexivity.
Qed.

Lemma default_redirect_cases r : default_redirect r = "meters" \/ default_redirect r = "dashboard".
Proof. unfold default_redirect. destruct r; [case_if|]; auto. Qed.

Lemma follow_step n a path :
  loading a = false ->
  follow ProtectedRoute (S n) a path =
  match match_main ProtectedRoute a (segments path) with
  | Navigate to => follow ProtectedRoute n a to
  | Protected (Redirect to) => follow ProtectedRoute n a ("/" +:+ to)
  | s => Some s
  end.
Proof. intros Hl. simpl. rewrite Hl. reflexivity. Qed.

Lemma follow_settled n a path :
  loading a = false -> settled (match_main ProtectedRoute a (segments path)) = true ->
  follow ProtectedRoute (S n) a path = Some (match_main ProtectedRoute a (segments path)).
Proof.
  intros Hl Hs. rewrite follow_step by exact Hl.
  destruct (match_main _ _ _) as [| | | | to | [] ]; try reflexivity; discriminate.
Qed.

(** A signed-in user is sent home from the public routes, and shown a
    child of the layout otherwise; the only child that redirects is the
    index route, to the role's home page. *)
Lemma resolve_child_redirect r seg to :
  resolve_child r seg = Redirect to -> to = default_redirect r.
Proof. destruct (resolve_child_cases r seg) as [Hr | Hr]; intros Hto; rewrite Hto in Hr; [congruence | discriminate]. Qed.

Lemma match_main_user a segs :
  truthy (user a) = true ->
  match_main ProtectedRoute a segs = Navigate "/" \/
  (exists e, match_main ProtectedRoute a segs = Protected e /\
             forall to, e = Redirect to -> to = default_redirect (role_of (user a))).
Proof.
  intros Hu. unfold match_main. rewrite Hu.
  destruct segs as [|seg [|? ?]];
    [| destruct (String.eqb seg "login"); [left; reflexivity|];
       destruct (String.eqb seg "reset-password"); [left; reflexivity|] |];
    rewrite protected_user by exact Hu; right; eexists; (split; [reflexivity|]);
    [apply resolve_child_redirect | apply resolve_child_redirect | discriminate].
Qed.

Lemma match_main_guest a segs :
  truthy (user a) = false ->
  match_main ProtectedRoute a segs = LoginPage \/ match_main ProtectedRoute a segs = ForgotPasswordPage \/
  match_main ProtectedRoute a segs = Navigate "/login".
Proof.
  intros Hu. unfold match_main. rewrite Hu.
  destruct segs as [|seg [|? ?]];
    [| destruct (String.eqb seg "login"); [auto|]; destruct (String.eqb seg "reset-password"); [auto|] |];
    rewrite protected_guest by exact Hu; auto.
Qed.

Lemma resolve_child_settled r seg to :
  String.eqb seg "" = false -> resolve_child r seg <> Redirect to.
Proof. intros Hs. unfold resolve_child. rewrite Hs. destruct (List.find _ _); [case_if|]; discriminate. Qed.

Lemma segments_home r : segments ("/" +:+ default_redirect r) = [default_redirect r].
Proof. destruct (default_redirect_cases r) as [E | E]; rewrite E; reflexivity. Qed.

(** The home page shows without a further redirect. *)
Lemma follow_home_page n a :
  loading a = false -> truthy (user a) = true ->
  exists e, follow ProtectedRoute (S n) a ("/" +:+ default_redirect (role_of (user a))) = Some (Protected e) /\
            forall to, e <> Redirect to.
Proof.
  intros Hl Hu. rewrite follow_step, segments_home by exact Hl. unfold match_main.
  set (d := default_redirect (role_of (user a))).
  assert (Hd : String.eqb d "login" = false /\ String.eqb d "reset-password" = false /\ String.eqb d "" = false)
    by (subst d; destruct (default_redirect_cases (role_of (user a))) as [E | E]; rewrite E; auto).
  destruct Hd as (H1 & H2 & H3). rewrite H1, H2, protected_user by exact Hu.
  destruct (resolve_child (role_of (user a)) d) as [| | | to] eqn:Er;
    try (eexists; split; [reflexivity | discriminate]).
  exfalso. exact (resolve_child_settled _ _ to H3 Er).
Qed.

Lemma follow_home n a :
  loading a = false -> truthy (user a) = true ->
  exists e, follow ProtectedRoute (S (S n)) a "/" = Some (Protected e) /\ forall to, e <> Redirect to.
Proof.
  intros Hl Hu. rewrite follow_step by exact Hl. change (segments "/") with (@nil string). unfold match_main.
  rewrite protected_user by exact Hu. unfold resolve_child at 1. simpl String.eqb. cbv iota beta.
  apply follow_home_page; assumption.
Qed.

(** ** Properties *)

(** C25. Every location settles: following the redirects of the route
    table from any path reaches, within four renders, a screen that does
    not redirect. A visitor who is not signed in always ends on the login
    or password-reset page; a signed-in user always ends inside the
    layout, on a page, the forbidden page or the not-found page. *)
Theorem navigation_settles a path :
  loading a = false ->
  exists s, follow ProtectedRoute 4 a path = Some s /\
    (truthy (user a) = false -> s = LoginPage \/ s = ForgotPasswordPage) /\
    (truthy (user a) = true -> exists e, s = Protected e /\ forall to, e <> Redirect to).
Proof.
  intros Hl. rewrite follow_step by exact Hl. destruct (truthy (user a)) eqn:Hu.
  - destruct (match_main_user a (segments path) Hu) as [-> | (e & -> & He)].
    + destruct (follow_home 1 a Hl Hu) as (e & -> & Hne).
      eexists; split; [reflexivity|]. split; [discriminate|]. intros _. eauto.
    + destruct e as [| | | to]; try (eexists; split; [reflexivity|];
        split; [discriminate | intros _; eexists; split; [reflexivity | discriminate]]).
      rewrite (He to eq_refl). destruct (follow_home_page 2 a Hl Hu) as (e' & -> & Hne).
      eexists; split; [reflexivity|]. split; [discriminate|]. intros _. eauto.
  - destruct (match_main_guest a (segments path) Hu) as [-> | [-> | ->]];
      [eexists; split; [reflexivity|]; split; [auto | discriminate]..|].
    rewrite follow_step by exact Hl. simpl segments. unfold match_main. simpl String.eqb. cbv iota beta.
    rewrite Hu. eexists; split; [reflexivity|]. split; [auto | discriminate].
Qed.

Lemma role_of_truthy u r : role_of u = Some r -> truthy u = true.
Proof. destruct u; try discriminate; reflexivity. Qed.

(** C26. A signed-in user of one of the application's three roles who
    opens [/login] is sent, through [/], to the home page of the role
    (the meters for [user], the dashboard otherwise), and the route
    table lets that role open it. *)
Theorem login_lands_on_home a r :
  loading a = false -> role_of (user a) = Some r -> In r ["system"; "admin"; "user"] ->
  follow ProtectedRoute 3 a "/login" = Some (Protected (Page (default_redirect (Some r)))).
Proof.
  intros Hl Hr Hin. pose proof (role_of_truthy _ _ Hr) as Hu.
  rewrite follow_step by exact Hl. change (segments "/login") with ["login"]. unfold match_main at 1.
  simpl String.eqb. cbv iota beta. rewrite Hu.
  rewrite follow_step by exact Hl. change (segments "/") with (@nil string). unfold match_main at 1.
  rewrite protected_user by exact Hu. unfold resolve_child at 1. simpl String.eqb. cbv iota beta.
  rewrite follow_step, segments_home, Hr by exact Hl. unfold match_main.
  rewrite protected_user by exact Hu. rewrite Hr.
  simpl in Hin. destruct_or! Hin; subst r; reflexivity.
Qed.

End Properties.

(** ** Concrete runs *)

(** A [ProtectedRoute] that does what its name promises. *)
Definition protected_route (a : AuthState) (s : Screen) : Screen :=
  if truthy (user a) then s else Navigate "/login".

Lemma protected_route_user a s : truthy (user a) = true -> protected_route a s = s.
Proof. unfold protected_route. intros ->. reflexivity. Qed.

Lemma protected_route_guest a s : truthy (user a) = false -> protected_route a s = Navigate "/login".
Proof. unfold protected_route. intros ->. reflexivity. Qed.

Definition meter_reader : AuthState :=
  mkAuth (JObj [("username", JStr "sara"); ("role", JStr "user")]) ∅ "/" false 0 false.

Lemma navigation_settles_witness :
  exists s, follow protected_route 4 meter_reader "/login" = Some s /\
    (truthy (user meter_reader) = false -> s = LoginPage \/ s = ForgotPasswordPage) /\
    (truthy (user meter_reader) = true -> exists e, s = Protected e /\ forall to, e <> Redirect to).
Proof.
  apply (navigation_settles protected_route protected_route_user protected_route_guest). reflexivity.
Defined.

Lemma login_lands_on_home_witness :
  follow protected_route 3 meter_reader "/login" = Some (Protected (Page "meters")).
Proof.
  apply (login_lands_on_home protected_route protected_route_user meter_reader "user");
    [reflexivity | reflexivity | simpl; tauto].
Defined.

End Routing.
