(* ===== verification/Widgets.v ===== *)
(** * Two components with logic of their own

    [QRScanner] ([src/frontend/src/components/common/QRScanner.tsx]) keeps
    the text typed in its field and, on submit, hands it to [onScan]
    unless it is empty. [ConfirmationModal]
    ([src/frontend/src/components/common/ConfirmationModal.tsx]) disables
    both of its buttons and shows a spinner while the confirmed action
    runs; clicks on a disabled button do not reach their handlers. The
    calls a component makes to the callbacks of its props are recorded as
    a list. *)

From stdpp Require Import base list strings.
From S2P Require Import Spec2Rocq.

Module Widgets.

(** ** [QRScanner] *)

Record QRScanner := mkQRScanner {
  manualInput : string;
  onScan_calls : list string   (** the arguments [onScan] received *)
}.

Definition initial_scanner : QRScanner := mkQRScanner "" [].

(** [onChange={(e) => setManualInput(e.target.value)}]. *)
Definition onChange (value : string) (q : QRScanner) : QRScanner :=
  mkQRScanner value (onScan_calls q).

(** [handleManualSubmit]: [if (manualInput) onScan(manualInput)]. *)
Definition handleManualSubmit (q : QRScanner) : QRScanner :=
  if String.eqb (manualInput q) "" then q
  else mkQRScanner (manualInput q) (onScan_calls q ⊲ manualInput q).

(** The form's events: typing into the field ([onChange]) and
    submitting it ([onSubmit={handleManualSubmit}], whose
    [e.preventDefault()] keeps the page from reloading). *)
Inductive ScannerEvent := Typed (value : string) | Submitted.

Definition scanner_handle (ev : ScannerEvent) (q : QRScanner) : QRScanner :=
  match ev with
  | Typed value => onChange value q
  | Submitted => handleManualSubmit q
  end.

Definition scanner_run (evs : list ScannerEvent) (q : QRScanner) : QRScanner :=
  fold_left (fun q ev => scanner_handle ev q) evs q.

(** What [onScan] should receive: the field's text at each submission,
    when it is not empty. *)
Fixpoint submitted_values (current : string) (evs : list ScannerEvent) : list string :=
  match evs with
  | [] => []
  | Typed value :: rest => submitted_values value rest
  | Submitted :: rest =>
      (if String.eqb current "" then [] else [current]) ++ submitted_values current rest
  end.

(** ** [ConfirmationModal] *)

Inductive ConfirmLabel := ConfirmText | ConfirmingSpinner.

(** What the footer renders: whether each button is disabled, and the
    confirm button's content. *)
Record Footer := mkFooter { cancel_disabled : bool; confirm_disabled : bool; confirm_label : ConfirmLabel }.

(** [isConfirming = false] when the prop is absent. *)
Definition ConfirmationModal_footer (isConfirming : option bool) : Footer :=
  let busy := default false isConfirming in
  mkFooter busy busy (if busy then ConfirmingSpinner else ConfirmText).

Inductive ModalCall := CallConfirm | CallHide.

(** A click on the confirm or the cancel button. *)
Definition click (isConfirming : option bool) (confirm : bool) (calls : list ModalCall) : list ModalCall :=
  let f := ConfirmationModal_footer isConfirming in
  if confirm then (if confirm_disabled f then calls else calls ⊲ CallConfirm)
  else (if cancel_disabled f then calls else calls ⊲ CallHide).

(** ** Lemmas *)

(** While the action runs, neither button reaches its handler. *)
Lemma click_while_confirming confirm calls : click (Some true) confirm calls = calls.
Proof. destruct confirm; reflexivity. Qed.

(** [onScan] receives exactly the non-empty texts of the field at the
    moments the form is submitted, in order; the field is not cleared, so
    submitting twice sends the same id twice. *)
Lemma scanner_run_calls evs q :
  onScan_calls (scanner_run evs q) = onScan_calls q ++ submitted_values (manualInput q) evs.
Proof.
  revert q. induction evs as [|[value|] rest IH]; intros q; simpl.
  - rewrite app_nil_r. reflexivity.
  - rewrite IH. reflexivity.
  - rewrite IH. unfold handleManualSubmit.
    destruct (String.eqb (manualInput q) ""); simpl; [reflexivity|]. rewrite <- app_assoc. reflexivity.
Qed.

Lemma submitted_values_nonempty current evs : Forall (fun s => s <> "") (submitted_values current evs).
Proof.
  revert current. induction evs as [|[value|] rest IH]; intros current; simpl; [constructor | apply IH|].
  apply Forall_app. split; [|apply IH].
  destruct (String.eqb_spec current ""); constructor; auto.
Qed.

End Widgets.
