(* ===== verification/Views.v ===== *)
(** * What the chrome of a page renders

    [AppSidebar] ([src/frontend/src/components/layout/AppSidebar.tsx])
    renders the role of the signed-in user, one menu entry per link the
    role may see ([Navigation.allowedLinks]), keyed by its target and
    marked active when it is the current path, and the label of the
    current language. [Header] ([src/frontend/src/components/layout/Header.tsx])
    renders a welcome message whose values are the user's name and the
    translation key of the role. [LanguageSwitcher]
    ([src/frontend/src/components/layout/LanguageSwitcher.tsx]) renders
    the language label and two items, one of them marked [active].
    [SkeletonTable] ([src/frontend/src/components/common/SkeletonTable.tsx])
    renders a header row of [cols] cells and [rows] rows of [cols] cells,
    keyed by their indices.

    A view is a record of what the code computes for the page; the markup
    and the class names that do not depend on the state are left out.
    Translation keys stand for their translations. *)

From stdpp Require Import base list strings.
From Stdlib Require Import ZArith Lia.
From S2P Require Import Spec2Rocq Js Navigation Direction Routing.

Import Js Navigation Direction Routing.

Module Views.

(** ** [AppSidebar] *)

(** A [<SidebarMenuItem key={item.to}>] with its [t(item.labelKey)] and
    [isActive={location.pathname === item.to}]. *)
Record MenuEntry := mkEntry { entry_key : string; entry_label : string; entry_active : bool }.

Definition menu_entries (role : option string) (pathname : string) : list MenuEntry :=
  map (fun item => mkEntry (to item) (labelKey item) (String.eqb pathname (to item))) (allowedLinks role).

Record SidebarView := mkSidebarView {
  side_right : bool;             (** [side={isRtl ? "right" : "left"}] *)
  role_text : jsval;             (** [{user?.role || "Guest"}] *)
  menu : list MenuEntry;
  language_text : string         (** the footer's language label *)
}.

Definition AppSidebar (user : jsval) (language pathname : string) : SidebarView :=
  mkSidebarView (sidebar_right language) (js_or (opt_get user "role") (JStr "Guest"))
                (menu_entries (role_of user) pathname) (language_label language).

(** ** [Header] *)

(** The [values] of the [header.welcome] message: [user?.username] and
    [t(`usersPage.roles.${user?.role}`)]. *)
Record Welcome := mkWelcome { welcome_username : jsval; welcome_role_key : string }.

Definition Header_welcome (user : jsval) : Welcome :=
  mkWelcome (opt_get user "username") ("usersPage.roles." +:+ ToString (opt_get user "role")).

(** ** [Layout] *)

(** The frame of every protected page: [<AppSidebar />] beside
    [<Header />] above the page. *)
Record LayoutView := mkLayoutView { layout_sidebar : SidebarView; layout_header : Welcome }.

Definition Layout (user : jsval) (language pathname : string) : LayoutView :=
  mkLayoutView (AppSidebar user language pathname) (Header_welcome user).

(** ** [LanguageSwitcher] *)

Record SwitcherView := mkSwitcher {
  switcher_label : string;       (** the language named on the toggle *)
  english_class : string;
  arabic_class : string
}.

(** [`dropdown-item ${currentLanguage === lang ? "active" : ""}`]. *)
Definition item_class (currentLanguage lang : string) : string :=
  "dropdown-item " +:+ (if String.eqb currentLanguage lang then "active" else "").

Definition LanguageSwitcher (currentLanguage : string) : SwitcherView :=
  mkSwitcher (language_label currentLanguage) (item_class currentLanguage "en") (item_class currentLanguage "ar").

(** ** [SkeletonTable] *)

Definition MAX_SAFE_INTEGER : Z := 9007199254740991.
Definition MAX_ARRAY_LENGTH : Z := 4294967295.

(** [ToLength] of an integer: negative lengths are [0]. *)
Definition ToLength (n : Z) : Z := Z.max 0 (Z.min n MAX_SAFE_INTEGER).

Definition indices (len : Z) : list Z := map Z.of_nat (seq 0 (Z.to_nat len)).

(** [Array.from({ length: n })] as its [map] sees it: the indices it
    visits, or the [RangeError] of [new Array(len)] ([None]) when the
    length exceeds [2^32 - 1]. *)
Definition Array_from_length (n : Z) : option (list Z) :=
  let len := ToLength n in
  if (MAX_ARRAY_LENGTH <? len)%Z then None else Some (indices len).

(** The keys of the header cells, and of each row with its cells. *)
Record Skeleton := mkSkeleton { head_keys : list Z; body_keys : list (Z * list Z) }.

(** [{ rows = 5, cols = 4 }]: the defaults replace [undefined] ([None]).
    The header is built first, then the rows, each building its cells. *)
Definition SkeletonTable (rows cols : option Z) : option Skeleton :=
  let rows := default 5%Z rows in
  let cols := default 4%Z cols in
  match Array_from_length cols with
  | None => None
  | Some hs =>
      match Array_from_length rows with
      | None => None
      | Some rs => mkSkeleton hs <$> mapM (fun rowIndex => pair rowIndex <$> Array_from_length cols) rs
      end
  end.

(** ** [Input] *)

(** What [Input] passes to [FloatingLabel] and [Form.Control]:
    [controlId={props.id || props.name}], [isInvalid={meta.touched &&
    !!meta.error}] and [isValid={meta.touched && !meta.error}]; Formik's
    [meta.error] is a string or [undefined] ([None]). *)
Record InputView := mkInputView { controlId : jsval; isInvalid : bool; isValid : bool }.

Definition error_truthy (error : option string) : bool :=
  match error with Some e => negb (String.eqb e "") | None => false end.

Definition Input (id : jsval) (name : string) (touched : bool) (error : option string) : InputView :=
  mkInputView (js_or id (JStr name)) (touched && error_truthy error) (touched && negb (error_truthy error)).

(** ** Lemmas *)

Lemma NAV_ITEMS_targets_distinct : NoDup (map to NAV_ITEMS).
Proof. apply (bool_decide_unpack _). vm_compute. reflexivity. Qed.

(** The sidebar's React keys are distinct. *)
Lemma menu_keys_distinct role pathname : NoDup (map entry_key (menu_entries role pathname)).
Proof.
  unfold menu_entries. rewrite List.map_map. apply NoDup_map_filter, NAV_ITEMS_targets_distinct.
Qed.

Lemma In_menu_entries role pathname e :
  In e (menu_entries role pathname) <->
  exists item, In item (allowedLinks role) /\ e = mkEntry (to item) (labelKey item) (String.eqb pathname (to item)).
Proof. unfold menu_entries. rewrite in_map_iff. split; intros (item & H1 & H2); eauto. Qed.

(** At most one entry is active, and one is exactly when the path is
    the target of a link the role sees: the comparison is [===], so a
    path the router accepts in other letter case or with a trailing
    slash marks no entry. *)
Lemma menu_active_unique role pathname e1 e2 :
  In e1 (menu_entries role pathname) -> In e2 (menu_entries role pathname) ->
  entry_active e1 = true -> entry_active e2 = true -> e1 = e2.
Proof.
  rewrite !In_menu_entries. intros (i1 & H1 & ->) (i2 & H2 & ->). simpl.
  intros E1%String.eqb_eq E2%String.eqb_eq.
  assert (H : NoDup (map to (allowedLinks role))) by apply NoDup_map_filter, NAV_ITEMS_targets_distinct.
  rewrite (NoDup_map_eq to _ i1 i2 H H1 H2 (eq_trans (eq_sym E1) E2)). reflexivity.
Qed.

Lemma menu_active_iff role pathname :
  (exists e, In e (menu_entries role pathname) /\ entry_active e = true) <->
  In pathname (map to (allowedLinks role)).
Proof.
  rewrite in_map_iff. split.
  - intros (e & Hin & Ha). apply In_menu_entries in Hin as (item & Hi & ->).
    apply String.eqb_eq in Ha. eauto.
  - intros (item & <- & Hi). exists (mkEntry (to item) (labelKey item) true). split; [|reflexivity].
    apply In_menu_entries. exists item. rewrite String.eqb_refl. auto.
Qed.

(** The welcome message names the role's translation key; without a
    role the key is [usersPage.roles.undefined]. *)
Lemma Header_welcome_role user r :
  (opt_get user "role" = JStr r -> welcome_role_key (Header_welcome user) = "usersPage.roles." +:+ r) /\
  (opt_get user "role" = JUndefined -> welcome_role_key (Header_welcome user) = "usersPage.roles.undefined").
Proof. unfold Header_welcome. simpl. split; intros ->; reflexivity. Qed.

Lemma item_class_active cur lang : item_class cur lang = "dropdown-item active" <-> cur = lang.
Proof.
  unfold item_class. destruct (String.eqb_spec cur lang); simpl; split; intros H; try reflexivity; try congruence; discriminate.
Qed.

(** The switcher marks the item of the current language, and none for a
    language code other than [en] and [ar], which its toggle names
    Arabic. *)
Lemma LanguageSwitcher_active cur :
  (english_class (LanguageSwitcher cur) = "dropdown-item active" <-> cur = "en") /\
  (arabic_class (LanguageSwitcher cur) = "dropdown-item active" <-> cur = "ar") /\
  (switcher_label (LanguageSwitcher cur) = "common.english" <-> cur = "en").
Proof.
  simpl. rewrite !item_class_active. split; [tauto|]. split; [tauto|].
  unfold language_label. destruct (String.eqb_spec cur "en"); simpl; split; intros H; try reflexivity; try congruence; discriminate.
Qed.

Lemma mapM_Some_map {A B} (f : A -> option B) (g : A -> B) (l : list A) :
  (forall a, f a = Some (g a)) -> mapM f l = Some (map g l).
Proof. intros Hf. induction l as [|a l IH]; simpl; [reflexivity|]. rewrite Hf, IH. reflexivity. Qed.

(** [SkeletonTable] renders [ToLength cols] header cells and
    [ToLength rows] rows of as many cells, each keyed by its index, and
    throws a [RangeError] when either length exceeds [2^32 - 1]. *)
Lemma SkeletonTable_shape rows cols :
  SkeletonTable (Some rows) (Some cols) =
  if (MAX_ARRAY_LENGTH <? ToLength cols)%Z || (MAX_ARRAY_LENGTH <? ToLength rows)%Z then None
  else Some (mkSkeleton (indices (ToLength cols))
                        (map (fun i => (i, indices (ToLength cols))) (indices (ToLength rows)))).
Proof.
  unfold SkeletonTable. cbn [default from_option id]. unfold Array_from_length.
  destruct (MAX_ARRAY_LENGTH <? ToLength cols)%Z; [reflexivity|].
  destruct (MAX_ARRAY_LENGTH <? ToLength rows)%Z; [reflexivity|].
  rewrite (mapM_Some_map _ (fun i => (i, indices (ToLength cols)))) by reflexivity. reflexivity.
Qed.

Lemma indices_distinct len : NoDup (indices len).
Proof. apply NoDup_map_seq_Z. Qed.

(** The router matches [/Meters] and [/meters/] to the meters page, while
    the sidebar compares the path with [===] and marks no entry. *)
Lemma sidebar_misses_router_paths :
  let admin := JObj [("username", JStr "ali"); ("role", JStr "admin")] in
  segments "/Meters" = ["meters"] /\ segments "/meters/" = ["meters"] /\
  resolve_child (role_of admin) "meters" = Page "meters" /\
  existsb entry_active (menu (AppSidebar admin "en" "/Meters")) = false /\
  existsb entry_active (menu (AppSidebar admin "en" "/meters/")) = false /\
  existsb entry_active (menu (AppSidebar admin "en" "/meters")) = true.
Proof. vm_compute. repeat split. Qed.

(** A touched field is marked exactly one of valid and invalid, an
    untouched one neither; an empty error message counts as no error. *)
Lemma Input_marks touched error id name :
  let v := Input id name touched error in
  negb (isInvalid v && isValid v) = true /\
  (isInvalid v || isValid v) = touched /\
  (isInvalid v = true <-> touched = true /\ exists e, error = Some e /\ e <> "").
Proof.
  simpl. unfold error_truthy.
  destruct touched, error as [e|]; try destruct (String.eqb_spec e ""); subst; simpl;
    split_and!; try reflexivity; naive_solver.
Qed.

(** The sidebar and the header name the same role for a user with a
    non-empty role; an empty role is ["Guest"] in the sidebar and the
    key [usersPage.roles.] in the header. *)
Lemma Layout_role_shown user language pathname r :
  opt_get user "role" = JStr r ->
  let v := Layout user language pathname in
  (welcome_role_key (layout_header v) = "usersPage.roles." +:+ r) /\
  (role_text (layout_sidebar v) = if String.eqb r "" then JStr "Guest" else JStr r).
Proof.
  intros Hr. simpl. rewrite Hr. split; [reflexivity|].
  unfold js_or. simpl. destruct (String.eqb r ""); reflexivity.
Qed.

End Views.
