(* ===== verification/Composition.v ===== *)
(** * The component tree: [src/frontend/src/main.tsx] and [App]'s render

    [main.tsx] renders [App] inside [BrowserRouter], [AlertProvider] and
    [AuthProvider]; [App] renders [TaskProvider] around [AppRoutes] and
    the toaster; [AppRoutes] renders [Layout], with [AppSidebar] and
    [Header], around the protected pages. A hook that reads a context
    finds the nearest provider above its component, and the hooks of the
    code fail without one: [useAuth], [useTask] and [useErrorHandler]
    throw, React Router's [useNavigate] and [useLocation] throw, and
    [AppRoutes] renders an error. [Tree] records, for each component, the
    context it provides to its children and the contexts its own hooks
    read; [unmet] lists the reads no provider above answers.

    [TaskProvider]'s [useAlert] ([src/frontend/src/hooks/useAlert], not
    among the sources) is taken to read the alert context, as
    [useErrorHandler] does. [ProtectedRoute], between [AppRoutes] and
    [Layout], is not among the sources either and provides nothing. *)

From stdpp Require Import base list strings.
From S2P Require Import Spec2Rocq.

Module Composition.

Inductive ReactContext := RouterContext | AlertContext | AuthContext | TaskContext.

#[export] Instance ReactContext_eq_dec : EqDecision ReactContext.
Proof. solve_decision. Defined.

Inductive Tree := Comp (name : string) (provides : option ReactContext) (reads : list ReactContext)
                       (children : list Tree).

(** [Layout]: [AppSidebar] reads [useAuth] and [useLocation], [Header]
    reads [useAuth]. *)
Definition Layout_tree : Tree :=
  Comp "Layout" None []
    [Comp "AppSidebar" None [AuthContext; RouterContext] [];
     Comp "Header" None [AuthContext] []].

(** [App]'s render: [TaskProvider] reads [useAlert]; [AppRoutes] reads
    [useContext(AuthContext)] and [useLocation]. *)
Definition App_tree : Tree :=
  Comp "App" None []
    [Comp "TaskProvider" (Some TaskContext) [AlertContext]
       [Comp "AppRoutes" None [AuthContext; RouterContext] [Layout_tree];
        Comp "Toaster" None [] []]].

(** [main.tsx]: [AuthProvider] reads [useNavigate]. *)
Definition main_tree : Tree :=
  Comp "StrictMode" None []
    [Comp "BrowserRouter" (Some RouterContext) []
       [Comp "AlertProvider" (Some AlertContext) []
          [Comp "AuthProvider" (Some AuthContext) [RouterContext] [App_tree]]]].

(** The reads of [t] and its subtree that no provider in [above] nor
    between answers; a provider does not answer its own hooks. *)
Fixpoint unmet (above : list ReactContext) (t : Tree) : list (string * ReactContext) :=
  match t with
  | Comp name provides reads children =>
      map (pair name) (List.filter (fun c => negb (bool_decide (c ∈ above))) reads) ++
      (fix go (ts : list Tree) : list (string * ReactContext) :=
         match ts with
         | [] => []
         | t' :: ts' =>
             unmet (match provides with Some c => c :: above | None => above end) t' ++ go ts'
         end) children
  end.

(** ** Lemmas *)

(** Every hook of the application finds its provider: none of the
    missing-provider errors can be thrown. *)
Lemma main_tree_providers_met : unmet [] main_tree = [].
Proof. vm_compute. reflexivity. Qed.

(** The order matters: with [AuthProvider] outside [BrowserRouter], its
    [useNavigate] would throw. *)
Lemma auth_outside_router_unmet :
  unmet [] (Comp "AuthProvider" (Some AuthContext) [RouterContext]
              [Comp "BrowserRouter" (Some RouterContext) [] [App_tree]])
  = [("AuthProvider", RouterContext); ("TaskProvider", AlertContext)].
Proof. vm_compute. reflexivity. Qed.

End Composition.
